(** * The learning-platform demo: agent gateway, client store and analytics

    A shallow embedding of the three copies of the application
    ([src/App.tsx], [part_000], [part_001]): the request/response glue to
    the chat-completion endpoint, the enrollment store mirrored to browser
    local storage, and the analytics aggregation.

    ECMAScript values are embedded as [JValue]; numbers are rationals
    extended with NaN and the two infinities, and every sum, product and
    quotient is rounded as binary64 rounds it (the sign of a zero is not
    kept).  The system clock, [Math.random] and the network are oracles read
    through counters of the world state. *)

From Stdlib Require Import QArith Qround Qabs Qpower Ascii Lqa.
From stdpp Require Import base option list strings gmap pretty sorting.

Local Set Warnings "-register-all".
Local Open Scope string_scope.
Local Open Scope list_scope.
Local Open Scope Z_scope.

(** ** ECMAScript numbers and values *)

Inductive JSNum : Type :=
  | Fin (q : Q)
  | NaN
  | PInf
  | NInf.

Definition is_finite (n : JSNum) : bool :=
  match n with Fin _ => true | _ => false end.

Definition num_of_nat (n : nat) : JSNum := Fin (inject_Z (Z.of_nat n)).

Definition Qis_zero (q : Q) : bool := Z.eqb (Qnum q) 0.
Definition Qis_pos (q : Q) : bool := Z.ltb 0 (Qnum q).

(** *** binary64

    A number is kept as the rational it stands for; what an operation
    returns is its exact result rounded to the nearest binary64 number. *)

(** [2^e] *)
Definition pow2 (e : Z) : Q := Qpower 2 e.

(** The integer part of the binary logarithm of a positive rational. *)
Definition ilog2 (q : Q) : Z :=
  let k := (Z.log2 (Qnum q) - Z.log2 (Zpos (Qden q)))%Z in
  if Qle_bool (pow2 k) q then k else (k - 1)%Z.

(** The nearest integer, halves to the even one. *)
Definition rne (x : Q) : Z :=
  let f := Qfloor x in
  match Qcompare (x - inject_Z f) (1 # 2) with
  | Lt => f
  | Gt => (f + 1)%Z
  | Eq => if Z.even f then f else (f + 1)%Z
  end.

(** The exponent of the last place of the binary64 numbers next to [q]: 53
    significant bits, and no place below [2^-1074]. *)
Definition ulp_exponent (q : Q) : Z := Z.max (ilog2 (Qabs q) - 52) (-1074).

(** [q] rounded to the nearest multiple of its last place. *)
Definition nearest (q : Q) : Q :=
  (inject_Z (rne (q / pow2 (ulp_exponent q))) * pow2 (ulp_exponent q))%Q.

(** The binary64 number for the exact result [q]: an infinity when the
    rounded magnitude reaches [2^1024]. *)
Definition round64 (q : Q) : JSNum :=
  if Qis_zero q then Fin 0
  else
    let r := nearest q in
    if Qle_bool (pow2 1024) (Qabs r)
    then (if Qis_pos q then PInf else NInf)
    else Fin r.

(** [x + y] on numbers. *)
Definition num_add (x y : JSNum) : JSNum :=
  match x, y with
  | NaN, _ | _, NaN => NaN
  | PInf, NInf | NInf, PInf => NaN
  | PInf, _ | _, PInf => PInf
  | NInf, _ | _, NInf => NInf
  | Fin a, Fin b => round64 (a + b)%Q
  end.

(** [x * y] on numbers. *)
Definition num_mul (x y : JSNum) : JSNum :=
  match x, y with
  | NaN, _ | _, NaN => NaN
  | Fin a, Fin b => round64 (a * b)%Q
  | Fin a, PInf | PInf, Fin a =>
      if Qis_zero a then NaN else if Qis_pos a then PInf else NInf
  | Fin a, NInf | NInf, Fin a =>
      if Qis_zero a then NaN else if Qis_pos a then NInf else PInf
  | PInf, PInf | NInf, NInf => PInf
  | PInf, NInf | NInf, PInf => NInf
  end.

(** [x / y] on numbers: a zero divisor gives NaN for a zero dividend and an
    infinity otherwise. *)
Definition num_div (x y : JSNum) : JSNum :=
  match x, y with
  | NaN, _ | _, NaN => NaN
  | Fin a, Fin b =>
      if Qis_zero b then
        if Qis_zero a then NaN else if Qis_pos a then PInf else NInf
      else round64 (a / b)%Q
  | Fin _, (PInf | NInf) => Fin 0
  | (PInf | NInf), (PInf | NInf) => NaN
  | PInf, Fin b => if Qis_pos b || Qis_zero b then PInf else NInf
  | NInf, Fin b => if Qis_pos b || Qis_zero b then NInf else PInf
  end.

(** [Math.round]: the nearest integer, halves towards plus infinity. *)
Definition Math_round (x : JSNum) : JSNum :=
  match x with
  | Fin q => Fin (inject_Z (Qfloor (q + (1 # 2))%Q))
  | other => other
  end.

Inductive JValue : Type :=
  | JUndefined
  | JNull
  | JBool (b : bool)
  | JNum (n : JSNum)
  | JStr (s : string)
  | JArr (items : list JValue)
  | JObj (fields : list (string * JValue)).

(** ToBoolean. *)
Definition truthy (v : JValue) : bool :=
  match v with
  | JUndefined | JNull => false
  | JBool b => b
  | JNum (Fin q) => negb (Qis_zero q)
  | JNum NaN => false
  | JNum _ => true
  | JStr s => negb (String.eqb s "")
  | JArr _ | JObj _ => true
  end.

(** [a || b]. *)
Definition js_or (a b : JValue) : JValue := if truthy a then a else b.

Fixpoint assoc (k : string) (fields : list (string * JValue)) : JValue :=
  match fields with
  | [] => JUndefined
  | (k', v) :: rest => if String.eqb k k' then v else assoc k rest
  end.

(** [v.k]: [None] is the TypeError raised on [undefined] and [null].  The
    only built-in property read by the sources is [length]. *)
Definition get (v : JValue) (k : string) : option JValue :=
  match v with
  | JUndefined | JNull => None
  | JObj fields => Some (assoc k fields)
  | JArr items =>
      Some (if String.eqb k "length" then JNum (num_of_nat (length items))
            else JUndefined)
  | JStr s =>
      Some (if String.eqb k "length" then JNum (num_of_nat (String.length s))
            else JUndefined)
  | _ => Some JUndefined
  end.

(** [v?.k]. *)
Definition get_opt (v : JValue) (k : string) : JValue :=
  match get v k with Some x => x | None => JUndefined end.

Notation "v ?. k" := (get_opt v k) (at level 8, k at level 0, left associativity, format "v ?. k").
Notation "a '||j' b" := (js_or a b) (at level 50, left associativity).

(** ** Text: template literals and [JSON.stringify] *)

Definition join (sep : string) (parts : list string) : string :=
  match parts with
  | [] => ""
  | p :: rest => fold_left (fun acc x => acc +:+ sep +:+ x) rest p
  end.

Definition hex_digit (n : N) : ascii :=
  Ascii.ascii_of_N (if (n <? 10)%N then 48 + n else 87 + n)%N.

(** One code unit of QuoteJSONString. *)
Definition json_escape_char (c : ascii) : string :=
  let n := Ascii.N_of_ascii c in
  if (n =? 34)%N then String "\" (String c "")
  else if (n =? 92)%N then String c (String c "")
  else if (n =? 8)%N then "\b"
  else if (n =? 9)%N then "\t"
  else if (n =? 10)%N then "\n"
  else if (n =? 12)%N then "\f"
  else if (n =? 13)%N then "\r"
  else if (n <? 32)%N then
    "\u00" +:+ String (hex_digit (n / 16)) (String (hex_digit (n mod 16)) "")
  else String c "".

Fixpoint json_escape (s : string) : string :=
  match s with
  | EmptyString => ""
  | String c rest => json_escape_char c +:+ json_escape rest
  end.

Definition json_quote (s : string) : string :=
  String "034" (json_escape s +:+ String "034" "").

(** What the sources take from the engine and from [./utils/jsonParser]
    (imported by all three files, not part of the sources at hand). *)
Record Host : Type := {
  (** Number::toString on a finite number *)
  Number_toString : Q -> string;
  (** [new Date(ms).toISOString()] *)
  Date_toISOString : Z -> string;
  (** [JSON.parse]; [None] is the SyntaxError *)
  JSON_parse : string -> option JValue;
  (** the imported helper, applied to a body text or to a parsed body *)
  parseLLMJson : JValue -> JValue
}.

Section Text.
Variable host : Host.

Definition num_text (n : JSNum) : string :=
  match n with
  | Fin q => Number_toString host q
  | NaN => "NaN"
  | PInf => "Infinity"
  | NInf => "-Infinity"
  end.

(** ToString, as applied by template literals. *)
Fixpoint ToString (v : JValue) : string :=
  match v with
  | JUndefined => "undefined"
  | JNull => "null"
  | JBool true => "true"
  | JBool false => "false"
  | JNum n => num_text n
  | JStr s => s
  | JArr items =>
      join "," (map (fun x => match x with
                              | JUndefined | JNull => ""
                              | _ => ToString x
                              end) items)
  | JObj _ => "[object Object]"
  end.

(** [JSON.stringify] of a value; [undefined] is dropped from objects and
    printed as [null] inside arrays. *)
Fixpoint JSON_stringify (v : JValue) : string :=
  match v with
  | JUndefined | JNull => "null"
  | JBool true => "true"
  | JBool false => "false"
  | JNum n => if is_finite n then num_text n else "null"
  | JStr s => json_quote s
  | JArr items => "[" +:+ join "," (map JSON_stringify items) +:+ "]"
  | JObj fields =>
      "{" +:+
      join ","
        ((fix members (fs : list (string * JValue)) : list string :=
            match fs with
            | [] => []
            | (_, JUndefined) :: rest => members rest
            | (k, x) :: rest =>
                (json_quote k +:+ ":" +:+ JSON_stringify x) :: members rest
            end) fields)
      +:+ "}"
  end.
End Text.

(** A host for closed examples: integers print in decimal, and a date is
    shown as its count of milliseconds. *)
Definition decimal_host (parse : string -> option JValue) : Host :=
  {| Number_toString := fun q => pretty (Qfloor q);
     Date_toISOString := fun ms => pretty ms;
     JSON_parse := parse;
     parseLLMJson := fun v => v |}.

(** ** The world: oracles, local storage, requests sent *)

Record Request : Type := {
  url : string;
  method : string;
  headers : list (string * string);
  body : string
}.

(** What [await fetch(...)] meets: a rejected promise, or a response with
    its body text. *)
Inductive FetchOutcome : Type :=
  | NetworkError
  | Response (text : string).

Record Oracle : Type := {
  (** the k-th reading of the system clock, in milliseconds *)
  clock : nat -> Z;
  (** the k-th [Math.random().toString(36).substr(2, 9)] *)
  random36 : nat -> string;
  (** the outcome of the k-th request *)
  network : nat -> FetchOutcome
}.

Record IO : Type := {
  ticks : nat;
  draws : nat;
  sent : list Request;
  localStorage : gmap string string;
  (** errors thrown by state updaters: React runs an updater while it
      renders, so the error reaches no [catch] of the calling handler *)
  render_errors : nat
}.

Record World (St : Type) : Type := { io : IO; ui : St }.
Arguments io {St} _.
Arguments ui {St} _.

Inductive Completion (A : Type) : Type :=
  | Normal (a : A)
  | Throw.
Arguments Normal {A} _.
Arguments Throw {A}.

(** State and exceptions: what was written before a throw stays written. *)
Definition M (St A : Type) : Type := Oracle -> World St -> Completion A * World St.

Section Monad.
Context {St : Type}.

Definition ret {A} (a : A) : M St A := fun _ w => (Normal a, w).

Definition bind {A B} (m : M St A) (k : A -> M St B) : M St B :=
  fun o w =>
    match m o w with
    | (Normal a, w') => k a o w'
    | (Throw, w') => (Throw, w')
    end.

Definition throw {A} : M St A := fun _ w => (Throw, w).

(** [try { body } catch (error) { handler }] *)
Definition try_catch {A} (body handler : M St A) : M St A :=
  fun o w =>
    match body o w with
    | (Normal a, w') => (Normal a, w')
    | (Throw, w') => handler o w'
    end.

Definition lift_option {A} (x : option A) : M St A :=
  match x with Some a => ret a | None => throw end.

Definition get_state : M St St := fun _ w => (Normal (ui w), w).

(** A state setter called with an updater function. *)
Definition modify (f : St -> St) : M St unit :=
  fun _ w => (Normal tt, {| io := io w; ui := f (ui w) |}).

(** A state setter called with an updater that may throw ([None]).  The
    updater runs when React renders, not when the setter is called: the
    handler runs on, the state is left as it was, and the render that threw
    is counted in [render_errors].  None of the three files has an error
    boundary, so React then unmounts the tree and commits nothing that was
    set together with or after the throwing updater.  What a world shows in
    [ui] after such a render is therefore what the handler asked for, not a
    state React committed. *)
Definition update (f : St -> option St) : M St unit :=
  fun _ w =>
    match f (ui w) with
    | Some s' => (Normal tt, {| io := io w; ui := s' |})
    | None =>
        let i := io w in
        (Normal tt,
         {| io := {| ticks := ticks i; draws := draws i; sent := sent i;
                     localStorage := localStorage i;
                     render_errors := S (render_errors i) |};
            ui := ui w |})
    end.

Definition Date_now : M St Z :=
  fun o w =>
    let i := io w in
    (Normal (clock o (ticks i)),
     {| io := {| ticks := S (ticks i); draws := draws i; sent := sent i;
                 localStorage := localStorage i;
                 render_errors := render_errors i |};
        ui := ui w |}).

(** [Math.random().toString(36).substr(2, 9)] *)
Definition random_suffix : M St string :=
  fun o w =>
    let i := io w in
    (Normal (random36 o (draws i)),
     {| io := {| ticks := ticks i; draws := S (draws i); sent := sent i;
                 localStorage := localStorage i;
                 render_errors := render_errors i |};
        ui := ui w |}).

(** [await fetch(url, init)]: the request is logged, the promise rejects
    on a network error, and resolves to the body text otherwise. *)
Definition fetch (req : Request) : M St string :=
  fun o w =>
    let i := io w in
    let w' := {| io := {| ticks := ticks i; draws := draws i;
                          sent := sent i ++ [req];
                          localStorage := localStorage i;
                          render_errors := render_errors i |};
                 ui := ui w |} in
    match network o (length (sent i)) with
    | NetworkError => (Throw, w')
    | Response text => (Normal text, w')
    end.

Definition localStorage_setItem (key value : string) : M St unit :=
  fun _ w =>
    let i := io w in
    (Normal tt,
     {| io := {| ticks := ticks i; draws := draws i; sent := sent i;
                 localStorage := <[key := value]> (localStorage i);
                 render_errors := render_errors i |};
        ui := ui w |}).
End Monad.

Notation "'let!' x := m 'in' k" := (bind m (fun x => k))
  (at level 10, x name, m at level 100, k at level 200).
Notation "'do!' m 'in' k" := (bind m (fun _ => k))
  (at level 10, m at level 100, k at level 200).

Section HostOps.
Context {St : Type} (host : Host).

(** [new Date().toISOString()] *)
Definition new_Date_toISOString : M St string :=
  let! ms := Date_now in ret (Date_toISOString host ms).

(** [await response.json()] *)
Definition response_json (text : string) : M St JValue :=
  lift_option (JSON_parse host text).
End HostOps.

Definition endpoint : string := "https://agent-prod.studio.lyzr.ai/v3/inference/chat/".
Definition api_key : string := "sk-default-obhGvAo6gG9YT9tu6ChjyXLqnw7TxSGY".

(** The [fetch] init object shared by every call site. *)
Definition post (host : Host) (payload : JValue) : Request :=
  {| url := endpoint;
     method := "POST";
     headers := [("Content-Type", "application/json"); ("x-api-key", api_key)];
     body := JSON_stringify host payload |}.

(** ** Chat transcript entries *)

Inductive Role : Type := user | assistant.

Global Instance Role_eq_dec : EqDecision Role.
Proof. solve_decision. Defined.

(** An entry is the object literal pushed by the source: [role], [content]
    and the further properties of that call site, in order. *)
Record ChatEntry : Type := {
  role : Role;
  content : JValue;
  extra : list (string * JValue)
}.

Definition count_role (r : Role) (chat : list ChatEntry) : nat :=
  length (filter (fun e => role e = r) chat).

Definition nl : string := String "010" EmptyString.

(** Number::toString on an integer below 10^21 ([Date.now()], an index). *)
Definition int_text (z : Z) : string := pretty z.

(** ** [src/App.tsx] *)

Module App_tsx.

Module Question.
Record t : Type := {
  id : string;
  text : string;
  type : string;
  options : option (list string);
  correctAnswer : option string
}.
End Question.

Module Assessment.
Record t : Type := { id : string; questions : list Question.t }.
End Assessment.

Module Lesson.
Record t : Type := {
  id : string;
  title : string;
  content : string;
  type : string;
  assessment : option Assessment.t
}.
End Lesson.

Module Course.
Record t : Type := {
  id : string;
  title : string;
  description : string;
  type : string;
  content : string;
  lessons : list Lesson.t;
  status : string
}.
End Course.

Record State : Type := {
  courses : list Course.t;
  currentLesson : option Lesson.t;
  chatMessages : list ChatEntry;
  isChatLoading : bool;
  sessionId : string
}.

Definition setChatMessages (f : list ChatEntry -> list ChatEntry) : M State unit :=
  modify (fun s => {| courses := courses s; currentLesson := currentLesson s;
                      chatMessages := f (chatMessages s);
                      isChatLoading := isChatLoading s; sessionId := sessionId s |}).

Definition setChatMessages_updater (f : list ChatEntry -> option (list ChatEntry))
    : M State unit :=
  update (fun s =>
    chat ← f (chatMessages s);
    Some {| courses := courses s; currentLesson := currentLesson s;
            chatMessages := chat;
            isChatLoading := isChatLoading s; sessionId := sessionId s |}).

Definition setIsChatLoading (b : bool) : M State unit :=
  modify (fun s => {| courses := courses s; currentLesson := currentLesson s;
                      chatMessages := chatMessages s;
                      isChatLoading := b; sessionId := sessionId s |}).

Definition setSessionId (v : string) : M State unit :=
  modify (fun s => {| courses := courses s; currentLesson := currentLesson s;
                      chatMessages := chatMessages s;
                      isChatLoading := isChatLoading s; sessionId := v |}).

Definition LEARN_AGENT : string := "68e0e0af615699d53b623bae".
Definition EVAL_AGENT : string := "68e0e0bc615699d53e623bae".

Section WithHost.
Variable host : Host.

(** The effect run once on mount. *)
Definition useEffect_sessionId : M State unit :=
  let! now := Date_now in
  let! r := random_suffix in
  setSessionId ("session-" +:+ int_text now +:+ "-" +:+ r).

Definition callAgent (agentId message : string) : M State JValue :=
  try_catch
    (let! now := Date_now in
     let! r := random_suffix in
     let userId := "user-" +:+ int_text now +:+ "-" +:+ r in
     let! s := get_state in
     let! data :=
       fetch (post host (JObj [("user_id", JStr userId);
                               ("agent_id", JStr agentId);
                               ("session_id", JStr (sessionId s));
                               ("message", JStr message)])) in
     ret (parseLLMJson host (JStr data)))
    (ret JNull).

Definition learning_prompt (lesson : Lesson.t) (question : string) : string :=
  "Lesson: " +:+ String "034" (Lesson.title lesson +:+ String "034" nl)
  +:+ "Content: " +:+ Lesson.content lesson +:+ nl +:+ nl
  +:+ "Question: " +:+ question.

Definition handleLearningQuestion (question : string) : M State unit :=
  let! s := get_state in
  match currentLesson s with
  | None => ret tt
  | Some lesson =>
      do! setIsChatLoading true in
      do! setChatMessages (fun prev =>
            prev ++ [{| role := user; content := JStr question; extra := [] |}]) in
      let! response := callAgent LEARN_AGENT (learning_prompt lesson question) in
      do! (if truthy response then
             setChatMessages_updater (fun prev =>
               result ← get response "result";
               reply ← get result "response";
               key_points ← get result "key_points";
               followup ← get result "suggested_followup";
               Some (prev ++
                 [{| role := assistant;
                     content := reply ||j
                       JStr "I could not process your question at the moment.";
                     extra := [("key_points", key_points);
                               ("suggested_followup", followup)] |}]))
           else ret tt) in
      setIsChatLoading false
  end.

Definition find_by {A} (id_of : A -> string) (key : string) (l : list A) : option A :=
  List.find (fun x => String.eqb (id_of x) key) l.

Definition answer_line (a : Assessment.t) (entry : string * string) : string :=
  let '(qid, ans) := entry in
  "Question " +:+ qid +:+ ": "
  +:+ match find_by Question.id qid (Assessment.questions a) with
      | Some q => Question.text q
      | None => "undefined"
      end
  +:+ nl +:+ "Answer: " +:+ ans.

Definition grading_prompt (course : Course.t) (lesson : Lesson.t)
    (a : Assessment.t) (answers : list (string * string)) : string :=
  "Assessment for lesson " +:+ String "034" (Lesson.title lesson)
  +:+ String "034" " in course " +:+ String "034" (Course.title course)
  +:+ String "034" (nl +:+ nl) +:+ "Answers:" +:+ nl
  +:+ join (nl +:+ nl) (map (answer_line a) answers).

(** [Object.entries(answers)] is the list of pairs [answers]. *)
Definition evaluateAssessment (courseId lessonId : string)
    (answers : list (string * string)) : M State JValue :=
  do! setIsChatLoading true in
  let! s := get_state in
  let course := find_by Course.id courseId (courses s) in
  let lesson :=
    match course with
    | Some c => find_by Lesson.id lessonId (Course.lessons c)
    | None => None
    end in
  match course, lesson with
  | Some c, Some l =>
      match Lesson.assessment l with
      | None => ret JNull
      | Some a =>
          let! response := callAgent EVAL_AGENT (grading_prompt c l a answers) in
          do! (if truthy response then
                 setChatMessages_updater (fun prev =>
                   result ← get response "result";
                   summary ← get result "summary";
                   score ← get result "score";
                   feedback ← get result "question_feedback";
                   Some (prev ++
                     [{| role := assistant;
                         content := summary ||j
                           JStr ("Assessment completed! Score: "
                                 +:+ ToString host score +:+ "/100");
                         extra := [("score", score); ("feedback", feedback)] |}]))
               else ret tt) in
          do! setIsChatLoading false in
          ret response
      end
  | _, _ => ret JNull
  end.
End WithHost.
End App_tsx.

(** ** Records shared by [part_000] and [part_001]

    The optional properties of the wider interfaces of [part_000] are
    [None] in records built by [part_001]. *)

Inductive UserRole : Type := hr | employee.

Module User.
Record t : Type := {
  id : string;
  email : string;
  name : string;
  role : UserRole;
  organization : option string
}.
End User.

Module QuizQuestion.
Record t : Type := {
  id : string;
  question : JValue;
  type : string;
  options : option (list string);
  correctAnswer : JValue;
  explanation : option string
}.
End QuizQuestion.

Module LearningModule.
Record t : Type := {
  id : string;
  title : string;
  description : string;
  content : string;
  quiz : list QuizQuestion.t;
  assignedTo : list string;
  createdBy : string;
  createdAt : string;
  updatedAt : option string;
  isActive : option bool
}.
End LearningModule.

Module Enrollment.
Record t : Type := {
  id : string;
  userId : string;
  moduleId : string;
  progress : JSNum;
  completed : bool;
  score : option JSNum;
  startedAt : string;
  completedAt : option string;
  answers : option (list JValue);
  (** not in the interface; added by [updateProgress] of [part_000] *)
  updatedAt : option string
}.
End Enrollment.

Definition opt_json {A} (f : A -> JValue) (x : option A) : JValue :=
  match x with Some a => f a | None => JUndefined end.

Definition QuizQuestion_json (q : QuizQuestion.t) : JValue :=
  JObj [("id", JStr (QuizQuestion.id q));
        ("question", QuizQuestion.question q);
        ("type", JStr (QuizQuestion.type q));
        ("options", opt_json (fun l => JArr (map JStr l)) (QuizQuestion.options q));
        ("correctAnswer", QuizQuestion.correctAnswer q);
        ("explanation", opt_json JStr (QuizQuestion.explanation q))].

Definition LearningModule_json (m : LearningModule.t) : JValue :=
  JObj [("id", JStr (LearningModule.id m));
        ("title", JStr (LearningModule.title m));
        ("description", JStr (LearningModule.description m));
        ("content", JStr (LearningModule.content m));
        ("quiz", JArr (map QuizQuestion_json (LearningModule.quiz m)));
        ("assignedTo", JArr (map JStr (LearningModule.assignedTo m)));
        ("createdBy", JStr (LearningModule.createdBy m));
        ("createdAt", JStr (LearningModule.createdAt m));
        ("updatedAt", opt_json JStr (LearningModule.updatedAt m));
        ("isActive", opt_json JBool (LearningModule.isActive m))].

Definition Enrollment_json (e : Enrollment.t) : JValue :=
  JObj [("id", JStr (Enrollment.id e));
        ("userId", JStr (Enrollment.userId e));
        ("moduleId", JStr (Enrollment.moduleId e));
        ("progress", JNum (Enrollment.progress e));
        ("completed", JBool (Enrollment.completed e));
        ("score", opt_json JNum (Enrollment.score e));
        ("startedAt", JStr (Enrollment.startedAt e));
        ("completedAt", opt_json JStr (Enrollment.completedAt e));
        ("answers", opt_json JArr (Enrollment.answers e));
        ("updatedAt", opt_json JStr (Enrollment.updatedAt e))].

(** The in-memory arrays as the values handed to [JSON.stringify]. *)
Definition modules_json (ms : list LearningModule.t) : JValue :=
  JArr (map LearningModule_json ms).
Definition enrollments_json (es : list Enrollment.t) : JValue :=
  JArr (map Enrollment_json es).

Record ModuleForm : Type := {
  form_title : string;
  form_description : string;
  form_content : string;
  form_quiz : list QuizQuestion.t
}.

Definition empty_form : ModuleForm :=
  {| form_title := ""; form_description := ""; form_content := ""; form_quiz := [] |}.

Record GradeResults : Type := {
  grade_score : JValue;
  grade_total : JSNum;
  grade_feedback : JValue;
  grade_gaps : JValue
}.

Definition LEARN_AGENT_ID : string := "68e06493010a31eba989047d".
Definition EVAL_AGENT_ID : string := "68e064a097fff316128efaa2".

(** [const generateRandomId = () => Math.random().toString(36).substr(2, 9)] *)
Definition generateRandomId {St} : M St string := random_suffix.

(** [items.map((x, index) => f x index)] with an effectful callback. *)
Fixpoint mapM_index {St A B} (f : A -> nat -> M St B) (index : nat) (items : list A)
    : M St (list B) :=
  match items with
  | [] => ret []
  | x :: rest =>
      let! y := f x index in
      let! ys := mapM_index f (S index) rest in
      ret (y :: ys)
  end.

(** ** [part_000] *)

Module part_000.

Record State : Type := {
  currentUser : option User.t;
  modules : list LearningModule.t;
  enrollments : list Enrollment.t;
  agentChat : list ChatEntry;
  isTyping : bool;
  currentQuiz : option (list QuizQuestion.t);
  currentQuizIndex : JSNum;
  gradeResults : option GradeResults;
  isGrading : bool;
  moduleForm : ModuleForm;
  assignedUsers : list string;
  showCreateModule : bool
}.

Definition with_currentUser (v : option User.t) (s : State) : State :=
  {| currentUser := v; modules := modules s; enrollments := enrollments s;
  agentChat := agentChat s; isTyping := isTyping s; currentQuiz :=
  currentQuiz s; currentQuizIndex := currentQuizIndex s; gradeResults :=
  gradeResults s; isGrading := isGrading s; moduleForm := moduleForm s;
  assignedUsers := assignedUsers s; showCreateModule := showCreateModule s
  |}.

Definition with_modules (v : list LearningModule.t) (s : State) : State :=
  {| currentUser := currentUser s; modules := v; enrollments :=
  enrollments s; agentChat := agentChat s; isTyping := isTyping s;
  currentQuiz := currentQuiz s; currentQuizIndex := currentQuizIndex s;
  gradeResults := gradeResults s; isGrading := isGrading s; moduleForm :=
  moduleForm s; assignedUsers := assignedUsers s; showCreateModule :=
  showCreateModule s |}.

Definition with_enrollments (v : list Enrollment.t) (s : State) : State :=
  {| currentUser := currentUser s; modules := modules s; enrollments := v;
  agentChat := agentChat s; isTyping := isTyping s; currentQuiz :=
  currentQuiz s; currentQuizIndex := currentQuizIndex s; gradeResults :=
  gradeResults s; isGrading := isGrading s; moduleForm := moduleForm s;
  assignedUsers := assignedUsers s; showCreateModule := showCreateModule s
  |}.

Definition with_agentChat (v : list ChatEntry) (s : State) : State :=
  {| currentUser := currentUser s; modules := modules s; enrollments :=
  enrollments s; agentChat := v; isTyping := isTyping s; currentQuiz :=
  currentQuiz s; currentQuizIndex := currentQuizIndex s; gradeResults :=
  gradeResults s; isGrading := isGrading s; moduleForm := moduleForm s;
  assignedUsers := assignedUsers s; showCreateModule := showCreateModule s
  |}.

Definition with_isTyping (v : bool) (s : State) : State :=
  {| currentUser := currentUser s; modules := modules s; enrollments :=
  enrollments s; agentChat := agentChat s; isTyping := v; currentQuiz :=
  currentQuiz s; currentQuizIndex := currentQuizIndex s; gradeResults :=
  gradeResults s; isGrading := isGrading s; moduleForm := moduleForm s;
  assignedUsers := assignedUsers s; showCreateModule := showCreateModule s
  |}.

Definition with_currentQuiz (v : option (list QuizQuestion.t)) (s : State) : State :=
  {| currentUser := currentUser s; modules := modules s; enrollments :=
  enrollments s; agentChat := agentChat s; isTyping := isTyping s;
  currentQuiz := v; currentQuizIndex := currentQuizIndex s; gradeResults
  := gradeResults s; isGrading := isGrading s; moduleForm := moduleForm s;
  assignedUsers := assignedUsers s; showCreateModule := showCreateModule s
  |}.

Definition with_currentQuizIndex (v : JSNum) (s : State) : State :=
  {| currentUser := currentUser s; modules := modules s; enrollments :=
  enrollments s; agentChat := agentChat s; isTyping := isTyping s;
  currentQuiz := currentQuiz s; currentQuizIndex := v; gradeResults :=
  gradeResults s; isGrading := isGrading s; moduleForm := moduleForm s;
  assignedUsers := assignedUsers s; showCreateModule := showCreateModule s
  |}.

Definition with_gradeResults (v : option GradeResults) (s : State) : State :=
  {| currentUser := currentUser s; modules := modules s; enrollments :=
  enrollments s; agentChat := agentChat s; isTyping := isTyping s;
  currentQuiz := currentQuiz s; currentQuizIndex := currentQuizIndex s;
  gradeResults := v; isGrading := isGrading s; moduleForm := moduleForm s;
  assignedUsers := assignedUsers s; showCreateModule := showCreateModule s
  |}.

Definition with_isGrading (v : bool) (s : State) : State :=
  {| currentUser := currentUser s; modules := modules s; enrollments :=
  enrollments s; agentChat := agentChat s; isTyping := isTyping s;
  currentQuiz := currentQuiz s; currentQuizIndex := currentQuizIndex s;
  gradeResults := gradeResults s; isGrading := v; moduleForm := moduleForm
  s; assignedUsers := assignedUsers s; showCreateModule :=
  showCreateModule s |}.

Definition with_moduleForm (v : ModuleForm) (s : State) : State :=
  {| currentUser := currentUser s; modules := modules s; enrollments :=
  enrollments s; agentChat := agentChat s; isTyping := isTyping s;
  currentQuiz := currentQuiz s; currentQuizIndex := currentQuizIndex s;
  gradeResults := gradeResults s; isGrading := isGrading s; moduleForm :=
  v; assignedUsers := assignedUsers s; showCreateModule :=
  showCreateModule s |}.

Definition with_assignedUsers (v : list string) (s : State) : State :=
  {| currentUser := currentUser s; modules := modules s; enrollments :=
  enrollments s; agentChat := agentChat s; isTyping := isTyping s;
  currentQuiz := currentQuiz s; currentQuizIndex := currentQuizIndex s;
  gradeResults := gradeResults s; isGrading := isGrading s; moduleForm :=
  moduleForm s; assignedUsers := v; showCreateModule := showCreateModule s
  |}.

Definition with_showCreateModule (v : bool) (s : State) : State :=
  {| currentUser := currentUser s; modules := modules s; enrollments :=
  enrollments s; agentChat := agentChat s; isTyping := isTyping s;
  currentQuiz := currentQuiz s; currentQuizIndex := currentQuizIndex s;
  gradeResults := gradeResults s; isGrading := isGrading s; moduleForm :=
  moduleForm s; assignedUsers := assignedUsers s; showCreateModule := v
  |}.

Definition setModules (v : list LearningModule.t) : M State unit :=
  modify (with_modules v).
Definition setEnrollments (v : list Enrollment.t) : M State unit :=
  modify (with_enrollments v).
Definition setIsTyping (v : bool) : M State unit := modify (with_isTyping v).
Definition setCurrentQuiz (v : option (list QuizQuestion.t)) : M State unit :=
  modify (with_currentQuiz v).
Definition setCurrentQuizIndex (v : JSNum) : M State unit :=
  modify (with_currentQuizIndex v).
Definition setGradeResults (v : option GradeResults) : M State unit :=
  modify (with_gradeResults v).
Definition setIsGrading (v : bool) : M State unit := modify (with_isGrading v).
Definition setModuleForm (v : ModuleForm) : M State unit := modify (with_moduleForm v).
Definition setAssignedUsers (v : list string) : M State unit :=
  modify (with_assignedUsers v).
Definition setShowCreateModule (v : bool) : M State unit :=
  modify (with_showCreateModule v).

(** [setEnrollments(prev => ...)] and [setAgentChat(prev => ...)]. *)
Definition setEnrollments_updater
    (f : list Enrollment.t -> option (list Enrollment.t)) : M State unit :=
  update (fun s => es ← f (enrollments s); Some (with_enrollments es s)).
Definition setAgentChat_updater
    (f : list ChatEntry -> option (list ChatEntry)) : M State unit :=
  update (fun s => chat ← f (agentChat s); Some (with_agentChat chat s)).

(** [currentUser!.id]: a TypeError when nobody is signed in. *)
Definition currentUser_id : M State string :=
  let! s := get_state in
  lift_option (User.id <$> currentUser s).

Definition same_user (cu : option User.t) (e : Enrollment.t) : bool :=
  match cu with
  | Some u => String.eqb (Enrollment.userId e) (User.id u)
  | None => false
  end.

Definition new_enrollment (id uid moduleId startedAt : string)
    (answers : option (list JValue)) : Enrollment.t :=
  {| Enrollment.id := id; Enrollment.userId := uid;
     Enrollment.moduleId := moduleId; Enrollment.progress := Fin 0;
     Enrollment.completed := false; Enrollment.score := None;
     Enrollment.startedAt := startedAt; Enrollment.completedAt := None;
     Enrollment.answers := answers; Enrollment.updatedAt := None |}.

(** [{ ...e, progress, updatedAt }] *)
Definition spread_progress (e : Enrollment.t) (progress : JSNum)
    (updatedAt : option string) : Enrollment.t :=
  {| Enrollment.id := Enrollment.id e; Enrollment.userId := Enrollment.userId e;
     Enrollment.moduleId := Enrollment.moduleId e; Enrollment.progress := progress;
     Enrollment.completed := Enrollment.completed e;
     Enrollment.score := Enrollment.score e;
     Enrollment.startedAt := Enrollment.startedAt e;
     Enrollment.completedAt := Enrollment.completedAt e;
     Enrollment.answers := Enrollment.answers e;
     Enrollment.updatedAt :=
       match updatedAt with Some t => Some t | None => Enrollment.updatedAt e end |}.

(** [{ ...e, progress: 100, completed: true, completedAt, score, answers }] *)
Definition spread_completed (e : Enrollment.t) (completedAt : string)
    (score : JSNum) (answers : list JValue) : Enrollment.t :=
  {| Enrollment.id := Enrollment.id e; Enrollment.userId := Enrollment.userId e;
     Enrollment.moduleId := Enrollment.moduleId e;
     Enrollment.progress := Fin (inject_Z 100);
     Enrollment.completed := true; Enrollment.score := Some score;
     Enrollment.startedAt := Enrollment.startedAt e;
     Enrollment.completedAt := Some completedAt;
     Enrollment.answers := Some answers;
     Enrollment.updatedAt := Enrollment.updatedAt e |}.

Definition chat_line (r : Role) (text : JValue) (more : list (string * JValue))
    : ChatEntry :=
  {| role := r; content := text; extra := more |}.

Section WithHost.
Variable host : Host.

Definition createModule : M State unit :=
  let! id := generateRandomId in
  let! s := get_state in
  let! createdBy := currentUser_id in
  let! createdAt := new_Date_toISOString host in
  let! updatedAt := new_Date_toISOString host in
  let newModule :=
    {| LearningModule.id := id;
       LearningModule.title := form_title (moduleForm s);
       LearningModule.description := form_description (moduleForm s);
       LearningModule.content := form_content (moduleForm s);
       LearningModule.quiz := form_quiz (moduleForm s);
       LearningModule.assignedTo := assignedUsers s;
       LearningModule.createdBy := createdBy;
       LearningModule.createdAt := createdAt;
       LearningModule.updatedAt := Some updatedAt;
       LearningModule.isActive := Some true |} in
  let updatedModules := modules s ++ [newModule] in
  do! setModules updatedModules in
  do! localStorage_setItem "hr_modules_v2"
        (JSON_stringify host (modules_json updatedModules)) in
  do! setModuleForm empty_form in
  do! setAssignedUsers [] in
  setShowCreateModule false.

Definition enrollInModule (moduleId : string) : M State unit :=
  let! s := get_state in
  let existingEnrollments := List.filter (same_user (currentUser s)) (enrollments s) in
  if existsb (fun e => String.eqb (Enrollment.moduleId e) moduleId) existingEnrollments
  then ret tt
  else
    let! id := generateRandomId in
    let! uid := currentUser_id in
    let! startedAt := new_Date_toISOString host in
    let newEnrollment := new_enrollment id uid moduleId startedAt (Some []) in
    let updatedEnrollments := enrollments s ++ [newEnrollment] in
    do! setEnrollments updatedEnrollments in
    localStorage_setItem "hr_enrollments_v2"
      (JSON_stringify host (enrollments_json updatedEnrollments)).

Definition updateProgress (enrollmentId : string) (progress : JSNum) : M State unit :=
  let! s := get_state in
  let! updatedEnrollments :=
    mapM_index (fun e _ =>
      if String.eqb (Enrollment.id e) enrollmentId
      then let! now := new_Date_toISOString host in
           ret (spread_progress e progress (Some now))
      else ret e) 0 (enrollments s) in
  do! setEnrollments updatedEnrollments in
  localStorage_setItem "hr_enrollments_v2"
    (JSON_stringify host (enrollments_json updatedEnrollments)).

Definition completeEnrollment (enrollmentId : string) (score : JSNum)
    (answers : list JValue) : M State unit :=
  let! s := get_state in
  let! updatedEnrollments :=
    mapM_index (fun e _ =>
      if String.eqb (Enrollment.id e) enrollmentId
      then let! now := new_Date_toISOString host in
           ret (spread_completed e now score answers)
      else ret e) 0 (enrollments s) in
  do! setEnrollments updatedEnrollments in
  localStorage_setItem "hr_enrollments_v2"
    (JSON_stringify host (enrollments_json updatedEnrollments)).

Definition gateway_payload (userId agentId sessionId message : string) : JValue :=
  JObj [("user_id", JStr userId); ("agent_id", JStr agentId);
        ("session_id", JStr sessionId); ("message", JStr message)].

Definition learn_envelope (moduleContent userMessage requestType : string) : JValue :=
  JObj [("module_content", JStr moduleContent);
        ("user_query", JStr userMessage);
        ("request_type", JStr requestType)].

(** [requestType] defaults to ['explanation'] at the call sites. *)
Definition callLearnAgent (userMessage moduleContent requestType : string)
    : M State unit :=
  do! setIsTyping true in
  let! t1 := Date_now in
  let! r := random_suffix in
  let userId := "user_" +:+ int_text t1 +:+ "_" +:+ r in
  let! t2 := Date_now in
  let sessionId := "learn_" +:+ LEARN_AGENT_ID +:+ "_" +:+ int_text t2 in
  let agentMessage := learn_envelope moduleContent userMessage requestType in
  do! try_catch
        (let! text :=
           fetch (post host (gateway_payload userId LEARN_AGENT_ID sessionId
                               (JSON_stringify host agentMessage))) in
         let! data := response_json host text in
         let parsedResponse := parseLLMJson host data in
         let! asked := new_Date_toISOString host in
         let! answered := new_Date_toISOString host in
         setAgentChat_updater (fun prev => Some (prev ++
           [chat_line user (JStr userMessage)
              [("timestamp", JStr asked); ("requestType", JStr requestType)];
            chat_line assistant
              (parsedResponse?."response"?."content" ||j
               JStr "I understand your question but need more context from the module content to provide a specific answer.")
              [("timestamp", JStr answered);
               ("confidence",
                parsedResponse?."response"?."confidence" ||j JNum (Fin 0));
               ("sourceSection",
                parsedResponse?."response"?."source_reference"?."section"
                ||j JStr "General")]])))
        (let! asked := new_Date_toISOString host in
         let! answered := new_Date_toISOString host in
         setAgentChat_updater (fun prev => Some (prev ++
           [chat_line user (JStr userMessage)
              [("timestamp", JStr asked); ("requestType", JStr requestType)];
            chat_line assistant
              (JStr "I'm having trouble processing your request right now. Please try again in a moment.")
              [("timestamp", JStr answered);
               ("confidence", JNum (Fin 0));
               ("sourceSection", JStr "Error")]]))) in
  setIsTyping false.

Definition array_items (v : JValue) : option (list JValue) :=
  match v with JArr items => Some items | _ => None end.

(** The callback of [questions.map((q, index) => ...)]. *)
Definition generated_question (q : JValue) (index : nat) : M State QuizQuestion.t :=
  let! now := Date_now in
  let! question := lift_option (get q "question") in
  let! expected := lift_option (get q "expected_answer") in
  ret {| QuizQuestion.id :=
           "gen_" +:+ int_text (Z.of_nat index) +:+ "_" +:+ int_text now;
         QuizQuestion.question := question ||j JStr "Generated question";
         QuizQuestion.type := "true-false";
         QuizQuestion.options := None;
         QuizQuestion.correctAnswer := expected ||j JStr "True";
         QuizQuestion.explanation :=
           Some "AI-generated question based on course content" |}.

Definition fallbackQuestions : list QuizQuestion.t :=
  [{| QuizQuestion.id := "default_1";
      QuizQuestion.question :=
        JStr "What are the key concepts from this learning module?";
      QuizQuestion.type := "short-answer";
      QuizQuestion.options := None;
      QuizQuestion.correctAnswer :=
        JStr "Analysis of primary concepts based on the provided content";
      QuizQuestion.explanation :=
        Some "Assess understanding of main course concepts" |}].

Definition errorQuestions : list QuizQuestion.t :=
  [{| QuizQuestion.id := "error_1";
      QuizQuestion.question :=
        JStr "Summarize the main points from this learning module.";
      QuizQuestion.type := "short-answer";
      QuizQuestion.options := None;
      QuizQuestion.correctAnswer :=
        JStr "Key concepts and insights from the provided learning content";
      QuizQuestion.explanation := Some "Basic comprehension assessment" |}].

Definition quiz_envelope (moduleContent : string) : JValue :=
  JObj [("module_content", JStr moduleContent);
        ("assessment_type", JStr "quiz");
        ("history", JStr "")].

(** Every path of the source returns from inside [try]/[catch]; the
    [setIsTyping(false)] written after them is never reached. *)
Definition generateAssessment (moduleContent : string)
    : M State (list QuizQuestion.t) :=
  do! setIsTyping true in
  let! t1 := Date_now in
  let! r := random_suffix in
  let userId := "hr_" +:+ int_text t1 +:+ "_" +:+ r in
  let! t2 := Date_now in
  let sessionId := "eval_" +:+ EVAL_AGENT_ID +:+ "_" +:+ int_text t2 in
  let agentMessage := quiz_envelope moduleContent in
  try_catch
    (let! text :=
       fetch (post host (gateway_payload userId EVAL_AGENT_ID sessionId
                           (JSON_stringify host agentMessage))) in
     let! data := response_json host text in
     let parsedResponse := parseLLMJson host data in
     let questions := parsedResponse?."assessment"?."questions" in
     if truthy questions then
       let! items := lift_option (array_items questions) in
       let! generatedQuestions := mapM_index generated_question 0 items in
       do! setCurrentQuiz (Some generatedQuestions) in
       do! setCurrentQuizIndex (Fin 0) in
       do! setGradeResults None in
       ret generatedQuestions
     else
       do! setCurrentQuiz (Some fallbackQuestions) in
       ret fallbackQuestions)
    (do! setCurrentQuiz (Some errorQuestions) in
     ret errorQuestions).

Definition gap (topic recommendation : string) : JValue :=
  JObj [("topic", JStr topic); ("recommendation", JStr recommendation)].

Definition evaluation_envelope (moduleContent answersString : string)
    (history : option string) : JValue :=
  JObj [("module_content", JStr moduleContent);
        ("assessment_type", JStr "evaluation");
        ("user_response", JStr answersString);
        ("history", opt_json JStr history ||j JStr "")].

(** [Object.entries(userResponses)] is the list of pairs [userResponses].
    The result is the value the source returns: [undefined] after the
    [catch] branch. *)
Definition evaluateAssessment (moduleContent : string)
    (userResponses : list (string * JValue)) (history : option string)
    : M State JValue :=
  do! setIsGrading true in
  let! t1 := Date_now in
  let! r := random_suffix in
  let userId := "student_" +:+ int_text t1 +:+ "_" +:+ r in
  let! t2 := Date_now in
  let sessionId := "eval_" +:+ EVAL_AGENT_ID +:+ "_" +:+ int_text t2 in
  let answersString :=
    join "; " (map (fun '(questionId, answer) =>
                      questionId +:+ ": " +:+ ToString host answer) userResponses) in
  let agentMessage := evaluation_envelope moduleContent answersString history in
  let! returned :=
    try_catch
      (let! text :=
         fetch (post host (gateway_payload userId EVAL_AGENT_ID sessionId
                             (JSON_stringify host agentMessage))) in
       let! data := response_json host text in
       let parsedResponse := parseLLMJson host data in
       if truthy parsedResponse?."assessment"?."evaluation" then
         let! assessment := lift_option (get parsedResponse "assessment") in
         let! evaluation := lift_option (get assessment "evaluation") in
         let! score := lift_option (get evaluation "score") in
         let! feedback := lift_option (get evaluation "feedback") in
         let! gaps := lift_option (get evaluation "gaps_identified") in
         do! setGradeResults (Some
               {| grade_score := score ||j JNum (Fin 0);
                  grade_total := Fin (inject_Z 100);
                  grade_feedback :=
                    feedback ||j JStr "Thank you for completing the assessment.";
                  grade_gaps := gaps ||j JArr [] |}) in
         ret (Some (JObj [("score", score ||j JNum (Fin 0));
                          ("feedback", feedback);
                          ("gaps", gaps ||j JArr [])]))
       else
         do! setGradeResults (Some
               {| grade_score := JNum (Fin (inject_Z 75));
                  grade_total := Fin (inject_Z 100);
                  grade_feedback :=
                    JStr "Good effort on the assessment. Here are some areas for improvement:";
                  grade_gaps :=
                    JArr [gap "Content comprehension"
                            "Review the module content more thoroughly";
                          gap "Application of concepts"
                            "Practice applying learned concepts to new scenarios"] |}) in
         ret (Some (JObj [("score", JNum (Fin (inject_Z 75)));
                          ("feedback", JStr "Assessment completed");
                          ("gaps", JArr [])])))
      (do! setGradeResults (Some
             {| grade_score := JNum (Fin (inject_Z 60));
                grade_total := Fin (inject_Z 100);
                grade_feedback :=
                  JStr "Assessment evaluation encountered an error. Based on your responses, focus on reviewing the core module concepts.";
                grade_gaps :=
                  JArr [gap "System processing"
                          "Please retry the assessment or contact support"] |}) in
       ret None) in
  match returned with
  | Some result => ret result
  | None => do! setIsGrading false in ret JUndefined
  end.

(** *** Analytics *)

(** [a || b] on numbers. *)
Definition num_or (a b : JSNum) : JSNum := if truthy (JNum a) then a else b.

(** [e.score || 0] *)
Definition score_or_zero (e : Enrollment.t) : JSNum :=
  match Enrollment.score e with
  | Some n => num_or n (Fin 0)
  | None => Fin 0
  end.

Record PopularModule : Type := {
  pm_moduleId : string;
  pm_title : string;
  pm_enrollments : nat
}.

Record HRAnalytics : Type := {
  totalModules : nat;
  totalEnrollments : nat;
  completionRate : JSNum;
  averageScore : JSNum;
  popularModules : list PopularModule
}.

(** [Array.prototype.sort] with [(a, b) => b.enrollments - a.enrollments]:
    stable, larger counts first. *)
Fixpoint insert_desc (x : PopularModule) (sorted : list PopularModule)
    : list PopularModule :=
  match sorted with
  | [] => [x]
  | y :: rest =>
      if (pm_enrollments x <? pm_enrollments y)%nat
      then y :: insert_desc x rest
      else x :: y :: rest
  end.

Definition sort_desc (l : list PopularModule) : list PopularModule :=
  foldr insert_desc [] l.

Definition calculateAnalytics (s : State) : HRAnalytics :=
  let completedEnrollments := List.filter Enrollment.completed (enrollments s) in
  let completionRate :=
    if (0 <? length (enrollments s))%nat
    then num_mul (num_div (num_of_nat (length completedEnrollments))
                          (num_of_nat (length (enrollments s))))
                 (Fin (inject_Z 100))
    else Fin 0 in
  let averageScore :=
    num_or (num_div (fold_left (fun sum e => num_add sum (score_or_zero e))
                               completedEnrollments (Fin 0))
                    (num_of_nat (length completedEnrollments)))
           (Fin 0) in
  let moduleEnrollments :=
    sort_desc (map (fun m =>
      {| pm_moduleId := LearningModule.id m;
         pm_title := LearningModule.title m;
         pm_enrollments :=
           length (List.filter (fun e => String.eqb (Enrollment.moduleId e)
                                                    (LearningModule.id m))
                               (enrollments s)) |}) (modules s)) in
  {| totalModules := length (modules s);
     totalEnrollments := length (enrollments s);
     completionRate := Math_round completionRate;
     averageScore := Math_round averageScore;
     popularModules := firstn 5 moduleEnrollments |}.

(** *** The definitions repeated further down the file (lines 551-638) *)

Definition enrollInModule_l551 (moduleId : string) : M State unit :=
  let! id := generateRandomId in
  let! uid := currentUser_id in
  let! startedAt := new_Date_toISOString host in
  let newEnrollment := new_enrollment id uid moduleId startedAt None in
  let! s := get_state in
  setEnrollments (enrollments s ++ [newEnrollment]).

Definition updateProgress_l564 (enrollmentId : string) (progress : JSNum)
    : M State unit :=
  setEnrollments_updater (fun prev =>
    Some (map (fun e => if String.eqb (Enrollment.id e) enrollmentId
                        then spread_progress e progress None
                        else e) prev)).

Definition question_prompt (moduleContent message : string) : string :=
  "Module content: " +:+ moduleContent +:+ nl +:+ nl +:+ "Question: " +:+ message.

Definition callLearnAgent_l570 (message moduleContent : string) : M State unit :=
  do! setIsTyping true in
  let! t1 := Date_now in
  let userId := "user" +:+ int_text t1 +:+ "@test.com" in
  let! t2 := Date_now in
  let sessionId := "learn-" +:+ LEARN_AGENT_ID +:+ "-" +:+ int_text t2 in
  do! try_catch
        (let! text :=
           fetch (post host (gateway_payload userId LEARN_AGENT_ID sessionId
                               (question_prompt moduleContent message))) in
         let! data := response_json host text in
         let parsedResponse := parseLLMJson host data in
         setAgentChat_updater (fun prev =>
           response ← get parsedResponse "response";
           Some (prev ++
             [chat_line user (JStr message) [];
              chat_line assistant
                (response?."content" ||j JStr "No response") []])))
        (setAgentChat_updater (fun prev => Some (prev ++
           [chat_line user (JStr message) [];
            chat_line assistant
              (JStr "Sorry, I encountered an error processing your request.") []]))) in
  setIsTyping false.

Definition generation_prompt (content : string) : string :=
  "Generate assessment questions for this content: " +:+ content.

Definition callEvalAgent (content : string) : M State unit :=
  do! setIsTyping true in
  let! t1 := Date_now in
  let userId := "user" +:+ int_text t1 +:+ "@test.com" in
  let! t2 := Date_now in
  let sessionId := "eval-" +:+ EVAL_AGENT_ID +:+ "-" +:+ int_text t2 in
  do! try_catch
        (let! text :=
           fetch (post host (gateway_payload userId EVAL_AGENT_ID sessionId
                               (generation_prompt content))) in
         let! data := response_json host text in
         let parsedResponse := parseLLMJson host data in
         setAgentChat_updater (fun prev =>
           assessment ← get parsedResponse "assessment";
           Some (prev ++
             [chat_line assistant
                (JStr ("Generated "
                       +:+ ToString host (assessment?."questions"?."length"
                                          ||j JNum (Fin 0))
                       +:+ " questions. Score: "
                       +:+ ToString host (assessment?."evaluation"?."score"
                                          ||j JStr "N/A"))) []])))
        (setAgentChat_updater (fun prev => Some (prev ++
           [chat_line assistant
              (JStr "Sorry, I encountered an error generating the assessment.") []]))) in
  setIsTyping false.
End WithHost.
End part_000.

(** ** [part_001] *)

Module part_001.

(** [modules_changed] and [enrollments_changed] are React's bookkeeping
    for the dependency arrays of the two persistence effects: a setter
    that installs a new array marks its dependency, and the next commit
    runs the marked effects. *)
Record State : Type := {
  currentUser : option User.t;
  modules : list LearningModule.t;
  enrollments : list Enrollment.t;
  agentChat : list ChatEntry;
  isTyping : bool;
  moduleForm : ModuleForm;
  showCreateModule : bool;
  modules_changed : bool;
  enrollments_changed : bool
}.

Definition with_currentUser (v : option User.t) (s : State) : State :=
  {| currentUser := v; modules := modules s; enrollments := enrollments s;
  agentChat := agentChat s; isTyping := isTyping s; moduleForm :=
  moduleForm s; showCreateModule := showCreateModule s; modules_changed :=
  modules_changed s; enrollments_changed := enrollments_changed s |}.

Definition with_modules (v : list LearningModule.t) (s : State) : State :=
  {| currentUser := currentUser s; modules := v; enrollments :=
  enrollments s; agentChat := agentChat s; isTyping := isTyping s;
  moduleForm := moduleForm s; showCreateModule := showCreateModule s;
  modules_changed := modules_changed s; enrollments_changed :=
  enrollments_changed s |}.

Definition with_enrollments (v : list Enrollment.t) (s : State) : State :=
  {| currentUser := currentUser s; modules := modules s; enrollments := v;
  agentChat := agentChat s; isTyping := isTyping s; moduleForm :=
  moduleForm s; showCreateModule := showCreateModule s; modules_changed :=
  modules_changed s; enrollments_changed := enrollments_changed s |}.

Definition with_agentChat (v : list ChatEntry) (s : State) : State :=
  {| currentUser := currentUser s; modules := modules s; enrollments :=
  enrollments s; agentChat := v; isTyping := isTyping s; moduleForm :=
  moduleForm s; showCreateModule := showCreateModule s; modules_changed :=
  modules_changed s; enrollments_changed := enrollments_changed s |}.

Definition with_isTyping (v : bool) (s : State) : State :=
  {| currentUser := currentUser s; modules := modules s; enrollments :=
  enrollments s; agentChat := agentChat s; isTyping := v; moduleForm :=
  moduleForm s; showCreateModule := showCreateModule s; modules_changed :=
  modules_changed s; enrollments_changed := enrollments_changed s |}.

Definition with_moduleForm (v : ModuleForm) (s : State) : State :=
  {| currentUser := currentUser s; modules := modules s; enrollments :=
  enrollments s; agentChat := agentChat s; isTyping := isTyping s;
  moduleForm := v; showCreateModule := showCreateModule s; modules_changed
  := modules_changed s; enrollments_changed := enrollments_changed s |}.

Definition with_showCreateModule (v : bool) (s : State) : State :=
  {| currentUser := currentUser s; modules := modules s; enrollments :=
  enrollments s; agentChat := agentChat s; isTyping := isTyping s;
  moduleForm := moduleForm s; showCreateModule := v; modules_changed :=
  modules_changed s; enrollments_changed := enrollments_changed s |}.

Definition with_modules_changed (v : bool) (s : State) : State :=
  {| currentUser := currentUser s; modules := modules s; enrollments :=
  enrollments s; agentChat := agentChat s; isTyping := isTyping s;
  moduleForm := moduleForm s; showCreateModule := showCreateModule s;
  modules_changed := v; enrollments_changed := enrollments_changed s |}.

Definition with_enrollments_changed (v : bool) (s : State) : State :=
  {| currentUser := currentUser s; modules := modules s; enrollments :=
  enrollments s; agentChat := agentChat s; isTyping := isTyping s;
  moduleForm := moduleForm s; showCreateModule := showCreateModule s;
  modules_changed := modules_changed s; enrollments_changed := v |}.

Definition setModules (v : list LearningModule.t) : M State unit :=
  modify (fun s => with_modules_changed true (with_modules v s)).
Definition setEnrollments (v : list Enrollment.t) : M State unit :=
  modify (fun s => with_enrollments_changed true (with_enrollments v s)).
Definition setIsTyping (v : bool) : M State unit := modify (with_isTyping v).
Definition setModuleForm (v : ModuleForm) : M State unit := modify (with_moduleForm v).
Definition setShowCreateModule (v : bool) : M State unit :=
  modify (with_showCreateModule v).

Definition setEnrollments_updater
    (f : list Enrollment.t -> option (list Enrollment.t)) : M State unit :=
  update (fun s => es ← f (enrollments s);
                   Some (with_enrollments_changed true (with_enrollments es s))).
Definition setAgentChat_updater
    (f : list ChatEntry -> option (list ChatEntry)) : M State unit :=
  update (fun s => chat ← f (agentChat s); Some (with_agentChat chat s)).

Definition currentUser_id : M State string :=
  let! s := get_state in
  lift_option (User.id <$> currentUser s).

Section WithHost.
Variable host : Host.

(** [useEffect(() => localStorage.setItem('hr_modules', ...), [modules])] *)
Definition useEffect_modules : M State unit :=
  let! s := get_state in
  localStorage_setItem "hr_modules" (JSON_stringify host (modules_json (modules s))).

(** [useEffect(() => localStorage.setItem('hr_enrollments', ...), [enrollments])] *)
Definition useEffect_enrollments : M State unit :=
  let! s := get_state in
  localStorage_setItem "hr_enrollments"
    (JSON_stringify host (enrollments_json (enrollments s))).

(** The commit after a render: the effects whose dependency changed. *)
Definition commit : M State unit :=
  let! s := get_state in
  do! (if modules_changed s then useEffect_modules else ret tt) in
  do! (if enrollments_changed s then useEffect_enrollments else ret tt) in
  modify (fun s => with_modules_changed false (with_enrollments_changed false s)).

(** An event handler followed by the render it schedules. *)
Definition dispatch (handler : M State unit) : M State unit :=
  fun o w => commit o (handler o w).2.

Definition createModule : M State unit :=
  let! id := generateRandomId in
  let! s := get_state in
  let! createdBy := currentUser_id in
  let! createdAt := new_Date_toISOString host in
  let newModule :=
    {| LearningModule.id := id;
       LearningModule.title := form_title (moduleForm s);
       LearningModule.description := form_description (moduleForm s);
       LearningModule.content := form_content (moduleForm s);
       LearningModule.quiz := form_quiz (moduleForm s);
       LearningModule.assignedTo := [];
       LearningModule.createdBy := createdBy;
       LearningModule.createdAt := createdAt;
       LearningModule.updatedAt := None;
       LearningModule.isActive := None |} in
  do! setModules (modules s ++ [newModule]) in
  do! setModuleForm empty_form in
  setShowCreateModule false.

Definition enrollInModule (moduleId : string) : M State unit :=
  let! id := generateRandomId in
  let! uid := currentUser_id in
  let! startedAt := new_Date_toISOString host in
  let newEnrollment := part_000.new_enrollment id uid moduleId startedAt None in
  let! s := get_state in
  setEnrollments (enrollments s ++ [newEnrollment]).

Definition updateProgress (enrollmentId : string) (progress : JSNum)
    : M State unit :=
  setEnrollments_updater (fun prev =>
    Some (map (fun e => if String.eqb (Enrollment.id e) enrollmentId
                        then part_000.spread_progress e progress None
                        else e) prev)).

Definition callLearnAgent (message moduleContent : string) : M State unit :=
  do! setIsTyping true in
  let! t1 := Date_now in
  let userId := "user" +:+ int_text t1 +:+ "@test.com" in
  let! t2 := Date_now in
  let sessionId := "learn-" +:+ LEARN_AGENT_ID +:+ "-" +:+ int_text t2 in
  do! try_catch
        (let! text :=
           fetch (post host (part_000.gateway_payload userId LEARN_AGENT_ID sessionId
                               (part_000.question_prompt moduleContent message))) in
         let! data := response_json host text in
         let parsedResponse := parseLLMJson host data in
         setAgentChat_updater (fun prev =>
           response ← get parsedResponse "response";
           Some (prev ++
             [part_000.chat_line user (JStr message) [];
              part_000.chat_line assistant
                (response?."content" ||j JStr "No response") []])))
        (setAgentChat_updater (fun prev => Some (prev ++
           [part_000.chat_line user (JStr message) [];
            part_000.chat_line assistant
              (JStr "Sorry, I encountered an error processing your request.") []]))) in
  setIsTyping false.

Definition callEvalAgent (content : string) : M State unit :=
  do! setIsTyping true in
  let! t1 := Date_now in
  let userId := "user" +:+ int_text t1 +:+ "@test.com" in
  let! t2 := Date_now in
  let sessionId := "eval-" +:+ EVAL_AGENT_ID +:+ "-" +:+ int_text t2 in
  do! try_catch
        (let! text :=
           fetch (post host (part_000.gateway_payload userId EVAL_AGENT_ID sessionId
                               (part_000.generation_prompt content))) in
         let! data := response_json host text in
         let parsedResponse := parseLLMJson host data in
         setAgentChat_updater (fun prev =>
           assessment ← get parsedResponse "assessment";
           Some (prev ++
             [part_000.chat_line assistant
                (JStr ("Generated "
                       +:+ ToString host (assessment?."questions"?."length"
                                          ||j JNum (Fin 0))
                       +:+ " questions. Score: "
                       +:+ ToString host (assessment?."evaluation"?."score"
                                          ||j JStr "N/A"))) []])))
        (setAgentChat_updater (fun prev => Some (prev ++
           [part_000.chat_line assistant
              (JStr "Sorry, I encountered an error generating the assessment.") []]))) in
  setIsTyping false.
End WithHost.
End part_001.


(** ** Running a call *)

(** The world after running [m]. *)
Definition exec {St A} (m : M St A) (o : Oracle) (w : World St) : World St := (m o w).2.

(** How [m] completes. *)
Definition completion {St A} (m : M St A) (o : Oracle) (w : World St) : Completion A :=
  (m o w).1.

(** The reply the k-th request hands to a call site that reads the body with
    [response.json()]: [None] when the request fails or the body is not
    JSON, else the helper's result on the parsed body. *)
Definition json_reply (host : Host) (o : Oracle) (k : nat) : option JValue :=
  match network o k with
  | NetworkError => None
  | Response text => parseLLMJson host <$> JSON_parse host text
  end.

(** The value [callAgent] of [src/App.tsx] returns for the k-th request: it
    reads the body with [response.text()], and returns [null] on failure. *)
Definition text_reply (host : Host) (o : Oracle) (k : nat) : JValue :=
  match network o k with
  | NetworkError => JNull
  | Response text => parseLLMJson host (JStr text)
  end.

(** [null] and [undefined]: the values a property read throws on. *)
Definition nullish (v : JValue) : bool :=
  match v with JUndefined | JNull => true | _ => false end.

(** [after] extends [before] by entries with exactly the roles [roles]. *)
Definition appends (roles : list Role) (before after : list ChatEntry) : Prop :=
  exists delta, after = before ++ delta /\ map role delta = roles.

(** The wording of the specification: one user entry and one assistant
    entry are appended. *)
Definition appends_one_each (before after : list ChatEntry) : Prop :=
  exists delta,
    after = before ++ delta /\
    count_role user delta = 1%nat /\ count_role assistant delta = 1%nat.

(** ** The JSON-extraction helper *)

Module jsonParser.

Definition open_brace : ascii := "{"%char.
Definition close_brace : ascii := "}"%char.

(** The text up to and including the closing brace that matches an opening
    brace already read, [depth] further braces being open; [None] when the
    text ends before that. *)
Fixpoint close_block (depth : nat) (s : string) : option string :=
  match s with
  | EmptyString => None
  | String c rest =>
      if Ascii.eqb c close_brace then
        match depth with
        | O => Some (String c EmptyString)
        | S d => String c <$> close_block d rest
        end
      else if Ascii.eqb c open_brace then String c <$> close_block (S depth) rest
      else String c <$> close_block depth rest
  end.

(** The first brace-delimited block of a text: from the first opening
    brace that has a matching closing brace, to that closing brace.  Braces
    are counted wherever they stand, inside string literals as well: the
    spec names a pattern over the text, not a JSON scanner. *)
Fixpoint first_brace_block (s : string) : option string :=
  match s with
  | EmptyString => None
  | String c rest =>
      if Ascii.eqb c open_brace then
        match close_block 0 rest with
        | Some body => Some (String c body)
        | None => first_brace_block rest
        end
      else first_brace_block rest
  end.

(** Modelled from the spec: the default export of [./utils/jsonParser],
    imported by the three files and absent from the sources.  The spec says
    it "tries direct parse, then regex-extracts the first [{...}] block, then
    fails soft", that it "extracts the first brace-delimited object from
    text containing extra prose" and returns "a safe default for unparsable
    input"; the default itself is not named by the spec and is the
    parameter [safe_default].  [parse] is [JSON.parse], [None] being its
    SyntaxError. *)
Definition parseLLMJson (parse : string -> option JValue) (safe_default : JValue)
    (text : string) : JValue :=
  match parse text with
  | Some value => value
  | None =>
      match first_brace_block text with
      | Some block =>
          match parse block with
          | Some value => value
          | None => safe_default
          end
      | None => safe_default
      end
  end.

End jsonParser.

(** [c] does not occur in [s]. *)
Fixpoint free_of (c : ascii) (s : string) : bool :=
  match s with
  | EmptyString => true
  | String x rest => negb (Ascii.eqb x c) && free_of c rest
  end.

(** Text in which every brace is matched: characters other than braces, and
    matched text in braces. *)
Inductive balanced : string -> Prop :=
  | balanced_empty : balanced ""
  | balanced_char (c : ascii) (s : string) :
      c <> jsonParser.open_brace -> c <> jsonParser.close_brace ->
      balanced s -> balanced (String c s)
  | balanced_nest (inner s : string) :
      balanced inner -> balanced s ->
      balanced (String jsonParser.open_brace
                  (inner +:+ String jsonParser.close_brace s)).

(** A brace-delimited block around [inner]. *)
Definition brace_block (inner : string) : string :=
  String jsonParser.open_brace (inner +:+ String jsonParser.close_brace "").

(** ** Vocabulary of the statements *)

(** The payload every call site serialises. *)
Definition four_fields (userId agentId sessionId message : string) : JValue :=
  JObj [("user_id", JStr userId); ("agent_id", JStr agentId);
        ("session_id", JStr sessionId); ("message", JStr message)].

(** The text of the single entry [callEvalAgent] pushes for a reply. *)
Definition generated_summary (host : Host) (parsed : JValue) : JValue :=
  JStr ("Generated "
        +:+ ToString host (parsed?."assessment"?."questions"?."length" ||j JNum (Fin 0))
        +:+ " questions. Score: "
        +:+ ToString host (parsed?."assessment"?."evaluation"?."score" ||j JStr "N/A")).

(** The assistant entry [handleLearningQuestion] pushes for a reply that
    has a [result]. *)
Definition learning_answer (reply : JValue) : ChatEntry :=
  {| role := assistant;
     content := reply?."result"?."response" ||j
                JStr "I could not process your question at the moment.";
     extra := [("key_points", reply?."result"?."key_points");
               ("suggested_followup", reply?."result"?."suggested_followup")] |}.

(** The grade stored for a reply with an evaluation. *)
Definition evaluation_grade (evaluation : JValue) : GradeResults :=
  {| grade_score := evaluation?."score" ||j JNum (Fin 0);
     grade_total := Fin (inject_Z 100);
     grade_feedback :=
       evaluation?."feedback" ||j JStr "Thank you for completing the assessment.";
     grade_gaps := evaluation?."gaps_identified" ||j JArr [] |}.

(** The grade stored for a reply without an evaluation. *)
Definition default_grade : GradeResults :=
  {| grade_score := JNum (Fin (inject_Z 75));
     grade_total := Fin (inject_Z 100);
     grade_feedback :=
       JStr "Good effort on the assessment. Here are some areas for improvement:";
     grade_gaps :=
       JArr [part_000.gap "Content comprehension"
               "Review the module content more thoroughly";
             part_000.gap "Application of concepts"
               "Practice applying learned concepts to new scenarios"] |}.

(** The grade stored when the request or [response.json()] throws. *)
Definition error_grade : GradeResults :=
  {| grade_score := JNum (Fin (inject_Z 60));
     grade_total := Fin (inject_Z 100);
     grade_feedback :=
       JStr "Assessment evaluation encountered an error. Based on your responses, focus on reviewing the core module concepts.";
     grade_gaps :=
       JArr [part_000.gap "System processing"
               "Please retry the assessment or contact support"] |}.

(** [Object.entries(userResponses).map(...).join('; ')] *)
Definition answersString (host : Host) (userResponses : list (string * JValue)) : string :=
  join "; " (map (fun '(questionId, answer) =>
                    questionId +:+ ": " +:+ ToString host answer) userResponses).

(** Only the clock moves between [w] and [w']. *)
Definition clock_advanced {St} (w w' : World St) : Prop :=
  ui w' = ui w /\ sent (io w') = sent (io w) /\ draws (io w') = draws (io w)
  /\ localStorage (io w') = localStorage (io w)
  /\ render_errors (io w') = render_errors (io w).

(** Decimal digits, for reading a timestamp back from an id. *)
Definition is_digit (c : ascii) : bool :=
  let n := Ascii.N_of_ascii c in ((48 <=? n) && (n <=? 57))%N.

Fixpoint all_digits (s : string) : bool :=
  match s with
  | EmptyString => true
  | String c rest => is_digit c && all_digits rest
  end.

(** The enrollment array of [part_000] is mirrored under [key]. *)
Definition mirrors_enrollments (host : Host) (key : string)
    (w : World part_000.State) : Prop :=
  localStorage (io w) !! key =
  Some (JSON_stringify host (enrollments_json (part_000.enrollments (ui w)))).

(** The module array of [part_000] is mirrored under [key]. *)
Definition mirrors_modules (host : Host) (key : string)
    (w : World part_000.State) : Prop :=
  localStorage (io w) !! key =
  Some (JSON_stringify host (modules_json (part_000.modules (ui w)))).

(** Both arrays of [part_001] are mirrored under its two keys. *)
Definition part_001_mirrored (host : Host) (w : World part_001.State) : Prop :=
  localStorage (io w) !! "hr_modules" =
    Some (JSON_stringify host (modules_json (part_001.modules (ui w))))
  /\ localStorage (io w) !! "hr_enrollments" =
    Some (JSON_stringify host (enrollments_json (part_001.enrollments (ui w)))).

(** ** Concrete worlds for the examples *)

Definition fresh_io : IO :=
  {| ticks := 0; draws := 0; sent := []; localStorage := ∅; render_errors := 0 |}.

Definition alice : User.t :=
  {| User.id := "u1"; User.email := "alice@example.org"; User.name := "Alice";
     User.role := employee; User.organization := None |}.

Definition part_000_world (es : list Enrollment.t) : World part_000.State :=
  {| io := fresh_io;
     ui := {| part_000.currentUser := Some alice; part_000.modules := [];
              part_000.enrollments := es; part_000.agentChat := [];
              part_000.isTyping := false; part_000.currentQuiz := None;
              part_000.currentQuizIndex := Fin 0; part_000.gradeResults := None;
              part_000.isGrading := false; part_000.moduleForm := empty_form;
              part_000.assignedUsers := []; part_000.showCreateModule := false |} |}.

Definition part_001_world (es : list Enrollment.t) : World part_001.State :=
  {| io := fresh_io;
     ui := {| part_001.currentUser := Some alice; part_001.modules := [];
              part_001.enrollments := es; part_001.agentChat := [];
              part_001.isTyping := false; part_001.moduleForm := empty_form;
              part_001.showCreateModule := false;
              part_001.modules_changed := false;
              part_001.enrollments_changed := false |} |}.

Definition fire_safety : App_tsx.Lesson.t :=
  {| App_tsx.Lesson.id := "1-1"; App_tsx.Lesson.title := "Fire Safety";
     App_tsx.Lesson.content := "Always maintain clear evacuation routes.";
     App_tsx.Lesson.type := "text"; App_tsx.Lesson.assessment := None |}.

Definition App_world : World App_tsx.State :=
  {| io := fresh_io;
     ui := {| App_tsx.courses := []; App_tsx.currentLesson := Some fire_safety;
              App_tsx.chatMessages := []; App_tsx.isChatLoading := false;
              App_tsx.sessionId := "session-1700000000000-k3j2h1g0f" |} |}.

(** Every request fails; the clock advances by one millisecond a reading. *)
Definition offline : Oracle :=
  {| clock := fun k => 1700000000000 + Z.of_nat k;
     random36 := fun _ => "k3j2h1g0f";
     network := fun _ => NetworkError |}.

(** Every request is answered with the body [text]. *)
Definition answering (text : string) : Oracle :=
  {| clock := fun k => 1700000000000 + Z.of_nat k;
     random36 := fun _ => "k3j2h1g0f";
     network := fun _ => Response text |}.

(** Two calls within one millisecond, with different random draws. *)
Definition same_millisecond : Oracle :=
  {| clock := fun _ => 1700000000000;
     random36 := fun k => match k with O => "k3j2h1g0f" | _ => "z9y8x7w6v" end;
     network := fun _ => NetworkError |}.

(** A host whose [JSON.parse] accepts every body as the value [v]. *)
Definition host_parsing (v : JValue) : Host := decimal_host (fun _ => Some v).

(** A host for which no body is JSON. *)
Definition host_rejecting : Host := decimal_host (fun _ => None).

(** A [JSON.parse] that knows one document. *)
Definition parse_only (document : string) (value : JValue) (s : string) : option JValue :=
  if String.eqb s document then Some value else None.

(** ** The rest of the files: sign-in, bulk assignment, the dashboards *)

(** The views of [part_000]; [part_001] has the first three only, and of the
    sign-in modes [login] and [register]. *)
Inductive View : Type :=
  | view_auth
  | hr_dashboard
  | employee_dashboard
  | learning_workspace
  | quiz_workspace.

Inductive AuthMode : Type := login | register | oauth.

Module AuthForm.
Record t : Type := {
  email : string;
  password : string;
  name : string;
  (** absent from the form of [part_001] *)
  organization : string;
  role : UserRole
}.
End AuthForm.

(** [role === 'hr' ? 'hr-dashboard' : 'employee-dashboard'] *)
Definition dashboard_of (r : UserRole) : View :=
  match r with hr => hr_dashboard | employee => employee_dashboard end.

Definition role_text (r : UserRole) : string :=
  match r with hr => "hr" | employee => "employee" end.

Definition User_json (u : User.t) : JValue :=
  JObj [("id", JStr (User.id u));
        ("email", JStr (User.email u));
        ("name", JStr (User.name u));
        ("role", JStr (role_text (User.role u)));
        ("organization", opt_json JStr (User.organization u))].

Fixpoint starts_with (sub s : string) : bool :=
  match sub, s with
  | EmptyString, _ => true
  | String _ _, EmptyString => false
  | String a sub', String b s' => Ascii.eqb a b && starts_with sub' s'
  end.

(** [s.includes(sub)] *)
Fixpoint includes (s sub : string) : bool :=
  starts_with sub s
  || match s with
     | EmptyString => false
     | String _ rest => includes rest sub
     end.

(** [s.split(sep)] for a one-character separator. *)
Fixpoint split_on (sep : ascii) (s : string) : list string :=
  match s with
  | EmptyString => [""]
  | String c rest =>
      if Ascii.eqb c sep then "" :: split_on sep rest
      else match split_on sep rest with
           | piece :: pieces => String c piece :: pieces
           | [] => [String c ""]
           end
  end.

(** White space and line terminators among the code units below 256. *)
Definition is_space (c : ascii) : bool :=
  let n := Ascii.N_of_ascii c in
  ((9 <=? n) && (n <=? 13) || (n =? 32) || (n =? 160))%N.

Fixpoint trimStart (s : string) : string :=
  match s with
  | EmptyString => ""
  | String c rest => if is_space c then trimStart rest else s
  end.

Fixpoint trimEnd (s : string) : string :=
  match s with
  | EmptyString => ""
  | String c rest =>
      match trimEnd rest with
      | EmptyString => if is_space c then "" else String c ""
      | kept => String c kept
      end
  end.

(** [s.trim()] *)
Definition trim (s : string) : string := trimEnd (trimStart s).

Definition nonempty (s : string) : bool := negb (String.eqb s "").

(** [const myEnrollments = enrollments.filter(e => e.userId === currentUser?.id)]
    of [EmployeeDashboard], the same in [part_000] and [part_001]. *)
Definition myEnrollments (currentUser : option User.t) (enrollments : list Enrollment.t)
    : list Enrollment.t :=
  List.filter (part_000.same_user currentUser) enrollments.

(** [const availableModules =
       modules.filter(m => !myEnrollments.some(e => e.moduleId === m.id))] *)
Definition availableModules (currentUser : option User.t)
    (modules : list LearningModule.t) (enrollments : list Enrollment.t)
    : list LearningModule.t :=
  List.filter
    (fun m => negb (existsb (fun e => String.eqb (Enrollment.moduleId e)
                                                 (LearningModule.id m))
                            (myEnrollments currentUser enrollments)))
    modules.

Module part_000_rest.

(** The state of [part_000.State] together with the state variables that
    sign-in and bulk assignment read and write. *)
Record State : Type := {
  app : part_000.State;
  view : View;
  authMode : AuthMode;
  authForm : AuthForm.t;
  bulkEmail : string
}.

Definition with_app (v : part_000.State) (s : State) : State :=
  {| app := v; view := view s; authMode := authMode s; authForm := authForm s;
     bulkEmail := bulkEmail s |}.

Definition with_view (v : View) (s : State) : State :=
  {| app := app s; view := v; authMode := authMode s; authForm := authForm s;
     bulkEmail := bulkEmail s |}.

Definition with_bulkEmail (v : string) (s : State) : State :=
  {| app := app s; view := view s; authMode := authMode s; authForm := authForm s;
     bulkEmail := v |}.

Definition setCurrentUser (v : option User.t) : M State unit :=
  modify (fun s => with_app (part_000.with_currentUser v (app s)) s).
Definition setView (v : View) : M State unit := modify (with_view v).
Definition setAssignedUsers (v : list string) : M State unit :=
  modify (fun s => with_app (part_000.with_assignedUsers v (app s)) s).
Definition setBulkEmail (v : string) : M State unit := modify (with_bulkEmail v).

(** A function of the component run on the wider state. *)
Definition on_app {A} (m : M part_000.State A) : M State A :=
  fun o w =>
    let '(c, w') := m o {| io := io w; ui := app (ui w) |} in
    (c, {| io := io w'; ui := with_app (ui w') (ui w) |}).

Section WithHost.
Variable host : Host.

(** [e.preventDefault()] has no effect on the state. *)
Definition handleAuth : M State unit :=
  let! s := get_state in
  let form := authForm s in
  match authMode s with
  | register =>
      let! id := generateRandomId in
      let newUser :=
        {| User.id := id; User.email := AuthForm.email form;
           User.name := AuthForm.name form; User.role := AuthForm.role form;
           User.organization := Some (AuthForm.organization form) |} in
      do! setCurrentUser (Some newUser) in
      do! localStorage_setItem "hr_users_v2"
            (JSON_stringify host (JArr [User_json newUser])) in
      setView (dashboard_of (AuthForm.role form))
  | _ =>
      let isOrganizationEmail :=
        includes (AuthForm.email form) "company" || includes (AuthForm.email form) "org" in
      let! id := generateRandomId in
      let mockUser :=
        {| User.id := id; User.email := AuthForm.email form;
           User.name := "Test User";
           User.role := if isOrganizationEmail then hr else employee;
           User.organization :=
             Some (if isOrganizationEmail then "Company Corporation"
                   else "Standard Employee") |} in
      do! setCurrentUser (Some mockUser) in
      do! localStorage_setItem "hr_users_v2"
            (JSON_stringify host (JArr [User_json mockUser])) in
      setView (dashboard_of (User.role mockUser))
  end.

Definition assignByBulkEmail : M State unit :=
  let! s := get_state in
  let emails :=
    List.filter nonempty (map trim (split_on ","%char (bulkEmail s))) in
  do! setAssignedUsers (part_000.assignedUsers (app s) ++ emails) in
  setBulkEmail "".

End WithHost.
End part_000_rest.

Module part_001_rest.

(** The state of [part_001.State] together with the state variables that
    sign-in reads and writes. *)
Record State : Type := {
  app : part_001.State;
  view : View;
  authMode : AuthMode;
  authForm : AuthForm.t
}.

Definition with_app (v : part_001.State) (s : State) : State :=
  {| app := v; view := view s; authMode := authMode s; authForm := authForm s |}.

Definition with_view (v : View) (s : State) : State :=
  {| app := app s; view := v; authMode := authMode s; authForm := authForm s |}.

Definition setCurrentUser (v : option User.t) : M State unit :=
  modify (fun s => with_app (part_001.with_currentUser v (app s)) s).
Definition setView (v : View) : M State unit := modify (with_view v).

Definition handleAuth : M State unit :=
  let! s := get_state in
  let form := authForm s in
  match authMode s with
  | register =>
      let! id := generateRandomId in
      let newUser :=
        {| User.id := id; User.email := AuthForm.email form;
           User.name := AuthForm.name form; User.role := AuthForm.role form;
           User.organization := None |} in
      do! setCurrentUser (Some newUser) in
      setView (dashboard_of (AuthForm.role form))
  | _ =>
      let! id := generateRandomId in
      let mockUser :=
        {| User.id := id; User.email := AuthForm.email form;
           User.name := "Test User";
           User.role := if includes (AuthForm.email form) "hr" then hr else employee;
           User.organization := None |} in
      do! setCurrentUser (Some mockUser) in
      setView (dashboard_of (User.role mockUser))
  end.

End part_001_rest.

Module App_rest.

(** The state of [App_tsx.State] together with the text of the chat input. *)
Record State : Type := {
  app : App_tsx.State;
  chatInput : string
}.

Definition with_app (v : App_tsx.State) (s : State) : State :=
  {| app := v; chatInput := chatInput s |}.

Definition setChatInput (v : string) : M State unit :=
  modify (fun s => {| app := app s; chatInput := v |}).

(** A function of the component run on the wider state. *)
Definition on_app {A} (m : M App_tsx.State A) : M State A :=
  fun o w =>
    let '(c, w') := m o {| io := io w; ui := app (ui w) |} in
    (c, {| io := io w'; ui := with_app (ui w') (ui w) |}).

Section WithHost.
Variable host : Host.

(** [onKeyPress] of the chat input:
    [e.key === 'Enter' && handleLearningQuestion(chatInput)]. *)
Definition onKeyPress (key : string) : M State unit :=
  let! s := get_state in
  if String.eqb key "Enter"
  then on_app (App_tsx.handleLearningQuestion host (chatInput s))
  else ret tt.

(** [onClick] of the Send button.  The question is passed as typed; the
    call reads no state after its first [await], so clearing the input
    after it gives the state the source ends in. *)
Definition onClick_Send : M State unit :=
  let! s := get_state in
  if nonempty (trim (chatInput s))
  then do! on_app (App_tsx.handleLearningQuestion host (chatInput s)) in
       setChatInput ""
  else ret tt.

End WithHost.
End App_rest.

(** The entry [calculateAnalytics] builds for a module. *)
Definition popularity (enrollments : list Enrollment.t) (m : LearningModule.t)
    : part_000.PopularModule :=
  {| part_000.pm_moduleId := LearningModule.id m;
     part_000.pm_title := LearningModule.title m;
     part_000.pm_enrollments :=
       length (List.filter (fun e => String.eqb (Enrollment.moduleId e)
                                                (LearningModule.id m)) enrollments) |}.

(** [a] is listed no later than [b]: it has at least as many enrollments. *)
Definition ranks_before (a b : part_000.PopularModule) : Prop :=
  (part_000.pm_enrollments b <= part_000.pm_enrollments a)%nat.

(** The entries with exactly [k] enrollments, in list order. *)
Definition with_count (k : nat) (l : list part_000.PopularModule)
    : list part_000.PopularModule :=
  List.filter (fun x => Nat.eqb (part_000.pm_enrollments x) k) l.

(** A score that counts as a number between 0 and [bound], an absent score
    or [NaN] counting as 0. *)
Definition score_within (bound : Z) (e : Enrollment.t) : Prop :=
  match Enrollment.score e with
  | None | Some NaN => True
  | Some (Fin q) => (0 <= q)%Q /\ (q <= inject_Z bound)%Q
  | Some _ => False
  end.

(** [x] is a whole number between [lo] and [hi]. *)
Definition whole_between (lo hi : Z) (x : JSNum) : Prop :=
  exists z : Z, x = Fin (inject_Z z) /\ lo <= z <= hi.

(** What identifies an enrollment for its user: the user and the module. *)
Definition enrollment_key (e : Enrollment.t) : string * string :=
  (Enrollment.userId e, Enrollment.moduleId e).

(** [e'] is [e] with nothing but the progress (and the time of the update)
    changed. *)
Definition same_but_progress (e e' : Enrollment.t) : Prop :=
  Enrollment.id e' = Enrollment.id e /\ Enrollment.userId e' = Enrollment.userId e
  /\ Enrollment.moduleId e' = Enrollment.moduleId e
  /\ Enrollment.completed e' = Enrollment.completed e
  /\ Enrollment.score e' = Enrollment.score e
  /\ Enrollment.startedAt e' = Enrollment.startedAt e
  /\ Enrollment.completedAt e' = Enrollment.completedAt e
  /\ Enrollment.answers e' = Enrollment.answers e.

(** How [updateProgress] relates an enrollment to its successor. *)
Definition progress_set (target : string) (progress : JSNum) (e e' : Enrollment.t) : Prop :=
  if String.eqb (Enrollment.id e) target
  then Enrollment.progress e' = progress /\ same_but_progress e e'
  else e' = e.

(** How [completeEnrollment] relates an enrollment to its successor. *)
Definition completed_with (target : string) (score : JSNum) (answers : list JValue)
    (e e' : Enrollment.t) : Prop :=
  if String.eqb (Enrollment.id e) target
  then Enrollment.completed e' = true
       /\ Enrollment.progress e' = Fin (inject_Z 100)
       /\ Enrollment.score e' = Some score
       /\ Enrollment.answers e' = Some answers
       /\ Enrollment.id e' = Enrollment.id e
       /\ Enrollment.userId e' = Enrollment.userId e
       /\ Enrollment.moduleId e' = Enrollment.moduleId e
       /\ Enrollment.startedAt e' = Enrollment.startedAt e
  else e' = e.

(** Both arrays of [part_000] are mirrored under its two keys. *)
Definition part_000_mirrored (host : Host) (w : World part_000.State) : Prop :=
  mirrors_modules host "hr_modules_v2" w /\ mirrors_enrollments host "hr_enrollments_v2" w.

(** [call] throws and leaves the state, the local storage and the requests
    sent as they were. *)
Definition throws_unchanged {St A} (call : M St A) (o : Oracle) (w : World St) : Prop :=
  completion call o w = Throw /\ ui (exec call o w) = ui w
  /\ localStorage (io (exec call o w)) = localStorage (io w)
  /\ sent (io (exec call o w)) = sent (io w).

(** ** Further worlds for the examples *)

Definition fire_module : LearningModule.t :=
  {| LearningModule.id := "m1"; LearningModule.title := "Fire safety";
     LearningModule.description := "Evacuation routes";
     LearningModule.content := "Always maintain clear evacuation routes.";
     LearningModule.quiz := []; LearningModule.assignedTo := [];
     LearningModule.createdBy := "u0"; LearningModule.createdAt := "1699999999000";
     LearningModule.updatedAt := None; LearningModule.isActive := None |}.

(** Alice signed in, one module in the catalogue, no enrollment yet. *)
Definition catalogue_world : World part_001.State :=
  {| io := fresh_io;
     ui := part_001.with_modules [fire_module] (ui (part_001_world [])) |}.

(** Both arrays empty, in memory and under the keys [modules] and
    [enrollments] of the local storage. *)
Definition stored_empty (modules enrollments : string) : IO :=
  {| ticks := 0; draws := 0; sent := [];
     localStorage := <[modules := "[]"]> (<[enrollments := "[]"]> ∅);
     render_errors := 0 |}.

Definition mirrored_000_world : World part_000.State :=
  {| io := stored_empty "hr_modules_v2" "hr_enrollments_v2";
     ui := ui (part_000_world []) |}.

Definition mirrored_001_world : World part_001.State :=
  {| io := stored_empty "hr_modules" "hr_enrollments";
     ui := ui (part_001_world []) |}.

(** What the agent calls have no business with: who is signed in, the two
    arrays and the local storage are in [w'] as they were in [w]. *)
Definition part_000_store_kept (w w' : World part_000.State) : Prop :=
  part_000.currentUser (ui w') = part_000.currentUser (ui w)
  /\ part_000.modules (ui w') = part_000.modules (ui w)
  /\ part_000.enrollments (ui w') = part_000.enrollments (ui w)
  /\ localStorage (io w') = localStorage (io w).

Definition part_001_store_kept (w w' : World part_001.State) : Prop :=
  part_001.currentUser (ui w') = part_001.currentUser (ui w)
  /\ part_001.modules (ui w') = part_001.modules (ui w)
  /\ part_001.enrollments (ui w') = part_001.enrollments (ui w)
  /\ part_001.modules_changed (ui w') = part_001.modules_changed (ui w)
  /\ part_001.enrollments_changed (ui w') = part_001.enrollments_changed (ui w)
  /\ localStorage (io w') = localStorage (io w).

(** [call] returns to its caller: no exception escapes it. *)
Definition returns {St A} (call : M St A) (o : Oracle) (w : World St) : Prop :=
  exists result, completion call o w = Normal result.

(** The quiz question [generateAssessment] makes of the [index]-th question
    [q] of a reply. *)
Definition generated_from (index : nat) (q : JValue) (g : QuizQuestion.t) : Prop :=
  (exists now : Z,
     QuizQuestion.id g = "gen_" +:+ int_text (Z.of_nat index) +:+ "_" +:+ int_text now)
  /\ QuizQuestion.question g = q?."question" ||j JStr "Generated question"
  /\ QuizQuestion.type g = "true-false"
  /\ QuizQuestion.options g = None
  /\ QuizQuestion.correctAnswer g = q?."expected_answer" ||j JStr "True".

(** A reply whose [assessment.questions] is [questions]. *)
Definition quiz_reply (questions : list JValue) : JValue :=
  JObj [("assessment", JObj [("questions", JArr questions)])].

Definition wet_question : JValue :=
  JObj [("question", JStr "Water is wet."); ("expected_answer", JStr "True")].

(** The lesson [evaluateAssessment] of [src/App.tsx] grades: the lesson
    [lessonId] of the course [courseId], when both exist and the lesson has
    an assessment. *)
Definition graded_lesson (courses : list App_tsx.Course.t) (courseId lessonId : string)
    : option (App_tsx.Course.t * App_tsx.Lesson.t * App_tsx.Assessment.t) :=
  c ← App_tsx.find_by App_tsx.Course.id courseId courses;
  l ← App_tsx.find_by App_tsx.Lesson.id lessonId (App_tsx.Course.lessons c);
  a ← App_tsx.Lesson.assessment l;
  Some (c, l, a).

(** An address as [assignByBulkEmail] stores it: not empty, no white space
    around it, no comma in it. *)
Definition clean_entry (e : string) : Prop :=
  nonempty e = true /\ trim e = e /\ free_of ","%char e = true.

(** A signed-out visitor of [part_000] who typed [typed] into the
    bulk-assignment field, with [assigned] already assigned. *)
Definition bulk_world (assigned : list string) (typed : string)
    : World part_000_rest.State :=
  {| io := fresh_io;
     ui := {| part_000_rest.app :=
                part_000.with_assignedUsers assigned (ui (part_000_world []));
              part_000_rest.view := hr_dashboard;
              part_000_rest.authMode := login;
              part_000_rest.authForm :=
                {| AuthForm.email := "alice@example.org"; AuthForm.password := "secret";
                   AuthForm.name := "Alice"; AuthForm.organization := "Example";
                   AuthForm.role := employee |};
              part_000_rest.bulkEmail := typed |} |}.

(** [sub] occurs in [s]. *)
Definition occurs_in (sub s : string) : Prop :=
  exists before after, s = before +:+ sub +:+ after.

(** The same world with another password typed into the form. *)
Definition retype_password (password : string) (form : AuthForm.t) : AuthForm.t :=
  {| AuthForm.email := AuthForm.email form; AuthForm.password := password;
     AuthForm.name := AuthForm.name form;
     AuthForm.organization := AuthForm.organization form;
     AuthForm.role := AuthForm.role form |}.

Definition part_000_retyped (password : string) (w : World part_000_rest.State)
    : World part_000_rest.State :=
  {| io := io w;
     ui := {| part_000_rest.app := part_000_rest.app (ui w);
              part_000_rest.view := part_000_rest.view (ui w);
              part_000_rest.authMode := part_000_rest.authMode (ui w);
              part_000_rest.authForm :=
                retype_password password (part_000_rest.authForm (ui w));
              part_000_rest.bulkEmail := part_000_rest.bulkEmail (ui w) |} |}.

Definition part_001_retyped (password : string) (w : World part_001_rest.State)
    : World part_001_rest.State :=
  {| io := io w;
     ui := {| part_001_rest.app := part_001_rest.app (ui w);
              part_001_rest.view := part_001_rest.view (ui w);
              part_001_rest.authMode := part_001_rest.authMode (ui w);
              part_001_rest.authForm :=
                retype_password password (part_001_rest.authForm (ui w)) |} |}.

(** Nobody signed in yet, the sign-in form of [part_000] filled in. *)
Definition signing_in_000 (mode : AuthMode) (form : AuthForm.t)
    : World part_000_rest.State :=
  {| io := fresh_io;
     ui := {| part_000_rest.app := part_000.with_currentUser None (ui (part_000_world []));
              part_000_rest.view := view_auth;
              part_000_rest.authMode := mode;
              part_000_rest.authForm := form;
              part_000_rest.bulkEmail := "" |} |}.

Definition signing_in_001 (mode : AuthMode) (form : AuthForm.t)
    : World part_001_rest.State :=
  {| io := fresh_io;
     ui := {| part_001_rest.app := part_001.with_currentUser None (ui (part_001_world []));
              part_001_rest.view := view_auth;
              part_001_rest.authMode := mode;
              part_001_rest.authForm := form |} |}.

Definition christine : AuthForm.t :=
  {| AuthForm.email := "christine@mail.net"; AuthForm.password := "secret";
     AuthForm.name := "Christine"; AuthForm.organization := "Example";
     AuthForm.role := employee |}.

(** Nothing but white space. *)
Fixpoint blank (s : string) : bool :=
  match s with
  | EmptyString => true
  | String c rest => is_space c && blank rest
  end.

(** The lesson of the examples open, [typed] in the chat input. *)
Definition typing_world (typed : string) : World App_rest.State :=
  {| io := fresh_io;
     ui := {| App_rest.app := ui App_world; App_rest.chatInput := typed |} |}.

(** The share [c] of [n], as [c / n * 100] computes it. *)
Definition percentage (c n : nat) : JSNum :=
  num_mul (num_div (num_of_nat c) (num_of_nat n)) (Fin (inject_Z 100)).

(** Every render that [call] asked for went through: no updater threw, and
    what [ui] shows after the call is the state React committed. *)
Definition rendered {St A} (call : M St A) (o : Oracle) (w : World St) : Prop :=
  render_errors (io (exec call o w)) = render_errors (io w).

(** The reply to the next request is not [null] or [undefined]: the
    condition under which the updaters of the shorter agent calls, which
    read a property of the reply, do not throw. *)
Definition reply_is_value (host : Host) (o : Oracle) {St} (w : World St) : Prop :=
  forall parsed, json_reply host o (length (sent (io w))) = Some parsed ->
                 nullish parsed = false.

(** The reply [callAgent] of [src/App.tsx] returns is falsy or has a
    [result]: the condition under which the updaters of
    [handleLearningQuestion] and [evaluateAssessment], which read
    properties of [response.result], do not throw. *)
Definition reply_has_result (host : Host) (o : Oracle) {St} (w : World St) : Prop :=
  truthy (text_reply host o (length (sent (io w)))) = true ->
  nullish (text_reply host o (length (sent (io w))))?."result" = false.

(** A course whose one lesson has an assessment, for the examples. *)
Definition safety_course : App_tsx.Course.t :=
  {| App_tsx.Course.id := "1"; App_tsx.Course.title := "Workplace Safety";
     App_tsx.Course.description := "Safety basics"; App_tsx.Course.type := "training";
     App_tsx.Course.content := "Safety at work";
     App_tsx.Course.lessons :=
       [{| App_tsx.Lesson.id := "1-2"; App_tsx.Lesson.title := "Safety Quiz";
           App_tsx.Lesson.content := "Check what you know.";
           App_tsx.Lesson.type := "assessment";
           App_tsx.Lesson.assessment :=
             Some {| App_tsx.Assessment.id := "a1";
                     App_tsx.Assessment.questions := [] |} |}];
     App_tsx.Course.status := "published" |}.

Definition grading_world : World App_tsx.State :=
  {| io := fresh_io;
     ui := {| App_tsx.courses := [safety_course];
              App_tsx.currentLesson := None;
              App_tsx.chatMessages := []; App_tsx.isChatLoading := false;
              App_tsx.sessionId := "session-1700000000000-k3j2h1g0f" |} |}.

(** * Properties *)

(** ** Strings *)

Lemma str_app_cons (x : ascii) (a b : string) : String x a +:+ b = String x (a +:+ b).
Proof. reflexivity. Qed.

Lemma str_app_nil_l (a : string) : "" +:+ a = a.
Proof. reflexivity. Qed.

Lemma str_app_assoc (a b c : string) : (a +:+ b) +:+ c = a +:+ (b +:+ c).
Proof.
  induction a as [|x a IH]; [reflexivity|].
  rewrite !str_app_cons. now rewrite IH.
Qed.

Lemma str_length_app (a b : string) :
  String.length (a +:+ b) = (String.length a + String.length b)%nat.
Proof.
  induction a as [|x a IH]; [reflexivity|].
  rewrite str_app_cons. cbn. now rewrite IH.
Qed.

(** ** binary64: rounding is monotone, and exact on the integers up to 2^53 *)

Lemma pow2_pos (e : Z) : (0 < pow2 e)%Q.
Proof. apply Qpower_0_lt. reflexivity. Qed.

Lemma pow2_plus (a b : Z) : (pow2 (a + b) == pow2 a * pow2 b)%Q.
Proof. apply Qpower_plus. discriminate. Qed.

Lemma pow2_le (a b : Z) : (a <= b)%Z -> (pow2 a <= pow2 b)%Q.
Proof. intros H. apply Qpower_le_compat_l; [exact H | discriminate]. Qed.

Lemma pow2_lt_inv (a b : Z) : (pow2 a < pow2 b)%Q -> (a < b)%Z.
Proof. intros H. apply (Qpower_lt_compat_l_inv 2); [exact H | reflexivity]. Qed.

Lemma pow2_Z (n : Z) : (0 <= n)%Z -> (pow2 n == inject_Z (2 ^ n))%Q.
Proof. intros H. symmetry. apply (Zpower_Qpower 2 n H). Qed.

Lemma Q_as_div (q : Q) : (q == inject_Z (Qnum q) / inject_Z (Zpos (Qden q)))%Q.
Proof. destruct q as [n d]. apply Qmake_Qdiv. Qed.

Lemma ilog2_spec (q : Q) :
  (0 < q)%Q -> (pow2 (ilog2 q) <= q)%Q /\ (q < pow2 (ilog2 q + 1))%Q.
Proof.
  intros Hq. unfold ilog2.
  set (n := Qnum q). set (d := Zpos (Qden q)).
  assert (Hn : (0 < n)%Z) by (destruct q as [[|p|p] dd]; cbn in *; unfold Qlt in Hq; cbn in Hq; lia).
  assert (Hd : (0 < d)%Z) by (unfold d; lia).
  destruct (Z.log2_spec n Hn) as [Ln Un]. destruct (Z.log2_spec d Hd) as [Ld Ud].
  pose proof (Z.log2_nonneg n) as Nn. pose proof (Z.log2_nonneg d) as Nd.
  set (ln := Z.log2 n) in *. set (ld := Z.log2 d) in *.
  assert (Qd : (0 < inject_Z d)%Q) by (change 0%Q with (inject_Z 0); rewrite <- Zlt_Qlt; exact Hd).
  assert (E : (q == inject_Z n / inject_Z d)%Q) by apply Q_as_div.
  assert (Ln' : (pow2 ln <= inject_Z n)%Q) by (rewrite (pow2_Z ln Nn), <- Zle_Qle; exact Ln).
  assert (Un' : (inject_Z n < pow2 (ln + 1))%Q).
  { rewrite (pow2_Z (ln + 1)) by lia. rewrite <- Zlt_Qlt. exact Un. }
  assert (Ld' : (pow2 ld <= inject_Z d)%Q) by (rewrite (pow2_Z ld Nd), <- Zle_Qle; exact Ld).
  assert (Ud' : (inject_Z d < pow2 (ld + 1))%Q).
  { rewrite (pow2_Z (ld + 1)) by lia. rewrite <- Zlt_Qlt. exact Ud. }
  assert (Up : (q < pow2 (ln - ld + 1))%Q).
  { rewrite E. apply Qlt_shift_div_r; [exact Qd|].
    assert (P : (pow2 (ln + 1) == pow2 (ln - ld + 1) * pow2 ld)%Q).
    { rewrite <- pow2_plus. replace (ln - ld + 1 + ld)%Z with (ln + 1)%Z by lia. reflexivity. }
    pose proof (pow2_pos (ln - ld + 1)) as Pk.
    assert (M : (pow2 (ln - ld + 1) * pow2 ld <= pow2 (ln - ld + 1) * inject_Z d)%Q).
    { rewrite !(Qmult_comm (pow2 (ln - ld + 1))). apply Qmult_le_compat_r; [exact Ld'|].
      apply Qlt_le_weak, Pk. }
    rewrite <- P in M. eapply Qlt_le_trans; [exact Un' | exact M]. }
  assert (Lo : (pow2 (ln - ld - 1) < q)%Q).
  { rewrite E. apply Qlt_shift_div_l; [exact Qd|].
    assert (P : (pow2 ln == pow2 (ln - ld - 1) * pow2 (ld + 1))%Q).
    { rewrite <- pow2_plus. replace (ln - ld - 1 + (ld + 1))%Z with ln by lia. reflexivity. }
    pose proof (pow2_pos (ln - ld - 1)) as Pk.
    assert (M : (pow2 (ln - ld - 1) * inject_Z d < pow2 (ln - ld - 1) * pow2 (ld + 1))%Q).
    { rewrite !(Qmult_comm (pow2 (ln - ld - 1))). apply Qmult_lt_compat_r; assumption. }
    rewrite <- P in M. eapply Qlt_le_trans; [exact M | exact Ln']. }
  destruct (Qle_bool (pow2 (ln - ld)) q) eqn:B.
  - apply Qle_bool_iff in B. split; assumption.
  - assert (B' : (q < pow2 (ln - ld))%Q).
    { apply Qnot_le_lt. intros H. apply Qle_bool_iff in H. congruence. }
    replace (ln - ld - 1 + 1)%Z with (ln - ld)%Z by lia.
    split; [apply Qlt_le_weak, Lo | exact B'].
Qed.

Lemma ilog2_unique (q : Q) (k : Z) :
  (pow2 k <= q)%Q -> (q < pow2 (k + 1))%Q -> ilog2 q = k.
Proof.
  intros L U.
  assert (Hq : (0 < q)%Q) by (eapply Qlt_le_trans; [apply (pow2_pos k) | exact L]).
  destruct (ilog2_spec q Hq) as [L' U'].
  assert (A : (ilog2 q < k + 1)%Z) by (apply pow2_lt_inv; eapply Qle_lt_trans; eassumption).
  assert (B : (k < ilog2 q + 1)%Z) by (apply pow2_lt_inv; eapply Qle_lt_trans; eassumption).
  lia.
Qed.

Lemma ilog2_le (a b : Q) : (0 < a)%Q -> (a <= b)%Q -> (ilog2 a <= ilog2 b)%Z.
Proof.
  intros Ha Hab.
  assert (Hb : (0 < b)%Q) by (eapply Qlt_le_trans; eassumption).
  destruct (ilog2_spec a Ha) as [La _]. destruct (ilog2_spec b Hb) as [_ Ub].
  assert (A : (ilog2 a < ilog2 b + 1)%Z).
  { apply pow2_lt_inv. eapply Qle_lt_trans; [exact La|].
    eapply Qle_lt_trans; [exact Hab | exact Ub]. }
  lia.
Qed.

Lemma ilog2_comp (a b : Q) : (0 < a)%Q -> (a == b)%Q -> ilog2 a = ilog2 b.
Proof.
  intros Ha E. destruct (ilog2_spec a Ha) as [L U]. symmetry.
  apply ilog2_unique; rewrite <- E; assumption.
Qed.

Lemma rne_bounds (x : Q) : (Qfloor x <= rne x <= Qfloor x + 1)%Z.
Proof.
  unfold rne. destruct (Qcompare _ _); [destruct (Z.even _)| |]; lia.
Qed.

Lemma rne_comp (x y : Q) : (x == y)%Q -> rne x = rne y.
Proof.
  intros E. unfold rne. rewrite (Qfloor_comp x y E).
  assert (C : ((x - inject_Z (Qfloor y)) ?= (1 # 2))%Q = ((y - inject_Z (Qfloor y)) ?= (1 # 2))%Q).
  { apply Qcompare_comp; [rewrite E|]; reflexivity. }
  rewrite C. reflexivity.
Qed.

Lemma rne_Z (z : Z) : rne (inject_Z z) = z.
Proof.
  unfold rne. rewrite Qfloor_Z.
  assert (C : ((inject_Z z - inject_Z z) ?= (1 # 2))%Q = Lt).
  { apply Qlt_alt. setoid_replace (inject_Z z - inject_Z z)%Q with 0%Q using relation Qeq by ring. reflexivity. }
  rewrite C. reflexivity.
Qed.

Lemma rne_le (x y : Q) : (x <= y)%Q -> (rne x <= rne y)%Z.
Proof.
  intros H. pose proof (Qfloor_resp_le x y H) as F.
  pose proof (rne_bounds x) as Bx. pose proof (rne_bounds y) as By.
  destruct (Z.eq_dec (Qfloor x) (Qfloor y)) as [E|N]; [|lia].
  unfold rne. rewrite <- E.
  destruct (Qcompare (x - inject_Z (Qfloor x)) (1 # 2)) eqn:Cx;
  destruct (Qcompare (y - inject_Z (Qfloor x)) (1 # 2)) eqn:Cy;
    try (destruct (Z.even (Qfloor x)); lia); try lia; exfalso.
  - apply Qeq_alt in Cx. apply Qlt_alt in Cy. lra.
  - apply Qgt_alt in Cx. apply Qeq_alt in Cy. lra.
  - apply Qgt_alt in Cx. apply Qlt_alt in Cy. lra.
Qed.

Lemma rne_nonneg (x : Q) : (0 <= x)%Q -> (0 <= rne x)%Z.
Proof. intros H. rewrite <- (rne_Z 0). apply rne_le. exact H. Qed.

Lemma Qabs_of_pos (q : Q) : (0 < q)%Q -> (Qabs q == q)%Q.
Proof. intros H. apply Qabs_pos. apply Qlt_le_weak, H. Qed.

Lemma ulp_exponent_le (a b : Q) :
  (0 < a)%Q -> (a <= b)%Q -> (ulp_exponent a <= ulp_exponent b)%Z.
Proof.
  intros Ha Hab. unfold ulp_exponent.
  assert (Hb : (0 < b)%Q) by (eapply Qlt_le_trans; eassumption).
  assert (L : (ilog2 (Qabs a) <= ilog2 (Qabs b))%Z).
  { apply ilog2_le; [rewrite (Qabs_of_pos a Ha); exact Ha|].
    rewrite (Qabs_of_pos a Ha), (Qabs_of_pos b Hb). exact Hab. }
  lia.
Qed.

Lemma ulp_exponent_pos (a : Q) :
  (0 < a)%Q -> ulp_exponent a = Z.max (ilog2 a - 52) (-1074).
Proof.
  intros Ha. unfold ulp_exponent. f_equal. f_equal.
  apply ilog2_comp; [rewrite (Qabs_of_pos a Ha); exact Ha | apply Qabs_of_pos, Ha].
Qed.

Lemma nearest_nonneg (a : Q) : (0 < a)%Q -> (0 <= nearest a)%Q.
Proof.
  intros Ha. unfold nearest. pose proof (pow2_pos (ulp_exponent a)) as P.
  apply Qmult_le_0_compat; [|apply Qlt_le_weak, P].
  change 0%Q with (inject_Z 0). rewrite <- Zle_Qle. apply rne_nonneg.
  apply Qle_shift_div_l; [exact P|]. rewrite Qmult_0_l. apply Qlt_le_weak, Ha.
Qed.

Lemma nearest_le (a b : Q) : (0 < a)%Q -> (a <= b)%Q -> (nearest a <= nearest b)%Q.
Proof.
  intros Ha Hab.
  assert (Hb : (0 < b)%Q) by (eapply Qlt_le_trans; eassumption).
  pose proof (ulp_exponent_le a b Ha Hab) as He.
  unfold nearest.
  set (ea := ulp_exponent a) in *. set (eb := ulp_exponent b) in *.
  pose proof (pow2_pos ea) as Pa. pose proof (pow2_pos eb) as Pb.
  destruct (Z.eq_dec ea eb) as [E|N].
  - rewrite <- E. apply Qmult_le_compat_r; [|apply Qlt_le_weak, Pa].
    rewrite <- Zle_Qle. apply rne_le.
    unfold Qdiv. apply Qmult_le_compat_r; [exact Hab|].
    apply Qlt_le_weak, Qinv_lt_0_compat, Pa.
  - assert (Hlt : (ea + 1 <= eb)%Z) by lia.
    destruct (ilog2_spec a Ha) as [_ Ua]. destruct (ilog2_spec b Hb) as [Lb _].
    assert (Ea : ea = Z.max (ilog2 a - 52) (-1074)) by apply (ulp_exponent_pos a Ha).
    assert (Eb : eb = Z.max (ilog2 b - 52) (-1074)) by apply (ulp_exponent_pos b Hb).
    (* [a] rounds to at most 2^(ea+53) *)
    assert (A : (inject_Z (rne (a / pow2 ea)) * pow2 ea <= pow2 (ea + 53))%Q).
    { assert (X : (a / pow2 ea <= inject_Z (2 ^ 53))%Q).
      { apply Qle_shift_div_r; [exact Pa|].
        rewrite <- (pow2_Z 53) by lia. rewrite <- pow2_plus.
        apply Qlt_le_weak. eapply Qlt_le_trans; [exact Ua|]. apply pow2_le. lia. }
      apply rne_le in X. rewrite rne_Z in X.
      rewrite (Qmult_comm (inject_Z _)).
      rewrite pow2_plus, (pow2_Z 53) by lia.
      rewrite !(Qmult_comm (pow2 ea)). apply Qmult_le_compat_r; [|apply Qlt_le_weak, Pa].
      rewrite <- Zle_Qle. exact X. }
    (* [b] rounds to at least 2^(eb+52) *)
    assert (B : (pow2 (eb + 52) <= inject_Z (rne (b / pow2 eb)) * pow2 eb)%Q).
    { assert (X : (inject_Z (2 ^ 52) <= b / pow2 eb)%Q).
      { apply Qle_shift_div_l; [exact Pb|].
        rewrite <- (pow2_Z 52) by lia. rewrite <- pow2_plus.
        eapply Qle_trans; [|exact Lb]. apply pow2_le. lia. }
      apply rne_le in X. rewrite rne_Z in X.
      rewrite pow2_plus, (pow2_Z 52) by lia.
      rewrite (Qmult_comm (pow2 eb)). apply Qmult_le_compat_r; [|apply Qlt_le_weak, Pb].
      rewrite <- Zle_Qle. exact X. }
    eapply Qle_trans; [exact A|]. eapply Qle_trans; [|exact B]. apply pow2_le. lia.
Qed.

(** The integers up to 2^53 are binary64 numbers. *)
Lemma nearest_Z (z : Z) : (0 < z <= 2 ^ 53)%Z -> (nearest (inject_Z z) == inject_Z z)%Q.
Proof.
  intros [Hz Hu].
  assert (Qz : (0 < inject_Z z)%Q) by (change 0%Q with (inject_Z 0); rewrite <- Zlt_Qlt; exact Hz).
  destruct (ilog2_spec _ Qz) as [L U].
  assert (L0 : (0 <= ilog2 (inject_Z z))%Z).
  { assert (X : (pow2 0 < pow2 (ilog2 (inject_Z z) + 1))%Q).
    { eapply Qle_lt_trans; [|exact U]. change (pow2 0) with (inject_Z 1).
      rewrite <- Zle_Qle. lia. }
    apply pow2_lt_inv in X. lia. }
  assert (L53 : (ilog2 (inject_Z z) <= 53)%Z).
  { assert (X : (pow2 (ilog2 (inject_Z z)) < pow2 54)%Q).
    { eapply Qle_lt_trans; [exact L|]. rewrite (pow2_Z 54) by lia.
      rewrite <- Zlt_Qlt. lia. }
    apply pow2_lt_inv in X. lia. }
  unfold nearest. rewrite (ulp_exponent_pos _ Qz).
  set (l := ilog2 (inject_Z z)) in *.
  replace (Z.max (l - 52) (-1074)) with (l - 52)%Z by lia.
  pose proof (pow2_pos (l - 52)) as P.
  destruct (Z.eq_dec l 53) as [E53|N53].
  - rewrite E53 in *. change (53 - 52)%Z with 1%Z.
    assert (Ez : z = (2 ^ 53)%Z).
    { rewrite (pow2_Z 53) in L by lia. rewrite <- Zle_Qle in L. lia. }
    subst z. vm_compute. reflexivity.
  - assert (Hk : (0 <= 52 - l)%Z) by lia.
    assert (D : (inject_Z z / pow2 (l - 52) == inject_Z (z * 2 ^ (52 - l)))%Q).
    { rewrite inject_Z_mult, <- (pow2_Z (52 - l) Hk).
      apply Qmult_inj_r with (z := pow2 (l - 52)); [apply Qnot_eq_sym, Qlt_not_eq, P|].
      unfold Qdiv. rewrite <- !Qmult_assoc.
      rewrite (Qmult_comm (/ pow2 (l - 52))), Qmult_inv_r
        by apply Qnot_eq_sym, Qlt_not_eq, P.
      rewrite <- pow2_plus. replace (52 - l + (l - 52))%Z with 0%Z by lia.
      change (pow2 0) with 1%Q. reflexivity. }
    rewrite (rne_comp _ _ D), rne_Z.
    rewrite inject_Z_mult, <- (pow2_Z (52 - l) Hk).
    rewrite <- Qmult_assoc, <- pow2_plus.
    replace (52 - l + (l - 52))%Z with 0%Z by lia.
    change (pow2 0) with 1%Q. apply Qmult_1_r.
Qed.

Lemma Qis_zero_iff (q : Q) : Qis_zero q = true <-> (q == 0)%Q.
Proof.
  unfold Qis_zero, Qeq. cbn. rewrite Z.eqb_eq. lia.
Qed.

Lemma Qis_zero_false (q : Q) : Qis_zero q = false -> (0 <= q)%Q -> (0 < q)%Q.
Proof.
  intros H Hq. destruct (Qlt_le_dec 0 q) as [L|L]; [exact L|].
  assert (E : (q == 0)%Q) by (apply Qle_antisym; assumption).
  apply Qis_zero_iff in E. congruence.
Qed.

(** Between two integers of at most 53 bits a result stays between them
    when it is rounded. *)
Lemma round64_within (q : Q) (lo hi : Z) :
  0 <= lo -> hi <= 2 ^ 53 -> (inject_Z lo <= q)%Q -> (q <= inject_Z hi)%Q ->
  exists r, round64 q = Fin r /\ (inject_Z lo <= r)%Q /\ (r <= inject_Z hi)%Q.
Proof.
  intros Hlo Hhi L U.
  assert (Q0 : (0 <= q)%Q).
  { eapply Qle_trans; [|exact L]. change 0%Q with (inject_Z 0). now rewrite <- Zle_Qle. }
  unfold round64. destruct (Qis_zero q) eqn:Z0.
  - apply Qis_zero_iff in Z0. exists 0%Q. split; [reflexivity|].
    rewrite <- Z0. split; assumption.
  - pose proof (Qis_zero_false q Z0 Q0) as Qp. cbv zeta.
    assert (Hp : 0 < hi).
    { assert (X : (inject_Z 0 < inject_Z hi)%Q) by (eapply Qlt_le_trans; [exact Qp | exact U]).
      now rewrite <- Zlt_Qlt in X. }
    assert (Hlh : lo <= hi) by (rewrite Zle_Qle; eapply Qle_trans; eassumption).
    assert (Un : (nearest q <= inject_Z hi)%Q).
    { apply Qle_trans with (nearest (inject_Z hi)); [apply nearest_le; assumption|].
      apply Qle_lteq. right. apply nearest_Z. lia. }
    assert (Ln : (inject_Z lo <= nearest q)%Q).
    { destruct (Z.eq_dec lo 0) as [->|Hn]; [apply nearest_nonneg, Qp|].
      apply Qle_trans with (nearest (inject_Z lo)).
      - apply Qle_lteq. right. symmetry. apply nearest_Z. lia.
      - apply nearest_le; [|exact L].
        change 0%Q with (inject_Z 0). rewrite <- Zlt_Qlt. lia. }
    assert (N0 : (0 <= nearest q)%Q) by (apply nearest_nonneg, Qp).
    assert (B : Qle_bool (pow2 1024) (Qabs (nearest q)) = false).
    { destruct (Qle_bool (pow2 1024) (Qabs (nearest q))) eqn:B; [|reflexivity].
      exfalso. apply Qle_bool_iff in B. rewrite (Qabs_pos _ N0) in B.
      assert (X : (pow2 1024 <= inject_Z (2 ^ 53))%Q).
      { eapply Qle_trans; [exact B|]. eapply Qle_trans; [exact Un|].
        now rewrite <- Zle_Qle. }
      rewrite <- (pow2_Z 53) in X by lia.
      assert (Y : (pow2 53 < pow2 1024)%Q)
        by (apply Qpower_lt_compat_l; [lia | reflexivity]).
      apply (Qlt_irrefl (pow2 53)). eapply Qlt_le_trans; eassumption. }
    rewrite B. exists (nearest q). auto.
Qed.

(** Rounding keeps the order of two results below [2^53]. *)
Lemma round64_le (a b : Q) (hi : Z) :
  hi <= 2 ^ 53 -> (0 <= a)%Q -> (a <= b)%Q -> (b <= inject_Z hi)%Q ->
  exists ra rb,
    round64 a = Fin ra /\ round64 b = Fin rb
    /\ (0 <= ra)%Q /\ (ra <= rb)%Q /\ (rb <= inject_Z hi)%Q.
Proof.
  intros Hhi A0 Hab U.
  destruct (round64_within b 0 hi) as (rb & Eb & Lb & Ub);
    [lia | exact Hhi | eapply Qle_trans; eassumption | exact U |].
  destruct (round64_within a 0 hi) as (ra & Ea & La & Ua);
    [lia | exact Hhi | exact A0 | eapply Qle_trans; eassumption |].
  exists ra, rb. repeat split; try assumption.
  revert Ea Eb. unfold round64.
  destruct (Qis_zero a) eqn:Za.
  - intros Ea _. injection Ea as <-. exact Lb.
  - pose proof (Qis_zero_false a Za A0) as Pa.
    destruct (Qis_zero b) eqn:Zb.
    { apply Qis_zero_iff in Zb. exfalso. rewrite Zb in Hab.
      apply (Qlt_irrefl 0). eapply Qlt_le_trans; eassumption. }
    cbv zeta.
    destruct (Qle_bool _ (Qabs (nearest a))); [destruct (Qis_pos a); discriminate|].
    destruct (Qle_bool _ (Qabs (nearest b))); [destruct (Qis_pos b); discriminate|].
    intros Ea Eb. injection Ea as <-. injection Eb as <-.
    apply nearest_le; assumption.
Qed.

(** ** Analytics: what the sums and quotients come to *)

Lemma round_between (q : Q) (lo hi : Z) :
  (inject_Z lo <= q)%Q -> (q <= inject_Z hi)%Q ->
  lo <= Qfloor (q + (1 # 2)) <= hi.
Proof.
  intros Hlo Hhi. split.
  - rewrite <- (Qfloor_Z lo). apply Qfloor_resp_le. lra.
  - pose proof (Qfloor_le (q + (1 # 2))) as F.
    assert (L : (inject_Z (Qfloor (q + (1 # 2))) < inject_Z (hi + 1))%Q).
    { rewrite inject_Z_plus. change (inject_Z 1) with 1%Q. lra. }
    rewrite <- Zlt_Qlt in L. lia.
Qed.

Lemma nat_positive (n : nat) : (0 < n)%nat -> (0 < inject_Z (Z.of_nat n))%Q.
Proof. intros H. change 0%Q with (inject_Z 0). rewrite <- Zlt_Qlt. lia. Qed.

Lemma div_by_nat (a : Q) (n : nat) :
  (0 < n)%nat -> num_div (Fin a) (num_of_nat n) = round64 (a / inject_Z (Z.of_nat n)).
Proof. destruct n; [lia|]. reflexivity. Qed.

Lemma filter_length_le {A} (f : A -> bool) (l : list A) :
  (length (List.filter f l) <= length l)%nat.
Proof. induction l as [|x l IH]; cbn; [lia|]. destruct (f x); cbn; lia. Qed.

Lemma share_between (c n : nat) (lo hi : Z) :
  (0 < n)%nat -> 0 <= lo -> hi <= 1 ->
  lo * Z.of_nat n <= Z.of_nat c -> Z.of_nat c <= hi * Z.of_nat n ->
  exists r, percentage c n = Fin r
            /\ (inject_Z (100 * lo) <= r)%Q /\ (r <= inject_Z (100 * hi))%Q.
Proof.
  intros Hn Hlo Hhi L U. unfold percentage.
  change (num_of_nat c) with (Fin (inject_Z (Z.of_nat c))).
  rewrite (div_by_nat _ _ Hn). pose proof (nat_positive n Hn) as Pn.
  destruct (round64_within (inject_Z (Z.of_nat c) / inject_Z (Z.of_nat n)) lo hi)
    as (r1 & E1 & L1 & U1); [exact Hlo | lia | | |].
  { apply Qle_shift_div_l; [exact Pn|]. rewrite <- inject_Z_mult, <- Zle_Qle. exact L. }
  { apply Qle_shift_div_r; [exact Pn|]. rewrite <- inject_Z_mult, <- Zle_Qle. exact U. }
  rewrite E1. cbn [num_mul].
  destruct (round64_within (r1 * inject_Z 100) (100 * lo) (100 * hi))
    as (r2 & E2 & L2 & U2); [lia | lia | | |].
  { rewrite inject_Z_mult. change (inject_Z 100) with 100%Q. lra. }
  { rewrite inject_Z_mult. change (inject_Z 100) with 100%Q. lra. }
  exists r2. auto.
Qed.

Lemma percentage_le (c c' n : nat) :
  (0 < n)%nat -> (c <= c')%nat -> (c' <= n)%nat ->
  exists r r', percentage c n = Fin r /\ percentage c' n = Fin r'
               /\ (0 <= r)%Q /\ (r <= r')%Q /\ (r' <= inject_Z 100)%Q.
Proof.
  intros Hn Hc Hc'. unfold percentage.
  change (num_of_nat c) with (Fin (inject_Z (Z.of_nat c))).
  change (num_of_nat c') with (Fin (inject_Z (Z.of_nat c'))).
  rewrite !(div_by_nat _ _ Hn). pose proof (nat_positive n Hn) as Pn.
  destruct (round64_le (inject_Z (Z.of_nat c) / inject_Z (Z.of_nat n))
              (inject_Z (Z.of_nat c') / inject_Z (Z.of_nat n)) 1)
    as (r1 & r1' & E1 & E1' & L1 & M1 & U1); [lia | | | |].
  { apply Qle_shift_div_l; [exact Pn|]. rewrite Qmult_0_l.
    change 0%Q with (inject_Z 0). rewrite <- Zle_Qle. lia. }
  { unfold Qdiv. apply Qmult_le_compat_r;
      [rewrite <- Zle_Qle; lia | apply Qlt_le_weak, Qinv_lt_0_compat, Pn]. }
  { apply Qle_shift_div_r; [exact Pn|]. rewrite <- inject_Z_mult, <- Zle_Qle. lia. }
  rewrite E1, E1'. cbn [num_mul]. change (inject_Z 1) with 1%Q in U1.
  destruct (round64_le (r1 * inject_Z 100) (r1' * inject_Z 100) 100)
    as (r2 & r2' & E2 & E2' & L2 & M2 & U2); [lia | | | |];
    try (change (inject_Z 100) with 100%Q; lra).
  exists r2, r2'. auto.
Qed.

Lemma score_or_zero_between (bound : Z) (e : Enrollment.t) :
  0 <= bound -> score_within bound e ->
  exists q, part_000.score_or_zero e = Fin q /\ (0 <= q)%Q /\ (q <= inject_Z bound)%Q.
Proof.
  intros Hb Hs.
  assert (Z0 : (0 <= inject_Z bound)%Q).
  { change 0%Q with (inject_Z 0). now rewrite <- Zle_Qle. }
  unfold score_within in Hs. unfold part_000.score_or_zero, part_000.num_or.
  destruct (Enrollment.score e) as [[q| | |]|]; cbn.
  - destruct (negb (Qis_zero q)); [exists q; tauto | exists 0%Q; repeat split; lra].
  - exists 0%Q; repeat split; lra.
  - contradiction.
  - contradiction.
  - exists 0%Q; repeat split; lra.
Qed.

(** The running sum of [m] scores stays between 0 and [m] times the bound:
    these are integers of at most 53 bits, which rounding keeps. *)
Lemma sum_scores_between (bound : Z) (es : list Enrollment.t) : forall (q0 : Q) (m : nat),
  (0 <= q0)%Q -> (q0 <= inject_Z (bound * Z.of_nat m))%Q -> 0 <= bound ->
  bound * Z.of_nat (m + length es) <= 2 ^ 53 ->
  (forall e, In e es -> score_within bound e) ->
  exists q,
    fold_left (fun sum e => num_add sum (part_000.score_or_zero e)) es (Fin q0) = Fin q
    /\ (0 <= q)%Q /\ (q <= inject_Z (bound * Z.of_nat (m + length es)))%Q.
Proof.
  induction es as [|e es IH]; intros q0 m H0 Hm Hb Hn Hs.
  - exists q0. rewrite Nat.add_0_r. auto.
  - cbn [fold_left length] in *.
    destruct (score_or_zero_between bound e Hb (Hs e (or_introl eq_refl)))
      as (q & Eq & Q0 & Qb).
    rewrite Eq. cbn [num_add].
    destruct (round64_within (q0 + q) 0 (bound * Z.of_nat (S m)))
      as (r & Er & R0 & Rb); [lia | nia | | |].
    { change (inject_Z 0) with 0%Q. lra. }
    { replace (bound * Z.of_nat (S m)) with (bound * Z.of_nat m + bound) by lia.
      rewrite inject_Z_plus. lra. }
    rewrite Er. change (inject_Z 0) with 0%Q in R0.
    destruct (IH r (S m) R0 Rb Hb) as (t & Et & T0 & Tb).
    + replace (S m + length es)%nat with (m + S (length es))%nat by lia. exact Hn.
    + intros e' He'. apply Hs. now right.
    + exists t. split; [exact Et|]. split; [exact T0|].
      replace (m + S (length es))%nat with (S m + length es)%nat by lia. exact Tb.
Qed.

(** The average of scores between 0 and a bound, as [calculateAnalytics]
    computes and rounds it, provided the bound times the number of scores
    has at most 53 bits. *)
Lemma average_between (bound : Z) (done : list Enrollment.t) :
  0 <= bound -> bound * Z.of_nat (length done) <= 2 ^ 53 ->
  (forall e, In e done -> score_within bound e) ->
  whole_between 0 bound
    (Math_round
       (part_000.num_or
          (num_div (fold_left (fun sum e => num_add sum (part_000.score_or_zero e))
                              done (Fin 0))
                   (num_of_nat (length done)))
          (Fin 0))).
Proof.
  intros Hb Hn Hd.
  destruct (sum_scores_between bound done 0%Q 0%nat) as (q & Eq & Q0 & Qb);
    [lra | rewrite Z.mul_0_r; change (inject_Z 0) with 0%Q; lra | exact Hb
     | exact Hn | exact Hd |].
  rewrite Eq. cbn [Nat.add] in Qb.
  destruct (Nat.eq_dec (length done) 0%nat) as [E0|Hne].
  - rewrite E0. destruct done; [|discriminate]. cbn in Eq. injection Eq as <-.
    exists 0. split; [reflexivity | lia].
  - assert (Hpos : (0 < length done)%nat) by lia.
    rewrite (div_by_nat _ _ Hpos).
    pose proof (nat_positive _ Hpos) as Pn.
    destruct (round64_within (q / inject_Z (Z.of_nat (length done))) 0 bound)
      as (r & Er & R0 & Rb); [lia | nia | | |].
    { apply Qle_shift_div_l; [exact Pn|]. change (inject_Z 0) with 0%Q. lra. }
    { apply Qle_shift_div_r; [exact Pn|]. now rewrite <- inject_Z_mult. }
    rewrite Er. unfold part_000.num_or. cbn [truthy].
    destruct (negb (Qis_zero r)).
    + eexists. split; [reflexivity|]. apply round_between; assumption.
    + exists 0. split; [reflexivity | lia].
Qed.

(** Two readings of the rounding: a tenth is the binary64 number next to
    it, and 23 of 40 come to 57 per cent, the product [0.575 * 100] being
    just below 57.5. *)
Example round64_tenth :
  exists r, round64 (1 # 10) = Fin r /\ (r == 3602879701896397 # 36028797018963968)%Q.
Proof. eexists. split; [vm_compute; reflexivity | vm_compute; reflexivity]. Qed.

Example percentage_23_of_40 : Math_round (percentage 23 40) = Fin (inject_Z 57).
Proof. vm_compute. reflexivity. Qed.

(** ** Running the call sites *)

Create HintDb gateway.

#[local] Hint Unfold
  exec completion json_reply text_reply
  bind try_catch throw ret fetch response_json lift_option
  new_Date_toISOString Date_now random_suffix generateRandomId
  get_state modify update localStorage_setItem
  App_tsx.callAgent App_tsx.handleLearningQuestion App_tsx.evaluateAssessment
  App_tsx.setChatMessages App_tsx.setChatMessages_updater App_tsx.setIsChatLoading
  part_000.callLearnAgent part_000.generateAssessment part_000.evaluateAssessment
  part_000.callLearnAgent_l570 part_000.callEvalAgent
  part_000.setAgentChat_updater part_000.setEnrollments_updater
  part_000.setIsTyping part_000.setIsGrading part_000.setCurrentQuiz
  part_000.setCurrentQuizIndex part_000.setGradeResults
  part_000.setModules part_000.setEnrollments part_000.setModuleForm
  part_000.setAssignedUsers part_000.setShowCreateModule part_000.currentUser_id
  part_001.callLearnAgent part_001.callEvalAgent
  part_001.setAgentChat_updater part_001.setEnrollments_updater
  part_001.setIsTyping part_001.setModules part_001.setEnrollments
  part_001.setModuleForm part_001.setShowCreateModule part_001.currentUser_id
  : gateway.

(** Unfold a call down to the oracle readings it depends on. *)
Ltac run_call := repeat autounfold with gateway; cbn.

Lemma nullish_get v k : nullish v = false -> get v k = Some (v?.k).
Proof. unfold get_opt. destruct v; cbn; try discriminate; reflexivity. Qed.

Lemma get_None_nullish v k : get v k = None <-> nullish v = true.
Proof. destruct v; cbn; split; congruence. Qed.

Lemma truthy_not_nullish v : truthy v = true -> nullish v = false.
Proof. destruct v; cbn; congruence. Qed.

Section Transcript.
Variable host : Host.

Lemma callLearnAgent_chat o w userMessage moduleContent requestType :
  let w' := exec (part_000.callLearnAgent host userMessage moduleContent requestType) o w in
  exists more_u more_a,
    part_000.agentChat (ui w') =
    part_000.agentChat (ui w) ++
      [ {| role := user; content := JStr userMessage; extra := more_u |};
        {| role := assistant;
           content :=
             match json_reply host o (length (sent (io w))) with
             | Some parsed =>
                 parsed?."response"?."content" ||j
                 JStr "I understand your question but need more context from the module content to provide a specific answer."
             | None =>
                 JStr "I'm having trouble processing your request right now. Please try again in a moment."
             end;
           extra := more_a |} ].
Proof.
  intros w'. subst w'. run_call.
  destruct (network o (length (sent (io w)))) as [|text]; cbn.
  - eauto.
  - destruct (JSON_parse host text) as [data|]; cbn; eauto.
Qed.

Lemma callLearnAgent_l570_chat o w message moduleContent :
  let w' := exec (part_000.callLearnAgent_l570 host message moduleContent) o w in
  match json_reply host o (length (sent (io w))) with
  | Some parsed =>
      if nullish parsed
      then part_000.agentChat (ui w') = part_000.agentChat (ui w)
           /\ render_errors (io w') = S (render_errors (io w))
      else part_000.agentChat (ui w') =
           part_000.agentChat (ui w) ++
             [ part_000.chat_line user (JStr message) [];
               part_000.chat_line assistant
                 (parsed?."response"?."content" ||j JStr "No response") [] ]
  | None =>
      part_000.agentChat (ui w') =
      part_000.agentChat (ui w) ++
        [ part_000.chat_line user (JStr message) [];
          part_000.chat_line assistant
            (JStr "Sorry, I encountered an error processing your request.") [] ]
  end.
Proof.
  intros w'. subst w'. run_call.
  destruct (network o (length (sent (io w)))) as [|text]; cbn; [reflexivity|].
  destruct (JSON_parse host text) as [data|]; cbn; [|reflexivity].
  unfold part_000.setAgentChat_updater, update; cbn.
  destruct (nullish (parseLLMJson host data)) eqn:E.
  - apply get_None_nullish with (k := "response") in E. rewrite E. cbn. auto.
  - rewrite (nullish_get _ "response" E). cbn. reflexivity.
Qed.

Lemma part_001_callLearnAgent_chat o w message moduleContent :
  let w' := exec (part_001.callLearnAgent host message moduleContent) o w in
  match json_reply host o (length (sent (io w))) with
  | Some parsed =>
      if nullish parsed
      then part_001.agentChat (ui w') = part_001.agentChat (ui w)
           /\ render_errors (io w') = S (render_errors (io w))
      else part_001.agentChat (ui w') =
           part_001.agentChat (ui w) ++
             [ part_000.chat_line user (JStr message) [];
               part_000.chat_line assistant
                 (parsed?."response"?."content" ||j JStr "No response") [] ]
  | None =>
      part_001.agentChat (ui w') =
      part_001.agentChat (ui w) ++
        [ part_000.chat_line user (JStr message) [];
          part_000.chat_line assistant
            (JStr "Sorry, I encountered an error processing your request.") [] ]
  end.
Proof.
  intros w'. subst w'. run_call.
  destruct (network o (length (sent (io w)))) as [|text]; cbn; [reflexivity|].
  destruct (JSON_parse host text) as [data|]; cbn; [|reflexivity].
  destruct (nullish (parseLLMJson host data)) eqn:E.
  - apply get_None_nullish with (k := "response") in E. rewrite E. cbn. auto.
  - rewrite (nullish_get _ "response" E). cbn. reflexivity.
Qed.

Lemma callEvalAgent_chat o w content :
  let w' := exec (part_000.callEvalAgent host content) o w in
  match json_reply host o (length (sent (io w))) with
  | Some parsed =>
      if nullish parsed
      then part_000.agentChat (ui w') = part_000.agentChat (ui w)
           /\ render_errors (io w') = S (render_errors (io w))
      else part_000.agentChat (ui w') =
           part_000.agentChat (ui w) ++
             [ part_000.chat_line assistant (generated_summary host parsed) [] ]
  | None =>
      part_000.agentChat (ui w') =
      part_000.agentChat (ui w) ++
        [ part_000.chat_line assistant
            (JStr "Sorry, I encountered an error generating the assessment.") [] ]
  end.
Proof.
  intros w'. subst w'. unfold generated_summary. run_call.
  destruct (network o (length (sent (io w)))) as [|text]; cbn; [reflexivity|].
  destruct (JSON_parse host text) as [data|]; cbn; [|reflexivity].
  destruct (nullish (parseLLMJson host data)) eqn:E.
  - apply get_None_nullish with (k := "assessment") in E. rewrite E. cbn. auto.
  - rewrite (nullish_get _ "assessment" E). cbn. reflexivity.
Qed.

Lemma part_001_callEvalAgent_chat o w content :
  let w' := exec (part_001.callEvalAgent host content) o w in
  match json_reply host o (length (sent (io w))) with
  | Some parsed =>
      if nullish parsed
      then part_001.agentChat (ui w') = part_001.agentChat (ui w)
           /\ render_errors (io w') = S (render_errors (io w))
      else part_001.agentChat (ui w') =
           part_001.agentChat (ui w) ++
             [ part_000.chat_line assistant (generated_summary host parsed) [] ]
  | None =>
      part_001.agentChat (ui w') =
      part_001.agentChat (ui w) ++
        [ part_000.chat_line assistant
            (JStr "Sorry, I encountered an error generating the assessment.") [] ]
  end.
Proof.
  intros w'. subst w'. unfold generated_summary. run_call.
  destruct (network o (length (sent (io w)))) as [|text]; cbn; [reflexivity|].
  destruct (JSON_parse host text) as [data|]; cbn; [|reflexivity].
  destruct (nullish (parseLLMJson host data)) eqn:E.
  - apply get_None_nullish with (k := "assessment") in E. rewrite E. cbn. auto.
  - rewrite (nullish_get _ "assessment" E). cbn. reflexivity.
Qed.

Lemma handleLearningQuestion_chat o w question lesson :
  App_tsx.currentLesson (ui w) = Some lesson ->
  let w' := exec (App_tsx.handleLearningQuestion host question) o w in
  let reply := text_reply host o (length (sent (io w))) in
  App_tsx.chatMessages (ui w') =
  App_tsx.chatMessages (ui w)
  ++ [ {| role := user; content := JStr question; extra := [] |} ]
  ++ (if truthy reply && negb (nullish reply?."result")
      then [ learning_answer reply ] else []).
Proof.
  intros Hl w' reply. subst w' reply. unfold learning_answer. run_call.
  rewrite Hl. run_call.
  destruct (network o (length (sent (io w)))) as [|text]; cbn; [reflexivity|].
  destruct (truthy (parseLLMJson host (JStr text))) eqn:T; cbn; [|reflexivity].
  rewrite (nullish_get _ "result" (truthy_not_nullish _ T)). cbn.
  destruct (nullish (parseLLMJson host (JStr text))?."result") eqn:E; cbn.
  - apply get_None_nullish with (k := "response") in E. rewrite E. cbn. reflexivity.
  - rewrite !(nullish_get _ _ E). cbn. rewrite <- app_assoc. reflexivity.
Qed.

Lemma handleLearningQuestion_idle o w question :
  App_tsx.currentLesson (ui w) = None ->
  exec (App_tsx.handleLearningQuestion host question) o w = w.
Proof. intros Hl. run_call. rewrite Hl. cbn. destruct w; reflexivity. Qed.
End Transcript.

Section Assessment.
Variable host : Host.

Lemma clock_advanced_refl {St} (w : World St) : clock_advanced w w.
Proof. repeat split. Qed.

Lemma clock_advanced_trans {St} (a b c : World St) :
  clock_advanced a b -> clock_advanced b c -> clock_advanced a c.
Proof.
  unfold clock_advanced. intros (?&?&?&?&?) (?&?&?&?&?).
  repeat split; congruence.
Qed.

Lemma generated_question_frame q index o w :
  clock_advanced w (exec (part_000.generated_question q index) o w).
Proof.
  unfold part_000.generated_question. run_call.
  destruct (get q "question"); cbn; [|repeat split].
  destruct (get q "expected_answer"); cbn; repeat split.
Qed.

Lemma generated_questions_frame items : forall index o w,
  clock_advanced w (exec (mapM_index part_000.generated_question index items) o w)
  /\ match completion (mapM_index part_000.generated_question index items) o w with
     | Normal generated => length generated = length items
     | Throw => True
     end.
Proof.
  induction items as [|q rest IH]; intros index o w.
  - split; [apply clock_advanced_refl | reflexivity].
  - pose proof (generated_question_frame q index o w) as Hq.
    unfold exec, completion in *. cbn [mapM_index]. unfold bind, ret.
    destruct (part_000.generated_question q index o w) as [[y|] w1] eqn:E1; cbn in Hq.
    + specialize (IH (S index) o w1).
      destruct (mapM_index part_000.generated_question (S index) rest o w1)
        as [[ys|] w2] eqn:E2; cbn in IH |- *.
      * destruct IH as [IH1 IH2]. split; [eapply clock_advanced_trans; eauto | congruence].
      * destruct IH as [IH1 _]. split; [eapply clock_advanced_trans; eauto | exact I].
    + cbn. split; [exact Hq | exact I].
Qed.

(** What the generation call leaves in the quiz slot, and returns. *)
Lemma generateAssessment_quiz o w moduleContent :
  let w' := exec (part_000.generateAssessment host moduleContent) o w in
  let r := completion (part_000.generateAssessment host moduleContent) o w in
  exists quiz,
    part_000.currentQuiz (ui w') = Some quiz /\ r = Normal quiz /\
    part_000.agentChat (ui w') = part_000.agentChat (ui w) /\
    match json_reply host o (length (sent (io w))) with
    | None => quiz = part_000.errorQuestions
    | Some parsed =>
        let questions := parsed?."assessment"?."questions" in
        if truthy questions then
          match part_000.array_items questions with
          | Some items => length quiz = length items \/ quiz = part_000.errorQuestions
          | None => quiz = part_000.errorQuestions
          end
        else quiz = part_000.fallbackQuestions
    end.
Proof.
  intros w' r. subst w' r. run_call.
  destruct (network o (length (sent (io w)))) as [|text]; cbn.
  { eexists; repeat split. }
  destruct (JSON_parse host text) as [data|]; cbn.
  2:{ eexists; repeat split. }
  destruct (truthy (parseLLMJson host data)?."assessment"?."questions") eqn:T; cbn.
  2:{ eexists; repeat split. }
  destruct (part_000.array_items (parseLLMJson host data)?."assessment"?."questions")
    as [items|] eqn:A; cbn.
  2:{ eexists; repeat split. }
  match goal with
  | |- context [mapM_index part_000.generated_question 0%nat items o ?w0] =>
      pose proof (generated_questions_frame items 0%nat o w0) as [F L];
      unfold exec, completion in F, L;
      destruct (mapM_index part_000.generated_question 0%nat items o w0)
        as [[generated|] w1]
  end; cbn in *.
  - destruct F as (Fu & _). eexists; repeat split; cbn.
    + rewrite Fu. reflexivity.
    + left. exact L.
  - destruct F as (Fu & _). eexists; repeat split; cbn.
    + rewrite Fu. reflexivity.
    + right. reflexivity.
Qed.

Lemma truthy_get_opt v k : truthy v?.k = true -> nullish v = false.
Proof. destruct v; cbn; congruence. Qed.

Lemma evaluateAssessment_grade o w moduleContent userResponses history :
  let w' := exec (part_000.evaluateAssessment host moduleContent userResponses history) o w in
  part_000.agentChat (ui w') = part_000.agentChat (ui w) /\
  part_000.gradeResults (ui w') =
  Some match json_reply host o (length (sent (io w))) with
       | None => error_grade
       | Some parsed =>
           let evaluation := parsed?."assessment"?."evaluation" in
           if truthy evaluation then evaluation_grade evaluation else default_grade
       end.
Proof.
  intros w'. subst w'. unfold evaluation_grade, default_grade, error_grade. run_call.
  destruct (network o (length (sent (io w)))) as [|text]; cbn; [split; reflexivity|].
  destruct (JSON_parse host text) as [data|]; cbn; [|split; reflexivity].
  destruct (truthy (parseLLMJson host data)?."assessment"?."evaluation") eqn:T; cbn;
    [|split; reflexivity].
  pose proof (truthy_not_nullish _ T) as N2.
  pose proof (truthy_get_opt _ _ T) as N1.
  assert (N0 : nullish (parseLLMJson host data) = false).
  { destruct (parseLLMJson host data); cbn in *; congruence. }
  rewrite (nullish_get _ "assessment" N0). cbn.
  rewrite (nullish_get _ "evaluation" N1). cbn.
  rewrite !(nullish_get _ _ N2). cbn. split; reflexivity.
Qed.
End Assessment.

Section Requests.
Variable host : Host.

Lemma callAgent_request o (w : World App_tsx.State) agentId message :
  let w' := exec (App_tsx.callAgent host agentId message) o w in
  sent (io w') = sent (io w) ++
    [post host (four_fields
       ("user-" +:+ int_text (clock o (ticks (io w))) +:+ "-" +:+ random36 o (draws (io w)))
       agentId (App_tsx.sessionId (ui w)) message)]
  /\ ui w' = ui w
  /\ completion (App_tsx.callAgent host agentId message) o w
     = Normal (text_reply host o (length (sent (io w)))).
Proof.
  intros w'. subst w'. run_call.
  destruct (network o (length (sent (io w)))); cbn; repeat split.
Qed.

Lemma handleLearningQuestion_request o w question lesson :
  App_tsx.currentLesson (ui w) = Some lesson ->
  sent (io (exec (App_tsx.handleLearningQuestion host question) o w)) =
  sent (io w) ++
    [post host (four_fields
       ("user-" +:+ int_text (clock o (ticks (io w))) +:+ "-" +:+ random36 o (draws (io w)))
       App_tsx.LEARN_AGENT (App_tsx.sessionId (ui w))
       (App_tsx.learning_prompt lesson question))].
Proof.
  intros Hl. run_call. rewrite Hl. run_call.
  destruct (network o (length (sent (io w)))) as [|text]; cbn; [reflexivity|].
  destruct (truthy (parseLLMJson host (JStr text))) eqn:T; cbn; [|reflexivity].
  rewrite (nullish_get _ "result" (truthy_not_nullish _ T)). cbn.
  destruct (nullish (parseLLMJson host (JStr text))?."result") eqn:E; cbn.
  - apply get_None_nullish with (k := "response") in E. rewrite E. reflexivity.
  - rewrite !(nullish_get _ _ E). reflexivity.
Qed.

Lemma callLearnAgent_request o w userMessage moduleContent requestType :
  sent (io (exec (part_000.callLearnAgent host userMessage moduleContent requestType) o w)) =
  sent (io w) ++
    [post host (four_fields
       ("user_" +:+ int_text (clock o (ticks (io w))) +:+ "_" +:+ random36 o (draws (io w)))
       LEARN_AGENT_ID
       ("learn_" +:+ LEARN_AGENT_ID +:+ "_" +:+ int_text (clock o (S (ticks (io w)))))
       (JSON_stringify host
          (part_000.learn_envelope moduleContent userMessage requestType)))].
Proof.
  run_call.
  destruct (network o (length (sent (io w)))) as [|text]; cbn; [reflexivity|].
  destruct (JSON_parse host text) as [data|]; cbn; reflexivity.
Qed.

Lemma generateAssessment_request o w moduleContent :
  sent (io (exec (part_000.generateAssessment host moduleContent) o w)) =
  sent (io w) ++
    [post host (four_fields
       ("hr_" +:+ int_text (clock o (ticks (io w))) +:+ "_" +:+ random36 o (draws (io w)))
       EVAL_AGENT_ID
       ("eval_" +:+ EVAL_AGENT_ID +:+ "_" +:+ int_text (clock o (S (ticks (io w)))))
       (JSON_stringify host (part_000.quiz_envelope moduleContent)))].
Proof.
  run_call.
  destruct (network o (length (sent (io w)))) as [|text]; cbn; [reflexivity|].
  destruct (JSON_parse host text) as [data|]; cbn; [|reflexivity].
  destruct (truthy (parseLLMJson host data)?."assessment"?."questions") eqn:T; cbn;
    [|reflexivity].
  destruct (part_000.array_items (parseLLMJson host data)?."assessment"?."questions")
    as [items|] eqn:A; cbn; [|reflexivity].
  match goal with
  | |- context [mapM_index part_000.generated_question 0%nat items o ?w0] =>
      pose proof (generated_questions_frame items 0%nat o w0) as [F _];
      unfold exec in F;
      destruct (mapM_index part_000.generated_question 0%nat items o w0)
        as [[generated|] w1]
  end; cbn in *; destruct F as (_ & Fs & _); exact Fs.
Qed.

Lemma evaluateAssessment_request o w moduleContent userResponses history :
  sent (io (exec (part_000.evaluateAssessment host moduleContent userResponses history) o w)) =
  sent (io w) ++
    [post host (four_fields
       ("student_" +:+ int_text (clock o (ticks (io w))) +:+ "_" +:+ random36 o (draws (io w)))
       EVAL_AGENT_ID
       ("eval_" +:+ EVAL_AGENT_ID +:+ "_" +:+ int_text (clock o (S (ticks (io w)))))
       (JSON_stringify host
          (part_000.evaluation_envelope moduleContent (answersString host userResponses) history)))].
Proof.
  pose proof (evaluateAssessment_grade host o w moduleContent userResponses history) as _.
  unfold answersString. run_call.
  destruct (network o (length (sent (io w)))) as [|text]; cbn; [reflexivity|].
  destruct (JSON_parse host text) as [data|]; cbn; [|reflexivity].
  destruct (truthy (parseLLMJson host data)?."assessment"?."evaluation") eqn:T; cbn;
    [|reflexivity].
  pose proof (truthy_not_nullish _ T) as N2.
  pose proof (truthy_get_opt _ _ T) as N1.
  assert (N0 : nullish (parseLLMJson host data) = false).
  { destruct (parseLLMJson host data); cbn in *; congruence. }
  rewrite (nullish_get _ "assessment" N0). cbn.
  rewrite (nullish_get _ "evaluation" N1). cbn.
  rewrite !(nullish_get _ _ N2). cbn. reflexivity.
Qed.

Lemma callLearnAgent_l570_request o w message moduleContent :
  sent (io (exec (part_000.callLearnAgent_l570 host message moduleContent) o w)) =
  sent (io w) ++
    [post host (four_fields
       ("user" +:+ int_text (clock o (ticks (io w))) +:+ "@test.com")
       LEARN_AGENT_ID
       ("learn-" +:+ LEARN_AGENT_ID +:+ "-" +:+ int_text (clock o (S (ticks (io w)))))
       (part_000.question_prompt moduleContent message))].
Proof.
  run_call.
  destruct (network o (length (sent (io w)))) as [|text]; cbn; [reflexivity|].
  destruct (JSON_parse host text) as [data|]; cbn; [|reflexivity].
  destruct (get (parseLLMJson host data) "response"); reflexivity.
Qed.

Lemma callEvalAgent_request o w content :
  sent (io (exec (part_000.callEvalAgent host content) o w)) =
  sent (io w) ++
    [post host (four_fields
       ("user" +:+ int_text (clock o (ticks (io w))) +:+ "@test.com")
       EVAL_AGENT_ID
       ("eval-" +:+ EVAL_AGENT_ID +:+ "-" +:+ int_text (clock o (S (ticks (io w)))))
       (part_000.generation_prompt content))].
Proof.
  run_call.
  destruct (network o (length (sent (io w)))) as [|text]; cbn; [reflexivity|].
  destruct (JSON_parse host text) as [data|]; cbn; [|reflexivity].
  destruct (get (parseLLMJson host data) "assessment"); reflexivity.
Qed.

Lemma part_001_callLearnAgent_request o w message moduleContent :
  sent (io (exec (part_001.callLearnAgent host message moduleContent) o w)) =
  sent (io w) ++
    [post host (four_fields
       ("user" +:+ int_text (clock o (ticks (io w))) +:+ "@test.com")
       LEARN_AGENT_ID
       ("learn-" +:+ LEARN_AGENT_ID +:+ "-" +:+ int_text (clock o (S (ticks (io w)))))
       (part_000.question_prompt moduleContent message))].
Proof.
  run_call.
  destruct (network o (length (sent (io w)))) as [|text]; cbn; [reflexivity|].
  destruct (JSON_parse host text) as [data|]; cbn; [|reflexivity].
  destruct (get (parseLLMJson host data) "response"); reflexivity.
Qed.

Lemma part_001_callEvalAgent_request o w content :
  sent (io (exec (part_001.callEvalAgent host content) o w)) =
  sent (io w) ++
    [post host (four_fields
       ("user" +:+ int_text (clock o (ticks (io w))) +:+ "@test.com")
       EVAL_AGENT_ID
       ("eval-" +:+ EVAL_AGENT_ID +:+ "-" +:+ int_text (clock o (S (ticks (io w)))))
       (part_000.generation_prompt content))].
Proof.
  run_call.
  destruct (network o (length (sent (io w)))) as [|text]; cbn; [reflexivity|].
  destruct (JSON_parse host text) as [data|]; cbn; [|reflexivity].
  destruct (get (parseLLMJson host data) "assessment"); reflexivity.
Qed.
End Requests.

Section Grading_App.
Variable host : Host.

#[local] Arguments App_tsx.find_by : simpl never.

Lemma App_evaluateAssessment_effects o w courseId lessonId answers :
  let w' := exec (App_tsx.evaluateAssessment host courseId lessonId answers) o w in
  (exists delta,
     App_tsx.chatMessages (ui w') = App_tsx.chatMessages (ui w) ++ delta /\
     (delta = [] \/ exists a, delta = [a] /\ role a = assistant)) /\
  (sent (io w') = sent (io w) \/
   exists course lesson assessment,
     sent (io w') = sent (io w) ++
       [post host (four_fields
          ("user-" +:+ int_text (clock o (ticks (io w))) +:+ "-" +:+ random36 o (draws (io w)))
          App_tsx.EVAL_AGENT (App_tsx.sessionId (ui w))
          (App_tsx.grading_prompt course lesson assessment answers))]).
Proof.
  intros w'. subst w'. run_call.
  destruct (App_tsx.find_by App_tsx.Course.id courseId (App_tsx.courses (ui w))) as [c|];
    cbn.
  2:{ split; [exists []; rewrite app_nil_r; auto | auto]. }
  destruct (App_tsx.find_by App_tsx.Lesson.id lessonId (App_tsx.Course.lessons c)) as [l|];
    cbn.
  2:{ split; [exists []; rewrite app_nil_r; auto | auto]. }
  destruct (App_tsx.Lesson.assessment l) as [a|]; cbn.
  2:{ split; [exists []; rewrite app_nil_r; auto | auto]. }
  run_call.
  destruct (network o (length (sent (io w)))) as [|text]; cbn.
  { split; [exists []; rewrite app_nil_r; auto | right; eauto 6]. }
  destruct (truthy (parseLLMJson host (JStr text))) eqn:T; cbn.
  2:{ split; [exists []; rewrite app_nil_r; auto | right; eauto 6]. }
  rewrite (nullish_get _ "result" (truthy_not_nullish _ T)). cbn.
  destruct (nullish (parseLLMJson host (JStr text))?."result") eqn:E; cbn.
  - apply get_None_nullish with (k := "summary") in E. rewrite E. cbn.
    split; [exists []; rewrite app_nil_r; auto | right; eauto 6].
  - rewrite !(nullish_get _ _ E). cbn.
    split; [eexists; split; [reflexivity | right; eauto 6] | right; eauto 6].
Qed.
End Grading_App.

(** ** C1: transcript entries per call *)

(** A user entry followed by an assistant entry is one entry of each role. *)
Lemma appends_one_each_of_pair before after :
  appends [user; assistant] before after -> appends_one_each before after.
Proof.
  intros (delta & -> & Hr). exists delta. split; [reflexivity|].
  destruct delta as [|a [|b [|c rest]]]; try discriminate.
  cbn in Hr. injection Hr as Ha Hb. unfold count_role.
  rewrite !filter_cons, !filter_nil, Ha, Hb.
  repeat case_decide; try congruence; split; reflexivity.
Qed.

(** C1, as stated, fails: an assessment-generation call of [part_001] whose
    request fails pushes a single assistant entry and no user entry. *)
Lemma assessment_call_pushes_no_user_entry :
  ~ appends_one_each
      (part_001.agentChat (ui (part_001_world [])))
      (part_001.agentChat
         (ui (exec (part_001.callEvalAgent host_rejecting "Fire safety") offline
                (part_001_world [])))).
Proof.
  intros (delta & H & Hu & _).
  vm_compute in H. subst delta. vm_compute in Hu. discriminate.
Qed.

(** C1, amended.  [callLearnAgent] of [part_000] (line 218) pushes one user
    entry followed by one assistant entry on every path.  The shorter
    [callLearnAgent] (line 570 of [part_000], and [part_001]) does so when the
    request fails, the body is not JSON, or the helper's result is neither
    [null] nor [undefined].  [callEvalAgent] pushes one assistant entry and
    no user entry under the same condition.  [handleLearningQuestion] of
    [App.tsx] pushes the user entry, and the assistant entry only when
    [callAgent] returned a truthy reply that has a [result].
    [generateAssessment] and [evaluateAssessment] of [part_000] leave the
    transcript as it was; [evaluateAssessment] of [App.tsx] pushes at most
    one assistant entry and never a user entry. *)
Theorem transcript_entries_per_call (host : Host) (o : Oracle) :
  (forall w userMessage moduleContent requestType,
     appends [user; assistant]
       (part_000.agentChat (ui w))
       (part_000.agentChat
          (ui (exec (part_000.callLearnAgent host userMessage moduleContent requestType) o w))))
  /\ (forall w message moduleContent,
        (forall parsed, json_reply host o (length (sent (io w))) = Some parsed ->
                        nullish parsed = false) ->
        appends [user; assistant]
          (part_000.agentChat (ui w))
          (part_000.agentChat
             (ui (exec (part_000.callLearnAgent_l570 host message moduleContent) o w))))
  /\ (forall w message moduleContent,
        (forall parsed, json_reply host o (length (sent (io w))) = Some parsed ->
                        nullish parsed = false) ->
        appends [user; assistant]
          (part_001.agentChat (ui w))
          (part_001.agentChat
             (ui (exec (part_001.callLearnAgent host message moduleContent) o w))))
  /\ (forall w content,
        (forall parsed, json_reply host o (length (sent (io w))) = Some parsed ->
                        nullish parsed = false) ->
        appends [assistant]
          (part_000.agentChat (ui w))
          (part_000.agentChat (ui (exec (part_000.callEvalAgent host content) o w))))
  /\ (forall w content,
        (forall parsed, json_reply host o (length (sent (io w))) = Some parsed ->
                        nullish parsed = false) ->
        appends [assistant]
          (part_001.agentChat (ui w))
          (part_001.agentChat (ui (exec (part_001.callEvalAgent host content) o w))))
  /\ (forall w question lesson,
        App_tsx.currentLesson (ui w) = Some lesson ->
        let reply := text_reply host o (length (sent (io w))) in
        appends (user :: if truthy reply && negb (nullish reply?."result")
                         then [assistant] else [])
          (App_tsx.chatMessages (ui w))
          (App_tsx.chatMessages
             (ui (exec (App_tsx.handleLearningQuestion host question) o w))))
  /\ (forall w moduleContent,
        part_000.agentChat (ui (exec (part_000.generateAssessment host moduleContent) o w))
        = part_000.agentChat (ui w))
  /\ (forall w moduleContent userResponses history,
        part_000.agentChat
          (ui (exec (part_000.evaluateAssessment host moduleContent userResponses history) o w))
        = part_000.agentChat (ui w))
  /\ (forall w courseId lessonId answers,
        let after :=
          App_tsx.chatMessages
            (ui (exec (App_tsx.evaluateAssessment host courseId lessonId answers) o w)) in
        appends [] (App_tsx.chatMessages (ui w)) after
        \/ appends [assistant] (App_tsx.chatMessages (ui w)) after).
Proof.
  repeat apply conj.
  - intros w um mc rt.
    destruct (callLearnAgent_chat host o w um mc rt) as (mu & ma & E).
    rewrite E. eexists; split; reflexivity.
  - intros w m mc Hn.
    pose proof (callLearnAgent_l570_chat host o w m mc) as E. cbn zeta in E.
    destruct (json_reply host o (length (sent (io w)))) as [parsed|].
    + rewrite (Hn parsed eq_refl) in E. rewrite E. eexists; split; reflexivity.
    + rewrite E. eexists; split; reflexivity.
  - intros w m mc Hn.
    pose proof (part_001_callLearnAgent_chat host o w m mc) as E. cbn zeta in E.
    destruct (json_reply host o (length (sent (io w)))) as [parsed|].
    + rewrite (Hn parsed eq_refl) in E. rewrite E. eexists; split; reflexivity.
    + rewrite E. eexists; split; reflexivity.
  - intros w c Hn.
    pose proof (callEvalAgent_chat host o w c) as E. cbn zeta in E.
    destruct (json_reply host o (length (sent (io w)))) as [parsed|].
    + rewrite (Hn parsed eq_refl) in E. rewrite E. eexists; split; reflexivity.
    + rewrite E. eexists; split; reflexivity.
  - intros w c Hn.
    pose proof (part_001_callEvalAgent_chat host o w c) as E. cbn zeta in E.
    destruct (json_reply host o (length (sent (io w)))) as [parsed|].
    + rewrite (Hn parsed eq_refl) in E. rewrite E. eexists; split; reflexivity.
    + rewrite E. eexists; split; reflexivity.
  - intros w q lesson Hl reply.
    rewrite (handleLearningQuestion_chat host o w q lesson Hl). fold reply.
    eexists; split; [reflexivity|].
    destruct (truthy reply && negb (nullish reply?."result")); reflexivity.
  - intros w mc.
    destruct (generateAssessment_quiz host o w mc) as (quiz & _ & _ & E & _). exact E.
  - intros w mc ur h. apply (evaluateAssessment_grade host o w mc ur h).
  - intros w c l a after. subst after.
    destruct (App_evaluateAssessment_effects host o w c l a) as [(delta & E & [->|(e & -> & R)]) _].
    + left. rewrite E. exists []. split; reflexivity.
    + right. rewrite E. exists [e]. split; [reflexivity | cbn; rewrite R; reflexivity].
Qed.

Lemma transcript_entries_per_call_witness :
  appends [user; assistant]
    (part_001.agentChat (ui (part_001_world [])))
    (part_001.agentChat
       (ui (exec (part_001.callLearnAgent
                    (host_parsing (JObj [("response", JObj [("content", JStr "Use the stairs.")])]))
                    "Which exit?" "Fire safety")
                 (answering "{}") (part_001_world [])))).
Proof.
  apply (proj1 (proj2 (proj2
           (transcript_entries_per_call
              (host_parsing (JObj [("response", JObj [("content", JStr "Use the stairs.")])]))
              (answering "{}"))))).
  intros parsed H. vm_compute in H. injection H as <-. reflexivity.
Defined.

(** ** C3: fallbacks on failure *)




(** ** C7: the body of every POST *)

Lemma four_fields_text host userId agentId sessionId message :
  body (post host (four_fields userId agentId sessionId message)) =
  "{" +:+ json_quote "user_id" +:+ ":" +:+ json_quote userId +:+ ","
      +:+ json_quote "agent_id" +:+ ":" +:+ json_quote agentId +:+ ","
      +:+ json_quote "session_id" +:+ ":" +:+ json_quote sessionId +:+ ","
      +:+ json_quote "message" +:+ ":" +:+ json_quote message +:+ "}".
Proof.
  unfold post, four_fields. cbn [body JSON_stringify map join fold_left].
  rewrite !str_app_assoc. reflexivity.
Qed.

(** C7.  Every call site sends one request; it is a POST to the endpoint
    whose body is [JSON.stringify] of an object with exactly the properties
    [user_id], [agent_id], [session_id] and [message], in this order.  The
    message is a plain-text prompt in [App.tsx], in the shorter
    [callLearnAgent] and in [callEvalAgent], and a stringified envelope in
    [callLearnAgent], [generateAssessment] and [evaluateAssessment] of
    [part_000]. *)
Theorem post_body_four_fields (host : Host) (o : Oracle) :
  (forall userId agentId sessionId message,
     let request := post host (four_fields userId agentId sessionId message) in
     url request = endpoint /\ method request = "POST" /\
     body request =
       "{" +:+ json_quote "user_id" +:+ ":" +:+ json_quote userId +:+ ","
           +:+ json_quote "agent_id" +:+ ":" +:+ json_quote agentId +:+ ","
           +:+ json_quote "session_id" +:+ ":" +:+ json_quote sessionId +:+ ","
           +:+ json_quote "message" +:+ ":" +:+ json_quote message +:+ "}")
  /\ (forall w question,
        let w' := exec (App_tsx.handleLearningQuestion host question) o w in
        match App_tsx.currentLesson (ui w) with
        | Some lesson =>
            exists userId sessionId,
              sent (io w') = sent (io w) ++
                [post host (four_fields userId App_tsx.LEARN_AGENT sessionId
                              (App_tsx.learning_prompt lesson question))]
        | None => sent (io w') = sent (io w)
        end)
  /\ (forall w courseId lessonId answers,
        let w' := exec (App_tsx.evaluateAssessment host courseId lessonId answers) o w in
        sent (io w') = sent (io w) \/
        exists userId sessionId course lesson assessment,
          sent (io w') = sent (io w) ++
            [post host (four_fields userId App_tsx.EVAL_AGENT sessionId
                          (App_tsx.grading_prompt course lesson assessment answers))])
  /\ (forall w userMessage moduleContent requestType,
        exists userId sessionId,
          sent (io (exec (part_000.callLearnAgent host userMessage moduleContent
                            requestType) o w)) =
          sent (io w) ++
            [post host (four_fields userId LEARN_AGENT_ID sessionId
               (JSON_stringify host
                  (part_000.learn_envelope moduleContent userMessage requestType)))])
  /\ (forall w moduleContent,
        exists userId sessionId,
          sent (io (exec (part_000.generateAssessment host moduleContent) o w)) =
          sent (io w) ++
            [post host (four_fields userId EVAL_AGENT_ID sessionId
               (JSON_stringify host (part_000.quiz_envelope moduleContent)))])
  /\ (forall w moduleContent userResponses history,
        exists userId sessionId,
          sent (io (exec (part_000.evaluateAssessment host moduleContent userResponses
                            history) o w)) =
          sent (io w) ++
            [post host (four_fields userId EVAL_AGENT_ID sessionId
               (JSON_stringify host
                  (part_000.evaluation_envelope moduleContent
                     (answersString host userResponses) history)))])
  /\ (forall w message moduleContent,
        exists userId sessionId,
          sent (io (exec (part_000.callLearnAgent_l570 host message moduleContent) o w)) =
          sent (io w) ++
            [post host (four_fields userId LEARN_AGENT_ID sessionId
                          (part_000.question_prompt moduleContent message))])
  /\ (forall w content,
        exists userId sessionId,
          sent (io (exec (part_000.callEvalAgent host content) o w)) =
          sent (io w) ++
            [post host (four_fields userId EVAL_AGENT_ID sessionId
                          (part_000.generation_prompt content))])
  /\ (forall w message moduleContent,
        exists userId sessionId,
          sent (io (exec (part_001.callLearnAgent host message moduleContent) o w)) =
          sent (io w) ++
            [post host (four_fields userId LEARN_AGENT_ID sessionId
                          (part_000.question_prompt moduleContent message))])
  /\ (forall w content,
        exists userId sessionId,
          sent (io (exec (part_001.callEvalAgent host content) o w)) =
          sent (io w) ++
            [post host (four_fields userId EVAL_AGENT_ID sessionId
                          (part_000.generation_prompt content))]).
Proof.
  repeat apply conj.
  - intros u a s m request. subst request.
    split; [reflexivity|]. split; [reflexivity|]. apply four_fields_text.
  - intros w q w'. subst w'.
    destruct (App_tsx.currentLesson (ui w)) as [lesson|] eqn:Hl.
    + do 2 eexists. apply (handleLearningQuestion_request host o w q lesson Hl).
    + now rewrite (handleLearningQuestion_idle host o w q Hl).
  - intros w c l a w'. subst w'.
    destruct (App_evaluateAssessment_effects host o w c l a) as [_ [E|(c' & l' & a' & E)]].
    + left. exact E.
    + right. do 5 eexists. exact E.
  - intros. do 2 eexists. apply callLearnAgent_request.
  - intros. do 2 eexists. apply generateAssessment_request.
  - intros. do 2 eexists. apply evaluateAssessment_request.
  - intros. do 2 eexists. apply callLearnAgent_l570_request.
  - intros. do 2 eexists. apply callEvalAgent_request.
  - intros. do 2 eexists. apply part_001_callLearnAgent_request.
  - intros. do 2 eexists. apply part_001_callEvalAgent_request.
Qed.

(** ** C6: the grade stored for an evaluation *)

(** C6, as stated, fails: an evaluation whose [feedback] is the empty string
    is stored with the thank-you text, not with its own feedback. *)
Lemma empty_feedback_is_replaced :
  let evaluation :=
    JObj [("score", JNum (Fin (inject_Z 80))); ("feedback", JStr "");
          ("gaps_identified", JArr [])] in
  let host := host_parsing (JObj [("assessment", JObj [("evaluation", evaluation)])]) in
  let w' := exec (part_000.evaluateAssessment host "Fire safety"
                    [("q1", JStr "Identify exit routes")] None)
              (answering "{}") (part_000_world []) in
  json_reply host (answering "{}") 0 =
    Some (JObj [("assessment", JObj [("evaluation", evaluation)])]) /\
  evaluation?."feedback" = JStr "" /\
  (grade_feedback <$> part_000.gradeResults (ui w')) =
    Some (JStr "Thank you for completing the assessment.") /\
  (grade_feedback <$> part_000.gradeResults (ui w')) <> Some evaluation?."feedback".
Proof. cbv zeta. repeat split; vm_compute; congruence. Qed.

(** C6, amended.  For a reply with a truthy [assessment.evaluation] the
    stored grade has total 100, and each of score, feedback and gaps is the
    evaluation's property when that is truthy, and otherwise 0, the thank-you
    text and the empty list: an absent property, but also [null], [0], [NaN],
    [false] or the empty string, gives the default. *)
Theorem evaluation_grade_stored (host : Host) (o : Oracle)
    (w : World part_000.State) (moduleContent : string)
    (userResponses : list (string * JValue)) (history : option string)
    (parsed : JValue) :
  json_reply host o (length (sent (io w))) = Some parsed ->
  let evaluation := parsed?."assessment"?."evaluation" in
  truthy evaluation = true ->
  part_000.gradeResults
    (ui (exec (part_000.evaluateAssessment host moduleContent userResponses history) o w))
  = Some {| grade_score :=
              if truthy evaluation?."score" then evaluation?."score" else JNum (Fin 0);
            grade_total := Fin (inject_Z 100);
            grade_feedback :=
              if truthy evaluation?."feedback" then evaluation?."feedback"
              else JStr "Thank you for completing the assessment.";
            grade_gaps :=
              if truthy evaluation?."gaps_identified" then evaluation?."gaps_identified"
              else JArr [] |}.
Proof.
  intros R evaluation T.
  destruct (evaluateAssessment_grade host o w moduleContent userResponses history) as [_ E].
  rewrite R in E. cbn zeta in E. fold evaluation in E. rewrite T in E. exact E.
Qed.

Lemma evaluation_grade_stored_witness :
  part_000.gradeResults
    (ui (exec (part_000.evaluateAssessment
                 (host_parsing
                    (JObj [("assessment",
                            JObj [("evaluation",
                                   JObj [("score", JNum (Fin (inject_Z 80)));
                                         ("feedback", JStr "Well done.")])])]))
                 "Fire safety" [("q1", JStr "Identify exit routes")] None)
           (answering "{}") (part_000_world [])))
  = Some {| grade_score := JNum (Fin (inject_Z 80));
            grade_total := Fin (inject_Z 100);
            grade_feedback := JStr "Well done.";
            grade_gaps := JArr [] |}.
Proof.
  apply (evaluation_grade_stored
           (host_parsing
              (JObj [("assessment",
                      JObj [("evaluation",
                             JObj [("score", JNum (Fin (inject_Z 80)));
                                   ("feedback", JStr "Well done.")])])]))
           (answering "{}") (part_000_world []) "Fire safety"
           [("q1", JStr "Identify exit routes")] None
           (JObj [("assessment",
                   JObj [("evaluation",
                          JObj [("score", JNum (Fin (inject_Z 80)));
                                ("feedback", JStr "Well done.")])])])).
  - vm_compute. reflexivity.
  - vm_compute. reflexivity.
Defined.

(** ** C5: user and session ids *)

Lemma pretty_N_char_digit x : is_digit (pretty_N_char x) = true.
Proof. unfold pretty_N_char. repeat case_match; reflexivity. Qed.

Lemma pretty_N_go_digits x : forall s,
  all_digits s = true -> all_digits (pretty_N_go x s) = true.
Proof.
  induction (N.lt_wf_0 x) as [x _ IH]; intros s Hs.
  destruct (decide (x = 0)%N) as [->|Hx].
  - now rewrite pretty_N_go_0.
  - rewrite pretty_N_go_step by lia.
    apply IH; [apply N.div_lt; lia|].
    cbn. now rewrite pretty_N_char_digit, Hs.
Qed.

Lemma pretty_N_go_length x : forall s,
  (String.length s <= String.length (pretty_N_go x s))%nat.
Proof.
  induction (N.lt_wf_0 x) as [x _ IH]; intros s.
  destruct (decide (x = 0)%N) as [->|Hx].
  - now rewrite pretty_N_go_0.
  - rewrite pretty_N_go_step by lia.
    etransitivity; [|apply IH; apply N.div_lt; lia]. cbn. lia.
Qed.

Lemma pretty_N_digits (n : N) :
  all_digits (pretty n) = true /\ pretty n <> "".
Proof.
  unfold pretty, pretty_N. destruct (decide (n = 0)%N) as [->|Hn].
  - split; [reflexivity | discriminate].
  - split; [now apply pretty_N_go_digits|].
    rewrite pretty_N_go_step by lia. intros E.
    pose proof (pretty_N_go_length (n `div` 10)
                  (String (pretty_N_char (n `mod` 10)) "")) as L.
    rewrite E in L. cbn in L. lia.
Qed.

(** Two digit strings followed by the same non-digit separator. *)
Lemma digits_then_separator d1 : forall d2 sep r1 r2,
  all_digits d1 = true -> all_digits d2 = true -> is_digit sep = false ->
  d1 +:+ String sep r1 = d2 +:+ String sep r2 -> d1 = d2 /\ r1 = r2.
Proof.
  induction d1 as [|c1 d1 IH]; intros [|c2 d2] sep r1 r2 H1 H2 Hs E.
  - rewrite !str_app_nil_l in E. injection E as ->. auto.
  - rewrite str_app_nil_l, str_app_cons in E. injection E as -> _.
    cbn in H2. rewrite Hs in H2. discriminate.
  - rewrite str_app_nil_l, str_app_cons in E. injection E as -> _.
    cbn in H1. rewrite Hs in H1. discriminate.
  - rewrite !str_app_cons in E. injection E as -> E.
    cbn in H1, H2. apply andb_true_iff in H1 as [_ H1]. apply andb_true_iff in H2 as [_ H2].
    destruct (IH d2 sep r1 r2 H1 H2 Hs E) as [-> ->]. auto.
Qed.

Lemma pretty_Z_cases (z : Z) :
  (exists n : N, pretty z = pretty n /\ z = Z.of_N n)
  \/ (exists p : positive, pretty z = "-" +:+ pretty (Npos p) /\ z = Zneg p).
Proof.
  destruct z as [|p|p].
  - left. exists 0%N. split; reflexivity.
  - left. exists (Npos p). split; reflexivity.
  - right. exists p. split; reflexivity.
Qed.

(** A timestamp followed by a non-digit separator determines both the
    timestamp and what follows. *)
Lemma timestamp_then_separator (t1 t2 : Z) (sep : ascii) (r1 r2 : string) :
  is_digit sep = false ->
  int_text t1 +:+ String sep r1 = int_text t2 +:+ String sep r2 ->
  t1 = t2 /\ r1 = r2.
Proof.
  unfold int_text. intros Hs E.
  destruct (pretty_Z_cases t1) as [(n1 & P1 & ->)|(p1 & P1 & ->)];
  destruct (pretty_Z_cases t2) as [(n2 & P2 & ->)|(p2 & P2 & ->)];
    rewrite P1, P2 in E.
  - destruct (pretty_N_digits n1) as [D1 _], (pretty_N_digits n2) as [D2 _].
    destruct (digits_then_separator _ _ _ _ _ D1 D2 Hs E) as [En ->].
    apply (inj pretty) in En. subst. auto.
  - exfalso. destruct (pretty_N_digits n1) as [D1 N1].
    destruct (pretty (A:=N) n1) as [|c d] eqn:Ep; [congruence|].
    rewrite !str_app_cons in E. injection E as -> _. cbn in D1. discriminate.
  - exfalso. destruct (pretty_N_digits n2) as [D2 N2].
    destruct (pretty (A:=N) n2) as [|c d] eqn:Ep; [congruence|].
    rewrite !str_app_cons in E. injection E as <- _. cbn in D2. discriminate.
  - rewrite !str_app_cons, !str_app_nil_l in E. injection E as E.
    destruct (pretty_N_digits (Npos p1)) as [D1 _], (pretty_N_digits (Npos p2)) as [D2 _].
    destruct (digits_then_separator _ _ _ _ _ D1 D2 Hs E) as [En ->].
    apply (inj pretty) in En. injection En as ->. auto.
Qed.

Lemma prefixed_timestamp_inj (prefix : string) (t1 t2 : Z) :
  prefix +:+ int_text t1 = prefix +:+ int_text t2 -> t1 = t2.
Proof. intros E. apply (inj (String.app prefix)) in E. now apply (inj pretty) in E. Qed.

Lemma useEffect_sessionId_state o (w : World App_tsx.State) :
  App_tsx.sessionId (ui (exec App_tsx.useEffect_sessionId o w)) =
  "session-" +:+ int_text (clock o (ticks (io w))) +:+ "-" +:+ random36 o (draws (io w)).
Proof. unfold App_tsx.useEffect_sessionId, App_tsx.setSessionId. run_call. reflexivity. Qed.

(** C5, as stated, fails: two calls of [callLearnAgent] ([part_001]) within
    one millisecond send the same user id and the same session id, whatever
    [Math.random] returns. *)
Lemma two_calls_share_their_ids :
  let host := host_rejecting in
  let w1 := exec (part_001.callLearnAgent host "Which exit?" "Fire safety")
              same_millisecond (part_001_world []) in
  let w2 := exec (part_001.callLearnAgent host "How often?" "Fire safety")
              same_millisecond w1 in
  exists userId sessionId message1 message2,
    message1 <> message2 /\
    sent (io w2) =
      [ post host (four_fields userId LEARN_AGENT_ID sessionId message1);
        post host (four_fields userId LEARN_AGENT_ID sessionId message2) ].
Proof.
  cbv zeta.
  exists ("user" +:+ int_text 1700000000000 +:+ "@test.com"),
         ("learn-" +:+ LEARN_AGENT_ID +:+ "-" +:+ int_text 1700000000000),
         (part_000.question_prompt "Fire safety" "Which exit?"),
         (part_000.question_prompt "Fire safety" "How often?").
  split; [vm_compute; congruence | vm_compute; reflexivity].
Qed.

(** C5, amended.  Each call builds its user id from the timestamp it reads
    first: followed by a random suffix in [callAgent] ([App.tsx]) and in
    [callLearnAgent] (line 218), [generateAssessment] and
    [evaluateAssessment] of [part_000]; followed by the fixed [@test.com] in
    the shorter [callLearnAgent] and in [callEvalAgent].  In [part_000] and
    [part_001] the session id is built for the call from the agent id and a
    second reading of the timestamp, without a random suffix; in [App.tsx] it
    is the one the mount effect built from a timestamp and a random suffix.
    Ids built from different timestamps differ, and so do user ids with
    different random suffixes. *)
Theorem ids_built_per_call (host : Host) (o : Oracle) :
  (forall (w : World App_tsx.State) agentId message,
     sent (io (exec (App_tsx.callAgent host agentId message) o w)) =
     sent (io w) ++
       [post host (four_fields
          ("user-" +:+ int_text (clock o (ticks (io w))) +:+ "-" +:+ random36 o (draws (io w)))
          agentId (App_tsx.sessionId (ui w)) message)])
  /\ (forall (w : World App_tsx.State),
        App_tsx.sessionId (ui (exec App_tsx.useEffect_sessionId o w)) =
        "session-" +:+ int_text (clock o (ticks (io w))) +:+ "-" +:+ random36 o (draws (io w)))
  /\ (forall w userMessage moduleContent requestType,
        exists message,
          sent (io (exec (part_000.callLearnAgent host userMessage moduleContent
                            requestType) o w)) =
          sent (io w) ++
            [post host (four_fields
               ("user_" +:+ int_text (clock o (ticks (io w))) +:+ "_"
                        +:+ random36 o (draws (io w)))
               LEARN_AGENT_ID
               ("learn_" +:+ LEARN_AGENT_ID +:+ "_" +:+ int_text (clock o (S (ticks (io w)))))
               message)])
  /\ (forall w moduleContent,
        exists message,
          sent (io (exec (part_000.generateAssessment host moduleContent) o w)) =
          sent (io w) ++
            [post host (four_fields
               ("hr_" +:+ int_text (clock o (ticks (io w))) +:+ "_"
                      +:+ random36 o (draws (io w)))
               EVAL_AGENT_ID
               ("eval_" +:+ EVAL_AGENT_ID +:+ "_" +:+ int_text (clock o (S (ticks (io w)))))
               message)])
  /\ (forall w moduleContent userResponses history,
        exists message,
          sent (io (exec (part_000.evaluateAssessment host moduleContent userResponses
                            history) o w)) =
          sent (io w) ++
            [post host (four_fields
               ("student_" +:+ int_text (clock o (ticks (io w))) +:+ "_"
                           +:+ random36 o (draws (io w)))
               EVAL_AGENT_ID
               ("eval_" +:+ EVAL_AGENT_ID +:+ "_" +:+ int_text (clock o (S (ticks (io w)))))
               message)])
  /\ (forall w message moduleContent,
        let userId := "user" +:+ int_text (clock o (ticks (io w))) +:+ "@test.com" in
        let sessionId :=
          "learn-" +:+ LEARN_AGENT_ID +:+ "-" +:+ int_text (clock o (S (ticks (io w)))) in
        sent (io (exec (part_000.callLearnAgent_l570 host message moduleContent) o w)) =
        sent (io w) ++
          [post host (four_fields userId LEARN_AGENT_ID sessionId
                        (part_000.question_prompt moduleContent message))])
  /\ (forall w message moduleContent,
        let userId := "user" +:+ int_text (clock o (ticks (io w))) +:+ "@test.com" in
        let sessionId :=
          "learn-" +:+ LEARN_AGENT_ID +:+ "-" +:+ int_text (clock o (S (ticks (io w)))) in
        sent (io (exec (part_001.callLearnAgent host message moduleContent) o w)) =
        sent (io w) ++
          [post host (four_fields userId LEARN_AGENT_ID sessionId
                        (part_000.question_prompt moduleContent message))])
  /\ (forall w content,
        let userId := "user" +:+ int_text (clock o (ticks (io w))) +:+ "@test.com" in
        let sessionId :=
          "eval-" +:+ EVAL_AGENT_ID +:+ "-" +:+ int_text (clock o (S (ticks (io w)))) in
        sent (io (exec (part_000.callEvalAgent host content) o w)) =
        sent (io w) ++
          [post host (four_fields userId EVAL_AGENT_ID sessionId
                        (part_000.generation_prompt content))])
  /\ (forall w content,
        let userId := "user" +:+ int_text (clock o (ticks (io w))) +:+ "@test.com" in
        let sessionId :=
          "eval-" +:+ EVAL_AGENT_ID +:+ "-" +:+ int_text (clock o (S (ticks (io w)))) in
        sent (io (exec (part_001.callEvalAgent host content) o w)) =
        sent (io w) ++
          [post host (four_fields userId EVAL_AGENT_ID sessionId
                        (part_000.generation_prompt content))])
  /\ (forall (prefix : string) (separator : ascii) (t1 t2 : Z) (rest1 rest2 : string),
        is_digit separator = false ->
        t1 <> t2 \/ rest1 <> rest2 ->
        prefix +:+ int_text t1 +:+ String separator rest1 <>
        prefix +:+ int_text t2 +:+ String separator rest2)
  /\ (forall (prefix : string) (t1 t2 : Z),
        t1 <> t2 -> prefix +:+ int_text t1 <> prefix +:+ int_text t2).
Proof.
  repeat apply conj.
  - intros w a m. apply (callAgent_request host o w a m).
  - apply useEffect_sessionId_state.
  - intros. eexists. apply callLearnAgent_request.
  - intros. eexists. apply generateAssessment_request.
  - intros. eexists. apply evaluateAssessment_request.
  - intros. apply callLearnAgent_l570_request.
  - intros. apply part_001_callLearnAgent_request.
  - intros. apply callEvalAgent_request.
  - intros. apply part_001_callEvalAgent_request.
  - intros prefix sep t1 t2 r1 r2 Hs Hne E.
    apply (inj (String.app prefix)) in E.
    apply timestamp_then_separator in E as [Et Er]; [|exact Hs].
    destruct Hne; contradiction.
  - intros prefix t1 t2 Hne E. apply Hne. now apply prefixed_timestamp_inj in E.
Qed.

Lemma ids_built_per_call_witness :
  "learn_" +:+ LEARN_AGENT_ID +:+ "_" +:+ int_text 1700000000000 <>
  "learn_" +:+ LEARN_AGENT_ID +:+ "_" +:+ int_text 1700000000001.
Proof.
  rewrite <- !str_app_assoc.
  apply (proj2 (proj2 (proj2 (proj2 (proj2 (proj2 (proj2 (proj2 (proj2 (proj2
           (ids_built_per_call host_rejecting offline))))))))))
         (("learn_" +:+ LEARN_AGENT_ID) +:+ "_") 1700000000000 1700000000001).
  discriminate.
Defined.

(** ** C8: enrolling twice *)

Lemma guard_hits (cu : option User.t) (moduleId : string) (es : list Enrollment.t) :
  (exists e, In e es /\ part_000.same_user cu e = true /\ Enrollment.moduleId e = moduleId) ->
  existsb (fun e => String.eqb (Enrollment.moduleId e) moduleId)
          (List.filter (part_000.same_user cu) es) = true.
Proof.
  intros (e & Hin & Hu & Hm). apply existsb_exists. exists e. split.
  - apply filter_In. auto.
  - now apply String.eqb_eq.
Qed.

(** C8, as stated, fails: [enrollInModule] of [part_001] called for a module
    the user is enrolled in adds a second record. *)
Lemma unguarded_enrollment_duplicates :
  let existing := part_000.new_enrollment "e1" "u1" "m1" "1699999999000" None in
  let w := part_001_world [existing] in
  let w' := exec (part_001.enrollInModule host_rejecting "m1") offline w in
  part_001.currentUser (ui w) = Some alice /\
  Enrollment.userId existing = User.id alice /\ Enrollment.moduleId existing = "m1" /\
  part_001.enrollments (ui w') =
    [existing; part_000.new_enrollment "k3j2h1g0f" "u1" "m1" "1700000000000" None] /\
  part_001.enrollments (ui w') <> part_001.enrollments (ui w).
Proof. cbv zeta. repeat split; vm_compute; congruence. Qed.

(** C8, amended.  [enrollInModule] of [part_000] at line 171 leaves the
    world as it was when the signed-in user has an enrollment for the
    module.  The definitions without the check (line 551 of [part_000], and
    [part_001]) append a record on every call of a signed-in user; there the
    dashboard offers enrolling only for modules without an enrollment. *)
Theorem enrollInModule_guard (host : Host) (o : Oracle) :
  (forall w moduleId,
     (exists e, In e (part_000.enrollments (ui w)) /\
                part_000.same_user (part_000.currentUser (ui w)) e = true /\
                Enrollment.moduleId e = moduleId) ->
     exec (part_000.enrollInModule host moduleId) o w = w)
  /\ (forall w moduleId u,
        part_000.currentUser (ui w) = Some u ->
        part_000.enrollments (ui (exec (part_000.enrollInModule_l551 host moduleId) o w)) =
        part_000.enrollments (ui w) ++
          [part_000.new_enrollment (random36 o (draws (io w))) (User.id u) moduleId
             (Date_toISOString host (clock o (ticks (io w)))) None])
  /\ (forall w moduleId u,
        part_001.currentUser (ui w) = Some u ->
        part_001.enrollments (ui (exec (part_001.enrollInModule host moduleId) o w)) =
        part_001.enrollments (ui w) ++
          [part_000.new_enrollment (random36 o (draws (io w))) (User.id u) moduleId
             (Date_toISOString host (clock o (ticks (io w)))) None]).
Proof.
  repeat apply conj.
  - intros w moduleId H. unfold exec, part_000.enrollInModule, bind, get_state.
    rewrite (guard_hits _ _ _ H). reflexivity.
  - intros w moduleId u Hu. unfold part_000.enrollInModule_l551. run_call.
    rewrite Hu. reflexivity.
  - intros w moduleId u Hu. unfold part_001.enrollInModule. run_call.
    rewrite Hu. reflexivity.
Qed.

Lemma enrollInModule_guard_witness :
  exec (part_000.enrollInModule host_rejecting "m1") offline
    (part_000_world [part_000.new_enrollment "e1" "u1" "m1" "1699999999000" (Some [])])
  = part_000_world [part_000.new_enrollment "e1" "u1" "m1" "1699999999000" (Some [])].
Proof.
  apply (proj1 (enrollInModule_guard host_rejecting offline)).
  exists (part_000.new_enrollment "e1" "u1" "m1" "1699999999000" (Some [])).
  split; [left; reflexivity | split; reflexivity].
Defined.

(** ** C9: analytics *)


Lemma completionRate_value (s : part_000.State) :
  part_000.completionRate (part_000.calculateAnalytics s) =
  Math_round
    (if (0 <? length (part_000.enrollments s))%nat
     then percentage (length (List.filter Enrollment.completed (part_000.enrollments s)))
                     (length (part_000.enrollments s))
     else Fin 0).
Proof. reflexivity. Qed.



(** ** C10: the quiz after a generation call *)

(** Every other path leaves, and returns, a quiz with a question. *)
Lemma generateAssessment_quiz_nonempty host o w moduleContent :
  (forall parsed, json_reply host o (length (sent (io w))) = Some parsed ->
                  parsed?."assessment"?."questions" <> JArr []) ->
  exists q rest,
    part_000.currentQuiz (ui (exec (part_000.generateAssessment host moduleContent) o w))
      = Some (q :: rest)
    /\ completion (part_000.generateAssessment host moduleContent) o w = Normal (q :: rest).
Proof.
  intros Hne.
  destruct (generateAssessment_quiz host o w moduleContent) as (quiz & Hq & Hr & _ & H).
  assert (Hquiz : quiz <> []).
  { destruct (json_reply host o (length (sent (io w)))) as [parsed|].
    - specialize (Hne parsed eq_refl). cbn zeta in H.
      destruct (truthy parsed?."assessment"?."questions"); [|subst; discriminate].
      destruct (parsed?."assessment"?."questions") as [| | | | |items|]; cbn in H;
        try (subst; discriminate).
      destruct H as [L| ->]; [|discriminate].
      destruct items; [congruence|]. destruct quiz; discriminate.
    - subst. discriminate. }
  destruct quiz as [|q rest]; [congruence|]. eauto.
Qed.

(** C10 fails on the code for a reply whose [assessment.questions] is the
    empty list: the list is truthy, nothing is mapped, and the quiz is set
    to, and returned as, the empty list. *)
Theorem generateAssessment_empty_questions (host : Host) (o : Oracle)
    (w : World part_000.State) (moduleContent : string) (parsed : JValue) :
  json_reply host o (length (sent (io w))) = Some parsed ->
  parsed?."assessment"?."questions" = JArr [] ->
  part_000.currentQuiz (ui (exec (part_000.generateAssessment host moduleContent) o w))
    = Some []
  /\ completion (part_000.generateAssessment host moduleContent) o w = Normal [].
Proof.
  intros R Q. unfold json_reply in R. run_call.
  destruct (network o (length (sent (io w)))) as [|text]; [discriminate|].
  destruct (JSON_parse host text) as [data|]; [|discriminate].
  cbn in R |- *. injection R as <-. rewrite Q. cbn. auto.
Qed.

Lemma generateAssessment_empty_questions_witness :
  part_000.currentQuiz
    (ui (exec (part_000.generateAssessment
                 (host_parsing (JObj [("assessment", JObj [("questions", JArr [])])]))
                 "Fire safety")
           (answering "{}") (part_000_world [])))
    = Some []
  /\ completion (part_000.generateAssessment
                   (host_parsing (JObj [("assessment", JObj [("questions", JArr [])])]))
                   "Fire safety")
       (answering "{}") (part_000_world []) = Normal [].
Proof.
  apply (generateAssessment_empty_questions
           (host_parsing (JObj [("assessment", JObj [("questions", JArr [])])]))
           (answering "{}") (part_000_world []) "Fire safety"
           (JObj [("assessment", JObj [("questions", JArr [])])])).
  - vm_compute. reflexivity.
  - vm_compute. reflexivity.
Defined.

(** ** C2: the local-storage mirror *)

Lemma join_snoc (sep : string) (parts : list string) (x : string) :
  join sep (parts ++ [x]) =
  match parts with
  | [] => x
  | _ :: _ => join sep parts +:+ sep +:+ x
  end.
Proof.
  destruct parts as [|p rest]; [reflexivity|].
  cbn [join app]. now rewrite fold_left_app.
Qed.

Lemma stringify_array_snoc host (items : list JValue) (x : JValue) :
  JSON_stringify host x <> "" ->
  String.length (JSON_stringify host (JArr (items ++ [x]))) <>
  String.length (JSON_stringify host (JArr items)).
Proof.
  intros Hx. cbn [JSON_stringify]. rewrite map_app. cbn [map].
  rewrite join_snoc. rewrite !str_length_app.
  destruct (map (JSON_stringify host) items) as [|p rest] eqn:E.
  - cbn. destruct (JSON_stringify host x); [congruence | cbn; lia].
  - rewrite !str_length_app. cbn. lia.
Qed.

Lemma Enrollment_text_nonempty host e : JSON_stringify host (Enrollment_json e) <> "".
Proof.
  unfold Enrollment_json. cbn [JSON_stringify]. intros E.
  apply (f_equal String.length) in E. rewrite str_length_app in E. cbn in E. lia.
Qed.

Lemma enrollments_text_snoc host es e :
  JSON_stringify host (enrollments_json (es ++ [e])) <>
  JSON_stringify host (enrollments_json es).
Proof.
  unfold enrollments_json. rewrite map_app. cbn [map]. intros E.
  apply (f_equal String.length) in E. revert E.
  apply stringify_array_snoc, Enrollment_text_nonempty.
Qed.

(** C2 fails on the code for [enrollInModule] as repeated at line 551 of
    [part_000]: it replaces the in-memory array and writes nothing, so a
    mirror that held before the call is stale after it. *)
Theorem enrollInModule_l551_leaves_storage_stale (host : Host) (o : Oracle)
    (w : World part_000.State) (moduleId : string) (u : User.t) :
  part_000.currentUser (ui w) = Some u ->
  mirrors_enrollments host "hr_enrollments_v2" w ->
  let w' := exec (part_000.enrollInModule_l551 host moduleId) o w in
  localStorage (io w') = localStorage (io w)
  /\ part_000.enrollments (ui w') <> part_000.enrollments (ui w)
  /\ ~ mirrors_enrollments host "hr_enrollments_v2" w'.
Proof.
  intros Hu Hm w'.
  assert (E : part_000.enrollments (ui w') =
              part_000.enrollments (ui w) ++
                [part_000.new_enrollment (random36 o (draws (io w))) (User.id u) moduleId
                   (Date_toISOString host (clock o (ticks (io w)))) None]).
  { subst w'. unfold part_000.enrollInModule_l551. run_call. rewrite Hu. reflexivity. }
  assert (L : localStorage (io w') = localStorage (io w)).
  { subst w'. unfold part_000.enrollInModule_l551. run_call. rewrite Hu. reflexivity. }
  repeat split.
  - exact L.
  - rewrite E. intros H. apply (f_equal (@length _)) in H.
    rewrite length_app in H. cbn in H. lia.
  - unfold mirrors_enrollments in *. rewrite L, Hm, E. intros H.
    apply (inj Some) in H. symmetry in H. revert H. apply enrollments_text_snoc.
Qed.

Lemma enrollInModule_l551_leaves_storage_stale_witness :
  let w := {| io := {| ticks := 0; draws := 0; sent := [];
                       localStorage := {[ "hr_enrollments_v2" := "[]" ]};
                       render_errors := 0 |};
              ui := ui (part_000_world []) |} in
  ~ mirrors_enrollments host_rejecting "hr_enrollments_v2"
      (exec (part_000.enrollInModule_l551 host_rejecting "m1") offline w).
Proof.
  intros w.
  apply (enrollInModule_l551_leaves_storage_stale host_rejecting offline w "m1" alice).
  - reflexivity.
  - unfold mirrors_enrollments. vm_compute. reflexivity.
Defined.

(** The same holds for [updateProgress] as repeated at line 564: it writes
    nothing. *)
Lemma updateProgress_l564_writes_nothing o w enrollmentId progress :
  localStorage (io (exec (part_000.updateProgress_l564 enrollmentId progress) o w))
  = localStorage (io w).
Proof. unfold part_000.updateProgress_l564. run_call. reflexivity. Qed.

(** The definitions at lines 148-215 of [part_000] write what they store. *)
Lemma createModule_mirrors host o w :
  completion (part_000.createModule host) o w = Normal tt ->
  mirrors_modules host "hr_modules_v2" (exec (part_000.createModule host) o w).
Proof.
  unfold mirrors_modules, part_000.createModule. run_call.
  destruct (part_000.currentUser (ui w)); cbn; [|discriminate].
  intros _. apply lookup_insert_eq.
Qed.

Lemma enrollInModule_mirrors host o w moduleId :
  mirrors_enrollments host "hr_enrollments_v2" w ->
  completion (part_000.enrollInModule host moduleId) o w = Normal tt ->
  mirrors_enrollments host "hr_enrollments_v2"
    (exec (part_000.enrollInModule host moduleId) o w).
Proof.
  unfold mirrors_enrollments, part_000.enrollInModule. intros Hm. run_call.
  destruct (existsb _ _); cbn; [intros _; exact Hm|].
  destruct (part_000.currentUser (ui w)); cbn; [|discriminate].
  intros _. apply lookup_insert_eq.
Qed.

Lemma progress_map_completes host (f : Enrollment.t -> string -> Enrollment.t)
    (enrollmentId : string) (es : list Enrollment.t) : forall index o (w : World part_000.State),
  exists updated w1,
    mapM_index (fun e _ =>
      if String.eqb (Enrollment.id e) enrollmentId
      then bind (new_Date_toISOString host) (fun now => ret (f e now))
      else ret e) index es o w = (Normal updated, w1)
    /\ ui w1 = ui w /\ localStorage (io w1) = localStorage (io w).
Proof.
  set (step := fun (e : Enrollment.t) (_ : nat) =>
                 if String.eqb (Enrollment.id e) enrollmentId
                 then bind (new_Date_toISOString host) (fun now => ret (f e now))
                 else ret e).
  assert (Hstep : forall e i o (w : World part_000.State),
            exists y w0, step e i o w = (Normal y, w0)
                         /\ ui w0 = ui w /\ localStorage (io w0) = localStorage (io w)).
  { intros e i o w. unfold step.
    destruct (String.eqb (Enrollment.id e) enrollmentId);
      do 2 eexists; repeat split. }
  induction es as [|e es IH]; intros index o w.
  - exists [], w. repeat split.
  - cbn [mapM_index]. unfold bind at 1.
    destruct (Hstep e index o w) as (y & w0 & Ey & U0 & L0). rewrite Ey.
    unfold bind at 1.
    destruct (IH (S index) o w0) as (updated & w1 & E & U & L). rewrite E.
    exists (y :: updated), w1. repeat split; congruence.
Qed.

Lemma updateProgress_mirrors host o w enrollmentId progress :
  mirrors_enrollments host "hr_enrollments_v2"
    (exec (part_000.updateProgress host enrollmentId progress) o w).
Proof.
  destruct (progress_map_completes host
              (fun e now => part_000.spread_progress e progress (Some now))
              enrollmentId (part_000.enrollments (ui w)) 0%nat o w)
    as (updated & w1 & E & U & L).
  assert (H : exec (part_000.updateProgress host enrollmentId progress) o w =
              exec (bind (part_000.setEnrollments updated) (fun _ =>
                      localStorage_setItem "hr_enrollments_v2"
                        (JSON_stringify host (enrollments_json updated)))) o w1).
  { unfold exec, part_000.updateProgress.
    unfold bind at 1. unfold get_state at 1. unfold bind at 1. rewrite E. reflexivity. }
  unfold mirrors_enrollments. rewrite H. run_call. apply lookup_insert_eq.
Qed.

Lemma completeEnrollment_mirrors host o w enrollmentId score answers :
  mirrors_enrollments host "hr_enrollments_v2"
    (exec (part_000.completeEnrollment host enrollmentId score answers) o w).
Proof.
  destruct (progress_map_completes host
              (fun e now => part_000.spread_completed e now score answers)
              enrollmentId (part_000.enrollments (ui w)) 0%nat o w)
    as (updated & w1 & E & U & L).
  assert (H : exec (part_000.completeEnrollment host enrollmentId score answers) o w =
              exec (bind (part_000.setEnrollments updated) (fun _ =>
                      localStorage_setItem "hr_enrollments_v2"
                        (JSON_stringify host (enrollments_json updated)))) o w1).
  { unfold exec, part_000.completeEnrollment.
    unfold bind at 1. unfold get_state at 1. unfold bind at 1. rewrite E. reflexivity. }
  unfold mirrors_enrollments. rewrite H. run_call. apply lookup_insert_eq.
Qed.

(** In [part_001] the two effects write after every render. *)
Lemma commit_mirrors host o (w : World part_001.State) :
  (part_001.modules_changed (ui w) = true \/
   localStorage (io w) !! "hr_modules" =
     Some (JSON_stringify host (modules_json (part_001.modules (ui w))))) ->
  (part_001.enrollments_changed (ui w) = true \/
   localStorage (io w) !! "hr_enrollments" =
     Some (JSON_stringify host (enrollments_json (part_001.enrollments (ui w))))) ->
  part_001_mirrored host (exec (part_001.commit host) o w).
Proof.
  intros Hm He.
  unfold part_001_mirrored, part_001.commit, part_001.useEffect_modules,
    part_001.useEffect_enrollments. run_call.
  destruct (part_001.modules_changed (ui w)) eqn:Dm,
           (part_001.enrollments_changed (ui w)) eqn:De; cbn.
  - split; [rewrite lookup_insert_ne by discriminate|]; apply lookup_insert_eq.
  - destruct He as [?|He]; [discriminate|]. split; [apply lookup_insert_eq|].
    rewrite lookup_insert_ne by discriminate. exact He.
  - destruct Hm as [?|Hm]; [discriminate|]. split; [|apply lookup_insert_eq].
    rewrite lookup_insert_ne by discriminate. exact Hm.
  - destruct Hm as [?|Hm]; [discriminate|]. destruct He as [?|He]; [discriminate|].
    split; assumption.
Qed.

Lemma dispatch_enrollInModule_mirrors host o w moduleId u :
  part_001_mirrored host w ->
  part_001.currentUser (ui w) = Some u ->
  part_001_mirrored host
    (exec (part_001.dispatch host (part_001.enrollInModule host moduleId)) o w).
Proof.
  intros [Hm He] Hu. unfold exec, part_001.dispatch.
  apply (commit_mirrors host o);
    unfold part_001.enrollInModule; run_call; rewrite Hu; cbn; auto.
Qed.

Lemma dispatch_updateProgress_mirrors host o w enrollmentId progress :
  part_001_mirrored host w ->
  part_001_mirrored host
    (exec (part_001.dispatch host (part_001.updateProgress enrollmentId progress)) o w).
Proof.
  intros [Hm He]. unfold exec, part_001.dispatch.
  apply (commit_mirrors host o); unfold part_001.updateProgress; run_call; auto.
Qed.

Lemma dispatch_createModule_mirrors host o w u :
  part_001_mirrored host w ->
  part_001.currentUser (ui w) = Some u ->
  part_001_mirrored host (exec (part_001.dispatch host (part_001.createModule host)) o w).
Proof.
  intros [Hm He] Hu. unfold exec, part_001.dispatch.
  apply (commit_mirrors host o);
    unfold part_001.createModule; run_call; rewrite Hu; cbn; auto.
Qed.

(** ** C4: the JSON-extraction helper *)

Lemma fmap_cons_app (c : ascii) (a : string) (x : option string) :
  String c <$> (String.app a <$> x) = String.app (String c a) <$> x.
Proof. destruct x; cbn; [rewrite str_app_cons|]; reflexivity. Qed.

(** Matched text is read through at the depth it was entered. *)
Lemma close_block_balanced inner :
  balanced inner ->
  forall depth rest,
    jsonParser.close_block depth (inner +:+ rest)
    = String.app inner <$> jsonParser.close_block depth rest.
Proof.
  induction 1 as [|c s Ho Hc Hs IH|inner s Hi IHi Hs IHs]; intros depth rest.
  - rewrite str_app_nil_l. destruct (jsonParser.close_block depth rest); reflexivity.
  - rewrite str_app_cons. cbn [jsonParser.close_block].
    rewrite (proj2 (Ascii.eqb_neq c jsonParser.close_brace) Hc).
    rewrite (proj2 (Ascii.eqb_neq c jsonParser.open_brace) Ho).
    rewrite IH. apply fmap_cons_app.
  - rewrite str_app_cons. cbn [jsonParser.close_block].
    change (Ascii.eqb jsonParser.open_brace jsonParser.close_brace) with false.
    change (Ascii.eqb jsonParser.open_brace jsonParser.open_brace) with true.
    cbv iota. rewrite str_app_assoc, IHi, str_app_cons.
    cbn [jsonParser.close_block].
    change (Ascii.eqb jsonParser.close_brace jsonParser.close_brace) with true.
    cbv iota. rewrite IHs.
    destruct (jsonParser.close_block depth rest) as [x|]; cbn; [|reflexivity].
    rewrite !str_app_cons, str_app_assoc, str_app_cons. reflexivity.
Qed.

Lemma first_brace_block_skips before : forall rest,
  free_of jsonParser.open_brace before = true ->
  jsonParser.first_brace_block (before +:+ rest) = jsonParser.first_brace_block rest.
Proof.
  induction before as [|c before IH]; intros rest H.
  - rewrite str_app_nil_l. reflexivity.
  - rewrite str_app_cons. cbn in H |- *. apply andb_true_iff in H as [Hc H].
    apply negb_true_iff in Hc. rewrite Hc. now apply IH.
Qed.

(** The block found is the first one, whatever follows it. *)
Lemma first_brace_block_found before inner after :
  free_of jsonParser.open_brace before = true -> balanced inner ->
  jsonParser.first_brace_block (before +:+ brace_block inner +:+ after)
  = Some (brace_block inner).
Proof.
  intros Hb Hi. rewrite (first_brace_block_skips before _ Hb).
  unfold brace_block. rewrite str_app_cons. cbn [jsonParser.first_brace_block].
  change (Ascii.eqb jsonParser.open_brace jsonParser.open_brace) with true. cbv iota.
  rewrite str_app_assoc, (close_block_balanced inner Hi), str_app_cons.
  cbn [jsonParser.close_block].
  change (Ascii.eqb jsonParser.close_brace jsonParser.close_brace) with true.
  reflexivity.
Qed.

Lemma first_brace_block_none text :
  free_of jsonParser.open_brace text = true -> jsonParser.first_brace_block text = None.
Proof.
  induction text as [|c text IH]; intros H; [reflexivity|].
  cbn in H |- *. apply andb_true_iff in H as [Hc H]. apply negb_true_iff in Hc.
  rewrite Hc. now apply IH.
Qed.



(** * Further properties *)

(** ** Analytics: ranking, rates and averages *)

Lemma insert_desc_perm x l : Permutation (part_000.insert_desc x l) (x :: l).
Proof.
  induction l as [|y l IH]; cbn [part_000.insert_desc]; [reflexivity|].
  destruct (part_000.pm_enrollments x <? part_000.pm_enrollments y)%nat; [|reflexivity].
  rewrite IH. apply perm_swap.
Qed.

Lemma sort_desc_perm l : Permutation (part_000.sort_desc l) l.
Proof.
  induction l as [|x l IH]; cbn [part_000.sort_desc foldr]; [reflexivity|].
  fold (part_000.sort_desc l). rewrite insert_desc_perm. now rewrite IH.
Qed.

Lemma insert_desc_sorted x l :
  StronglySorted ranks_before l -> StronglySorted ranks_before (part_000.insert_desc x l).
Proof.
  induction l as [|y l IH]; intros Hs; cbn [part_000.insert_desc].
  - repeat constructor.
  - apply StronglySorted_inv in Hs as [Hl Hy].
    destruct (part_000.pm_enrollments x <? part_000.pm_enrollments y)%nat eqn:E.
    + apply Nat.ltb_lt in E. constructor; [now apply IH|].
      rewrite (insert_desc_perm x l). constructor; [unfold ranks_before; lia | exact Hy].
    + apply Nat.ltb_ge in E. constructor; [constructor; assumption|].
      constructor; [exact E|].
      eapply Forall_impl; [exact Hy|]. unfold ranks_before. intros z Hz. lia.
Qed.

Lemma sort_desc_sorted l : StronglySorted ranks_before (part_000.sort_desc l).
Proof.
  induction l as [|x l IH]; cbn [part_000.sort_desc foldr]; [constructor|].
  now apply insert_desc_sorted.
Qed.

(** X1.  The popular modules are the modules with the most enrollments: at most
    five, larger counts first, and every module left out has no more
    enrollments than any module listed. *)
Theorem popularModules_top_five (s : part_000.State) :
  let popular := part_000.popularModules (part_000.calculateAnalytics s) in
  length popular = Nat.min 5 (length (part_000.modules s))
  /\ StronglySorted ranks_before popular
  /\ exists others,
       Permutation (popular ++ others)
         (map (popularity (part_000.enrollments s)) (part_000.modules s))
       /\ forall a b, In a popular -> In b others -> ranks_before a b.
Proof.
  intros popular. subst popular. unfold part_000.calculateAnalytics.
  cbn [part_000.popularModules].
  fold (popularity (part_000.enrollments s)).
  set (entries := map (popularity (part_000.enrollments s)) (part_000.modules s)).
  pose proof (sort_desc_sorted entries) as Hs.
  pose proof (sort_desc_perm entries) as Hp.
  rewrite <- (firstn_skipn 5 (part_000.sort_desc entries)) in Hs, Hp.
  repeat split.
  - rewrite length_firstn, (Permutation_length (sort_desc_perm entries)).
    unfold entries. now rewrite length_map.
  - eapply StronglySorted_app_1_l. exact Hs.
  - exists (skipn 5 (part_000.sort_desc entries)). split; [exact Hp|].
    intros a b Ha Hb. eapply StronglySorted_app_1_elem_of; [exact Hs| |];
      now apply list_elem_of_In.
Qed.

Lemma with_count_insert k x l :
  with_count k (part_000.insert_desc x l) =
  if Nat.eqb (part_000.pm_enrollments x) k then x :: with_count k l else with_count k l.
Proof.
  unfold with_count. induction l as [|y l IH]; cbn [part_000.insert_desc List.filter].
  - reflexivity.
  - destruct (part_000.pm_enrollments x <? part_000.pm_enrollments y)%nat eqn:E.
    + cbn [List.filter]. rewrite IH. apply Nat.ltb_lt in E.
      destruct (Nat.eqb (part_000.pm_enrollments x) k) eqn:Ex; [|reflexivity].
      apply Nat.eqb_eq in Ex.
      destruct (Nat.eqb (part_000.pm_enrollments y) k) eqn:Ey; [|reflexivity].
      apply Nat.eqb_eq in Ey. lia.
    + reflexivity.
Qed.

(** X2.  Modules with the same number of enrollments keep the order they have
    in the module list: the sort is stable. *)
Theorem sort_desc_keeps_ties_in_order (l : list part_000.PopularModule) (k : nat) :
  with_count k (part_000.sort_desc l) = with_count k l.
Proof.
  induction l as [|x l IH]; [reflexivity|].
  cbn [part_000.sort_desc foldr]. fold (part_000.sort_desc l).
  rewrite with_count_insert, IH. unfold with_count. cbn [List.filter].
  destruct (Nat.eqb (part_000.pm_enrollments x) k); reflexivity.
Qed.

Lemma filter_all {A} (f : A -> bool) (l : list A) :
  (forall x, In x l -> f x = true) -> List.filter f l = l.
Proof.
  induction l as [|x l IH]; intros H; cbn; [reflexivity|].
  rewrite (H x (or_introl eq_refl)). f_equal. apply IH. intros y Hy. apply H. now right.
Qed.

(** X3.  The completion rate is a whole percentage between 0 and 100: 100 when
    every enrollment of a non-empty list is completed, 0 when none is. *)
Theorem completionRate_percentage (s : part_000.State) :
  let rate := part_000.completionRate (part_000.calculateAnalytics s) in
  whole_between 0 100 rate
  /\ (part_000.enrollments s <> [] ->
      (forall e, In e (part_000.enrollments s) -> Enrollment.completed e = true) ->
      rate = Fin (inject_Z 100))
  /\ ((forall e, In e (part_000.enrollments s) -> Enrollment.completed e = false) ->
      rate = Fin (inject_Z 0)).
Proof.
  intros rate. subst rate. rewrite completionRate_value.
  set (es := part_000.enrollments s).
  set (done := List.filter Enrollment.completed es).
  destruct (0 <? length es)%nat eqn:Hlt.
  2:{ apply Nat.ltb_ge in Hlt.
      split; [exists 0; split; [reflexivity | lia]|]. split; [|reflexivity].
      intros Hne. destruct es; [congruence | cbn in Hlt; lia]. }
  assert (Hn : (0 < length es)%nat) by now apply Nat.ltb_lt.
  pose proof (filter_length_le Enrollment.completed es) as Hc. fold done in Hc.
  split; [|split].
  - destruct (share_between (length done) (length es) 0 1 Hn) as (r & -> & L & U);
      try lia.
    cbn [Math_round]. eexists. split; [reflexivity|].
    apply (round_between r (100 * 0) (100 * 1)); assumption.
  - intros _ Hall.
    assert (D : done = es) by (unfold done; apply filter_all, Hall).
    destruct (share_between (length done) (length es) 1 1 Hn) as (r & -> & L & U);
      try lia; try (rewrite D; lia).
    cbn [Math_round]. pose proof (round_between r (100 * 1) (100 * 1) L U).
    do 2 f_equal. lia.
  - intros Hnone.
    assert (D : done = []).
    { unfold done. clear - Hnone. induction es as [|x l IH]; [reflexivity|].
      cbn. rewrite (Hnone x (or_introl eq_refl)). apply IH.
      intros y Hy. apply Hnone. now right. }
    destruct (share_between (length done) (length es) 0 0 Hn) as (r & -> & L & U);
      try lia; try (rewrite D; cbn; lia).
    cbn [Math_round]. pose proof (round_between r (100 * 0) (100 * 0) L U).
    do 2 f_equal. lia.
Qed.

Lemma completionRate_percentage_witness :
  part_000.completionRate
    (part_000.calculateAnalytics
       (ui (part_000_world
              [part_000.spread_completed
                 (part_000.new_enrollment "e1" "u1" "m1" "1699999999000" None)
                 "1700000000000" (Fin (inject_Z 80)) []])))
  = Fin (inject_Z 100).
Proof.
  apply (proj1 (proj2 (completionRate_percentage
           (ui (part_000_world
                  [part_000.spread_completed
                     (part_000.new_enrollment "e1" "u1" "m1" "1699999999000" None)
                     "1700000000000" (Fin (inject_Z 80)) []]))))).
  - discriminate.
  - intros e [<-|[]]. reflexivity.
Defined.

(** X4.  When every completed enrollment has a score between 0 and a bound (an
    absent score counting as 0), and the bound times the number of completed
    enrollments has at most 53 bits, the average score is a whole number
    between 0 and that bound. *)
Theorem averageScore_within (s : part_000.State) (bound : Z) :
  0 <= bound ->
  bound * Z.of_nat (length (List.filter Enrollment.completed (part_000.enrollments s)))
    <= 2 ^ 53 ->
  (forall e, In e (part_000.enrollments s) -> Enrollment.completed e = true ->
             score_within bound e) ->
  whole_between 0 bound (part_000.averageScore (part_000.calculateAnalytics s)).
Proof.
  intros Hb Hn Hs. unfold part_000.calculateAnalytics. cbn [part_000.averageScore].
  apply average_between; [exact Hb | exact Hn |].
  intros e Hin. apply filter_In in Hin as [Hin Hc]. now apply Hs.
Qed.

Lemma averageScore_within_witness :
  whole_between 0 100
    (part_000.averageScore
       (part_000.calculateAnalytics
          (ui (part_000_world
                 [part_000.spread_completed
                    (part_000.new_enrollment "e1" "u1" "m1" "1699999999000" None)
                    "1700000000000" (Fin (inject_Z 80)) []])))).
Proof.
  apply (averageScore_within
           (ui (part_000_world
                  [part_000.spread_completed
                     (part_000.new_enrollment "e1" "u1" "m1" "1699999999000" None)
                     "1700000000000" (Fin (inject_Z 80)) []])) 100).
  - lia.
  - vm_compute. discriminate.
  - intros e [<-|[]] _. unfold score_within. cbn. split; discriminate.
Defined.

(** ** The enrollment store *)

Lemma progress_map_result host (f : Enrollment.t -> string -> Enrollment.t)
    (enrollmentId : string) (es : list Enrollment.t) : forall index o (w : World part_000.State),
  exists updated w1,
    mapM_index (fun e _ =>
      if String.eqb (Enrollment.id e) enrollmentId
      then bind (new_Date_toISOString host) (fun now => ret (f e now))
      else ret e) index es o w = (Normal updated, w1)
    /\ Forall2 (fun e e' => if String.eqb (Enrollment.id e) enrollmentId
                            then exists now, e' = f e now else e' = e) es updated.
Proof.
  set (step := fun (e : Enrollment.t) (_ : nat) =>
                 if String.eqb (Enrollment.id e) enrollmentId
                 then bind (new_Date_toISOString host) (fun now => ret (f e now))
                 else ret e).
  assert (Hstep : forall e i o (w : World part_000.State),
            exists y w0, step e i o w = (Normal y, w0)
                         /\ if String.eqb (Enrollment.id e) enrollmentId
                            then exists now, y = f e now else y = e).
  { intros e i o w. unfold step.
    destruct (String.eqb (Enrollment.id e) enrollmentId);
      do 2 eexists; split; try reflexivity. eexists. reflexivity. }
  induction es as [|e es IH]; intros index o w.
  - exists [], w. split; [reflexivity | constructor].
  - cbn [mapM_index]. unfold bind at 1.
    destruct (Hstep e index o w) as (y & w0 & Ey & Hy). rewrite Ey.
    unfold bind at 1.
    destruct (IH (S index) o w0) as (updated & w1 & E & F). rewrite E.
    exists (y :: updated), w1. split; [reflexivity | now constructor].
Qed.

Lemma updateProgress_enrollments host o w enrollmentId progress :
  exists updated,
    part_000.enrollments (ui (exec (part_000.updateProgress host enrollmentId progress) o w))
      = updated
    /\ Forall2 (fun e e' => if String.eqb (Enrollment.id e) enrollmentId
                            then exists now, e' = part_000.spread_progress e progress (Some now)
                            else e' = e) (part_000.enrollments (ui w)) updated.
Proof.
  destruct (progress_map_result host
              (fun e now => part_000.spread_progress e progress (Some now))
              enrollmentId (part_000.enrollments (ui w)) 0%nat o w)
    as (updated & w1 & E & F).
  exists updated. split; [|exact F].
  unfold exec, part_000.updateProgress.
  unfold bind at 1. unfold get_state at 1. unfold bind at 1. rewrite E. reflexivity.
Qed.

Lemma completeEnrollment_enrollments host o w enrollmentId score answers :
  exists updated,
    part_000.enrollments
      (ui (exec (part_000.completeEnrollment host enrollmentId score answers) o w))
      = updated
    /\ Forall2 (fun e e' => if String.eqb (Enrollment.id e) enrollmentId
                            then exists now,
                                   e' = part_000.spread_completed e now score answers
                            else e' = e) (part_000.enrollments (ui w)) updated.
Proof.
  destruct (progress_map_result host
              (fun e now => part_000.spread_completed e now score answers)
              enrollmentId (part_000.enrollments (ui w)) 0%nat o w)
    as (updated & w1 & E & F).
  exists updated. split; [|exact F].
  unfold exec, part_000.completeEnrollment.
  unfold bind at 1. unfold get_state at 1. unfold bind at 1. rewrite E. reflexivity.
Qed.

Lemma map_progress_set target progress (es : list Enrollment.t) :
  Forall2 (progress_set target progress) es
    (map (fun e => if String.eqb (Enrollment.id e) target
                   then part_000.spread_progress e progress None else e) es).
Proof.
  induction es as [|e es IH]; cbn [map]; constructor; [|exact IH].
  unfold progress_set. destruct (String.eqb (Enrollment.id e) target); [|reflexivity].
  repeat split.
Qed.

(** X6.  Updating the progress keeps every enrollment in its place: the entries
    with the given id get the new progress and keep their id, user, module,
    completion, score and answers; every other entry is left as it is (so an
    id that matches nothing changes no entry).  This holds for the three
    definitions of [updateProgress]. *)
Theorem updateProgress_changes_only_progress (host : Host) (o : Oracle)
    (target : string) (progress : JSNum) :
  (forall w,
     Forall2 (progress_set target progress)
       (part_000.enrollments (ui w))
       (part_000.enrollments (ui (exec (part_000.updateProgress host target progress) o w))))
  /\ (forall w,
        Forall2 (progress_set target progress)
          (part_000.enrollments (ui w))
          (part_000.enrollments (ui (exec (part_000.updateProgress_l564 target progress) o w))))
  /\ (forall w,
        Forall2 (progress_set target progress)
          (part_001.enrollments (ui w))
          (part_001.enrollments (ui (exec (part_001.updateProgress target progress) o w)))).
Proof.
  repeat apply conj.
  - intros w. destruct (updateProgress_enrollments host o w target progress)
      as (updated & -> & F).
    eapply Forall2_impl; [exact F|]. intros e e' H. unfold progress_set.
    cbn beta in H. destruct (String.eqb (Enrollment.id e) target); [|exact H].
    destruct H as (now & ->). repeat split.
  - intros w. unfold part_000.updateProgress_l564. run_call. apply map_progress_set.
  - intros w. unfold part_001.updateProgress. run_call. apply map_progress_set.
Qed.

Lemma completed_count_grows (es es' : list Enrollment.t) :
  Forall2 (fun e e' => Enrollment.completed e = true -> Enrollment.completed e' = true)
    es es' ->
  (length (List.filter Enrollment.completed es)
   <= length (List.filter Enrollment.completed es'))%nat.
Proof.
  induction 1 as [|e e' es es' H F IH]; cbn; [lia|].
  destruct (Enrollment.completed e); [rewrite (H eq_refl); cbn; lia|].
  destruct (Enrollment.completed e'); cbn; lia.
Qed.

(** X7.  Completing an enrollment keeps every enrollment in its place: the
    entries with the given id become completed at progress 100 with the given
    score and answers, every other entry is left as it is, and the number of
    completed enrollments does not go down. *)
Theorem completeEnrollment_marks_completed (host : Host) (o : Oracle)
    (w : World part_000.State) (target : string) (score : JSNum) (answers : list JValue) :
  let after :=
    part_000.enrollments
      (ui (exec (part_000.completeEnrollment host target score answers) o w)) in
  Forall2 (completed_with target score answers) (part_000.enrollments (ui w)) after
  /\ (length (List.filter Enrollment.completed (part_000.enrollments (ui w)))
      <= length (List.filter Enrollment.completed after))%nat.
Proof.
  intros after. subst after.
  destruct (completeEnrollment_enrollments host o w target score answers)
    as (updated & -> & F).
  split.
  - eapply Forall2_impl; [exact F|]. intros e e' H. unfold completed_with.
    cbn beta in H. destruct (String.eqb (Enrollment.id e) target); [|exact H].
    destruct H as (now & ->). repeat split.
  - apply completed_count_grows.
    eapply Forall2_impl; [exact F|]. intros e e' H Hc. cbn beta in H.
    destruct (String.eqb (Enrollment.id e) target).
    + destruct H as (now & ->). reflexivity.
    + subst e'. exact Hc.
Qed.

Lemma enrollInModule_unfold host moduleId o (w : World part_000.State) :
  part_000.enrollInModule host moduleId o w =
  (if existsb (fun e => String.eqb (Enrollment.moduleId e) moduleId)
        (List.filter (part_000.same_user (part_000.currentUser (ui w)))
           (part_000.enrollments (ui w)))
   then ret tt
   else
     let! id := generateRandomId in
     let! uid := part_000.currentUser_id in
     let! startedAt := new_Date_toISOString host in
     do! part_000.setEnrollments
           (part_000.enrollments (ui w) ++
              [part_000.new_enrollment id uid moduleId startedAt (Some [])]) in
     localStorage_setItem "hr_enrollments_v2"
       (JSON_stringify host
          (enrollments_json
             (part_000.enrollments (ui w) ++
                [part_000.new_enrollment id uid moduleId startedAt (Some [])])))) o w.
Proof. reflexivity. Qed.

(** What a call of the guarded [enrollInModule] does, by the cases of the
    source. *)
Lemma enrollInModule_cases host o w moduleId :
  let w' := exec (part_000.enrollInModule host moduleId) o w in
  let mine := List.filter (part_000.same_user (part_000.currentUser (ui w)))
                (part_000.enrollments (ui w)) in
  if existsb (fun e => String.eqb (Enrollment.moduleId e) moduleId) mine
  then w' = w /\ completion (part_000.enrollInModule host moduleId) o w = Normal tt
  else match part_000.currentUser (ui w) with
       | None =>
           ui w' = ui w /\ localStorage (io w') = localStorage (io w)
           /\ completion (part_000.enrollInModule host moduleId) o w = Throw
       | Some u =>
           let added :=
             part_000.new_enrollment (random36 o (draws (io w))) (User.id u) moduleId
               (Date_toISOString host (clock o (ticks (io w)))) (Some []) in
           part_000.enrollments (ui w') = part_000.enrollments (ui w) ++ [added]
           /\ part_000.currentUser (ui w') = Some u
           /\ part_000.modules (ui w') = part_000.modules (ui w)
           /\ localStorage (io w') =
              <["hr_enrollments_v2" :=
                  JSON_stringify host
                    (enrollments_json (part_000.enrollments (ui w) ++ [added]))]>
                (localStorage (io w))
           /\ completion (part_000.enrollInModule host moduleId) o w = Normal tt
       end.
Proof.
  cbv zeta. unfold exec, completion. rewrite (enrollInModule_unfold host moduleId o w).
  destruct (existsb _ _); [split; reflexivity|].
  run_call. destruct (part_000.currentUser (ui w)) as [u|] eqn:Hu; cbn.
  - rewrite Hu. repeat split.
  - repeat split.
Qed.

Lemma guard_hits_on_added cu u moduleId es added :
  cu = Some u -> Enrollment.userId added = User.id u ->
  Enrollment.moduleId added = moduleId ->
  existsb (fun e => String.eqb (Enrollment.moduleId e) moduleId)
          (List.filter (part_000.same_user cu) (es ++ [added])) = true.
Proof.
  intros -> Hu Hm. apply guard_hits. exists added. split; [|split].
  - apply in_or_app. right. now left.
  - cbn. rewrite Hu. apply String.eqb_refl.
  - exact Hm.
Qed.


Lemma key_not_enrolled cu u moduleId (es : list Enrollment.t) :
  cu = Some u ->
  existsb (fun e => String.eqb (Enrollment.moduleId e) moduleId)
          (List.filter (part_000.same_user cu) es) = false ->
  ~ In (User.id u, moduleId) (map enrollment_key es).
Proof.
  intros -> G Hin. apply in_map_iff in Hin as (e & Hk & He).
  unfold enrollment_key in Hk. injection Hk as Hu Hm.
  assert (T : existsb (fun e => String.eqb (Enrollment.moduleId e) moduleId)
                (List.filter (part_000.same_user (Some u)) es) = true).
  { apply guard_hits. exists e. split; [exact He|]. split; [|exact Hm].
    cbn. rewrite Hu. apply String.eqb_refl. }
  congruence.
Qed.

Lemma NoDup_snoc {A} (l : list A) (x : A) : NoDup l -> ~ In x l -> NoDup (l ++ [x]).
Proof.
  intros Hl Hx. apply NoDup_app. split; [exact Hl|]. split.
  - intros y Hy Hy'. apply list_elem_of_In in Hy. apply list_elem_of_In in Hy'.
    destruct Hy' as [<-|[]]. contradiction.
  - apply NoDup_singleton.
Qed.

(** X9.  The guarded [enrollInModule] (line 171) keeps the enrollments free of
    duplicates: if no two enrollments share user and module before a call,
    none do after it. *)
Theorem enrollInModule_keeps_enrollments_unique (host : Host) (o : Oracle)
    (w : World part_000.State) (moduleId : string) :
  NoDup (map enrollment_key (part_000.enrollments (ui w))) ->
  NoDup (map enrollment_key
           (part_000.enrollments (ui (exec (part_000.enrollInModule host moduleId) o w)))).
Proof.
  intros Hn. pose proof (enrollInModule_cases host o w moduleId) as C. cbv zeta in C.
  destruct (existsb _ _) eqn:G.
  - destruct C as [-> _]. exact Hn.
  - destruct (part_000.currentUser (ui w)) as [u|] eqn:Hu.
    + destruct C as (-> & _). rewrite map_app. cbn [map].
      apply NoDup_snoc; [exact Hn|].
      apply (key_not_enrolled (Some u) u moduleId _ eq_refl G).
    + destruct C as (-> & _). exact Hn.
Qed.

Lemma enrollInModule_keeps_enrollments_unique_witness :
  NoDup (map enrollment_key
           (part_000.enrollments
              (ui (exec (part_000.enrollInModule host_rejecting "m2") offline
                     (part_000_world
                        [part_000.new_enrollment "e1" "u1" "m1" "1699999999000" (Some [])]))))).
Proof.
  apply (enrollInModule_keeps_enrollments_unique host_rejecting offline
           (part_000_world
              [part_000.new_enrollment "e1" "u1" "m1" "1699999999000" (Some [])]) "m2").
  cbn. apply NoDup_cons. split; [apply not_elem_of_nil | apply NoDup_nil_2].
Defined.

(** X11.  With nobody signed in, creating a module and enrolling throw, and leave
    the state and the local storage as they were; no request is sent. *)
Theorem signed_out_calls_change_nothing (host : Host) (o : Oracle) (moduleId : string) :
  (forall w,
     part_000.currentUser (ui w) = None ->
     throws_unchanged (part_000.createModule host) o w
     /\ throws_unchanged (part_000.enrollInModule host moduleId) o w
     /\ throws_unchanged (part_000.enrollInModule_l551 host moduleId) o w)
  /\ (forall w,
        part_001.currentUser (ui w) = None ->
        throws_unchanged (part_001.createModule host) o w
        /\ throws_unchanged (part_001.enrollInModule host moduleId) o w).
Proof.
  unfold throws_unchanged. split.
  - intros w Hu. repeat apply conj.
    1-4: unfold part_000.createModule; run_call; rewrite Hu; reflexivity.
    5-8: unfold part_000.enrollInModule_l551; run_call; rewrite Hu; reflexivity.
    all: unfold exec, completion; rewrite (enrollInModule_unfold host moduleId o w), Hu;
      assert (E : List.filter (part_000.same_user None) (part_000.enrollments (ui w)) = [])
        by (induction (part_000.enrollments (ui w)); [reflexivity | assumption]);
      rewrite E; cbn [existsb]; run_call; rewrite Hu; reflexivity.
  - intros w Hu. repeat apply conj.
    1-4: unfold part_001.createModule; run_call; rewrite Hu; reflexivity.
    all: unfold part_001.enrollInModule; run_call; rewrite Hu; reflexivity.
Qed.

Lemma signed_out_calls_change_nothing_witness :
  throws_unchanged (part_000.createModule host_rejecting) offline
    {| io := fresh_io; ui := part_000.with_currentUser None (ui (part_000_world [])) |}.
Proof.
  apply (proj1 (signed_out_calls_change_nothing host_rejecting offline "m1")
           {| io := fresh_io; ui := part_000.with_currentUser None (ui (part_000_world [])) |}
           eq_refl).
Defined.

Lemma updateProgress_frame host o w enrollmentId progress :
  part_000.modules (ui (exec (part_000.updateProgress host enrollmentId progress) o w))
    = part_000.modules (ui w)
  /\ localStorage (io (exec (part_000.updateProgress host enrollmentId progress) o w))
       !! "hr_modules_v2" = localStorage (io w) !! "hr_modules_v2".
Proof.
  destruct (progress_map_completes host
              (fun e now => part_000.spread_progress e progress (Some now))
              enrollmentId (part_000.enrollments (ui w)) 0%nat o w)
    as (updated & w1 & E & U & L).
  assert (H : exec (part_000.updateProgress host enrollmentId progress) o w =
              exec (bind (part_000.setEnrollments updated) (fun _ =>
                      localStorage_setItem "hr_enrollments_v2"
                        (JSON_stringify host (enrollments_json updated)))) o w1).
  { unfold exec, part_000.updateProgress.
    unfold bind at 1. unfold get_state at 1. unfold bind at 1. rewrite E. reflexivity. }
  rewrite H. run_call. rewrite U, L. split; [reflexivity|].
  rewrite lookup_insert_ne by discriminate. reflexivity.
Qed.

Lemma completeEnrollment_frame host o w enrollmentId score answers :
  part_000.modules
    (ui (exec (part_000.completeEnrollment host enrollmentId score answers) o w))
    = part_000.modules (ui w)
  /\ localStorage
       (io (exec (part_000.completeEnrollment host enrollmentId score answers) o w))
       !! "hr_modules_v2" = localStorage (io w) !! "hr_modules_v2".
Proof.
  destruct (progress_map_completes host
              (fun e now => part_000.spread_completed e now score answers)
              enrollmentId (part_000.enrollments (ui w)) 0%nat o w)
    as (updated & w1 & E & U & L).
  assert (H : exec (part_000.completeEnrollment host enrollmentId score answers) o w =
              exec (bind (part_000.setEnrollments updated) (fun _ =>
                      localStorage_setItem "hr_enrollments_v2"
                        (JSON_stringify host (enrollments_json updated)))) o w1).
  { unfold exec, part_000.completeEnrollment.
    unfold bind at 1. unfold get_state at 1. unfold bind at 1. rewrite E. reflexivity. }
  rewrite H. run_call. rewrite U, L. split; [reflexivity|].
  rewrite lookup_insert_ne by discriminate. reflexivity.
Qed.

(** X12.  The definitions of [part_000] at lines 148-215 keep local storage in
    step with memory: if both arrays are mirrored before [createModule],
    [enrollInModule], [updateProgress] or [completeEnrollment], they are
    mirrored after it, whether the call returns or throws. *)
Theorem part_000_store_keeps_mirror (host : Host) (o : Oracle)
    (w : World part_000.State) :
  part_000_mirrored host w ->
  part_000_mirrored host (exec (part_000.createModule host) o w)
  /\ (forall moduleId,
        part_000_mirrored host (exec (part_000.enrollInModule host moduleId) o w))
  /\ (forall enrollmentId progress,
        part_000_mirrored host
          (exec (part_000.updateProgress host enrollmentId progress) o w))
  /\ (forall enrollmentId score answers,
        part_000_mirrored host
          (exec (part_000.completeEnrollment host enrollmentId score answers) o w)).
Proof.
  unfold part_000_mirrored, mirrors_modules, mirrors_enrollments.
  intros [Hm He]. split; [|split; [|split]].
  - unfold part_000.createModule. run_call.
    destruct (part_000.currentUser (ui w)); cbn; [|split; assumption].
    split; [apply lookup_insert_eq|].
    rewrite lookup_insert_ne by discriminate. exact He.
  - intros moduleId.
    pose proof (enrollInModule_cases host o w moduleId) as C. cbv zeta in C.
    destruct (existsb _ _).
    + destruct C as [-> _]. split; assumption.
    + destruct (part_000.currentUser (ui w)).
      * destruct C as (Ee & _ & Em & El & _). rewrite Ee, Em, El.
        split; [|apply lookup_insert_eq].
        rewrite lookup_insert_ne by discriminate. exact Hm.
      * destruct C as (Eu & El & _). rewrite Eu, El. split; assumption.
  - intros enrollmentId progress.
    destruct (updateProgress_frame host o w enrollmentId progress) as [M L].
    split; [rewrite M, L; exact Hm | apply updateProgress_mirrors].
  - intros enrollmentId score answers.
    destruct (completeEnrollment_frame host o w enrollmentId score answers) as [M L].
    split; [rewrite M, L; exact Hm | apply completeEnrollment_mirrors].
Qed.

Lemma part_000_store_keeps_mirror_witness :
  part_000_mirrored host_rejecting
    (exec (part_000.createModule host_rejecting) offline mirrored_000_world).
Proof.
  apply (proj1 (part_000_store_keeps_mirror host_rejecting offline mirrored_000_world
                  ltac:(split; vm_compute; reflexivity))).
Defined.

(** X13.  In [part_001] every handler that changes an array is followed by the
    effect that writes it: if both arrays are mirrored before [createModule],
    [enrollInModule] or [updateProgress] is dispatched, they are mirrored
    after the render that follows. *)
Theorem part_001_renders_keep_mirror (host : Host) (o : Oracle)
    (w : World part_001.State) :
  part_001_mirrored host w ->
  part_001_mirrored host (exec (part_001.dispatch host (part_001.createModule host)) o w)
  /\ (forall moduleId,
        part_001_mirrored host
          (exec (part_001.dispatch host (part_001.enrollInModule host moduleId)) o w))
  /\ (forall enrollmentId progress,
        part_001_mirrored host
          (exec (part_001.dispatch host (part_001.updateProgress enrollmentId progress)) o w)).
Proof.
  intros [Hm He]. split; [|split].
  - unfold exec, part_001.dispatch. apply (commit_mirrors host o);
      unfold part_001.createModule; run_call;
      destruct (part_001.currentUser (ui w)); cbn; auto.
  - intros moduleId. unfold exec, part_001.dispatch. apply (commit_mirrors host o);
      unfold part_001.enrollInModule; run_call;
      destruct (part_001.currentUser (ui w)); cbn; auto.
  - intros enrollmentId progress.
    apply (dispatch_updateProgress_mirrors host o w enrollmentId progress).
    split; assumption.
Qed.

Lemma part_001_renders_keep_mirror_witness :
  part_001_mirrored host_rejecting
    (exec (part_001.dispatch host_rejecting (part_001.createModule host_rejecting))
       offline mirrored_001_world).
Proof.
  apply (proj1 (part_001_renders_keep_mirror host_rejecting offline mirrored_001_world
                  ltac:(split; vm_compute; reflexivity))).
Defined.

(** ** The employee dashboard *)

Lemma offered_not_enrolled cu ms es m :
  In m (availableModules cu ms es) ->
  In m ms
  /\ existsb (fun e => String.eqb (Enrollment.moduleId e) (LearningModule.id m))
             (List.filter (part_000.same_user cu) es) = false.
Proof.
  unfold availableModules, myEnrollments. intros H.
  apply filter_In in H as [Hin Hn]. split; [exact Hin|]. now apply negb_true_iff in Hn.
Qed.

(** X10.  The dashboard offers enrolling only for modules the user has no
    enrollment for, so the unguarded [enrollInModule] of [part_001] called
    for an offered module keeps the enrollments free of duplicates, and the
    module is no longer offered afterwards. *)
Theorem offered_enrollment_keeps_enrollments_unique (host : Host) (o : Oracle)
    (w : World part_001.State) (u : User.t) (m : LearningModule.t) :
  part_001.currentUser (ui w) = Some u ->
  In m (availableModules (Some u) (part_001.modules (ui w)) (part_001.enrollments (ui w))) ->
  NoDup (map enrollment_key (part_001.enrollments (ui w))) ->
  let w' := exec (part_001.enrollInModule host (LearningModule.id m)) o w in
  NoDup (map enrollment_key (part_001.enrollments (ui w')))
  /\ ~ In m (availableModules (Some u) (part_001.modules (ui w'))
               (part_001.enrollments (ui w'))).
Proof.
  intros Hu Hm Hn w'.
  destruct (offered_not_enrolled _ _ _ _ Hm) as [Hin G].
  assert (E : part_001.enrollments (ui w') =
              part_001.enrollments (ui w) ++
                [part_000.new_enrollment (random36 o (draws (io w))) (User.id u)
                   (LearningModule.id m)
                   (Date_toISOString host (clock o (ticks (io w)))) None]).
  { subst w'. unfold part_001.enrollInModule. run_call. rewrite Hu. reflexivity. }
  split.
  - rewrite E, map_app. cbn [map]. apply NoDup_snoc; [exact Hn|].
    apply (key_not_enrolled (Some u) u _ _ eq_refl G).
  - intros H. apply offered_not_enrolled in H as [_ G']. rewrite E in G'.
    match type of G' with
    | context [List.filter _ (?es ++ [?a])] =>
        rewrite (guard_hits_on_added (Some u) u (LearningModule.id m) es a
                   eq_refl eq_refl eq_refl) in G'
    end.
    discriminate.
Qed.

Lemma offered_enrollment_keeps_enrollments_unique_witness :
  NoDup (map enrollment_key
           (part_001.enrollments
              (ui (exec (part_001.enrollInModule host_rejecting "m1") offline
                     catalogue_world))))
  /\ ~ In fire_module
         (availableModules (Some alice)
            (part_001.modules
               (ui (exec (part_001.enrollInModule host_rejecting "m1") offline
                      catalogue_world)))
            (part_001.enrollments
               (ui (exec (part_001.enrollInModule host_rejecting "m1") offline
                      catalogue_world)))).
Proof.
  apply (offered_enrollment_keeps_enrollments_unique host_rejecting offline
           catalogue_world alice fire_module).
  - reflexivity.
  - left. reflexivity.
  - apply NoDup_nil_2.
Defined.

(** ** The agent calls: what they leave alone *)

Section AgentCalls.
Variable host : Host.

(** Case analysis on everything a call reads from the oracle and the reply. *)
Ltac by_cases :=
  repeat (cbn;
          match goal with
          | |- context [network ?o ?k] => destruct (network o k) eqn:?
          | |- context [JSON_parse ?h ?t] => destruct (JSON_parse h t) eqn:?
          | |- context [if truthy ?v then _ else _] => destruct (truthy v) eqn:?
          | |- context [match get ?v ?k with _ => _ end] => destruct (get v k) eqn:?
          | |- context [mbind _ (get ?v ?k)] => destruct (get v k) eqn:?
          end);
  cbn.

Lemma generateAssessment_store o w moduleContent :
  part_000_store_kept w (exec (part_000.generateAssessment host moduleContent) o w)
  /\ part_000.isTyping (ui (exec (part_000.generateAssessment host moduleContent) o w)) = true.
Proof.
  unfold part_000_store_kept. run_call.
  destruct (network o (length (sent (io w)))) as [|text]; cbn; [repeat split|].
  destruct (JSON_parse host text) as [data|]; cbn; [|repeat split].
  destruct (truthy (parseLLMJson host data)?."assessment"?."questions"); cbn;
    [|repeat split].
  destruct (part_000.array_items (parseLLMJson host data)?."assessment"?."questions")
    as [items|]; cbn; [|repeat split].
  match goal with
  | |- context [mapM_index part_000.generated_question 0%nat items o ?w0] =>
      pose proof (generated_questions_frame items 0%nat o w0) as [F _];
      unfold exec in F;
      destruct (mapM_index part_000.generated_question 0%nat items o w0)
        as [[generated|] w1]
  end; cbn in *; destruct F as (Fu & _ & _ & Fl & _); rewrite ?Fu, ?Fl; repeat split.
Qed.

(** X14.  No agent call of [part_000] or [part_001] throws to its caller, and none
    touches the signed-in user, the modules, the enrollments or the local
    storage, whatever the network or the reply does. *)
Theorem agent_calls_keep_the_store (o : Oracle) :
  (forall w userMessage moduleContent requestType,
     let call := part_000.callLearnAgent host userMessage moduleContent requestType in
     returns call o w /\ part_000_store_kept w (exec call o w))
  /\ (forall w moduleContent,
        let call := part_000.generateAssessment host moduleContent in
        returns call o w /\ part_000_store_kept w (exec call o w))
  /\ (forall w moduleContent userResponses history,
        let call := part_000.evaluateAssessment host moduleContent userResponses history in
        returns call o w /\ part_000_store_kept w (exec call o w))
  /\ (forall w message moduleContent,
        let call := part_000.callLearnAgent_l570 host message moduleContent in
        returns call o w /\ part_000_store_kept w (exec call o w))
  /\ (forall w content,
        let call := part_000.callEvalAgent host content in
        returns call o w /\ part_000_store_kept w (exec call o w))
  /\ (forall w message moduleContent,
        let call := part_001.callLearnAgent host message moduleContent in
        returns call o w /\ part_001_store_kept w (exec call o w))
  /\ (forall w content,
        let call := part_001.callEvalAgent host content in
        returns call o w /\ part_001_store_kept w (exec call o w)).
Proof.
  split; [|split; [|split; [|split; [|split; [|split]]]]].
  - intros w userMessage moduleContent requestType call. subst call.
    unfold returns, part_000_store_kept. run_call. by_cases; repeat split; eauto.
  - intros w moduleContent call. subst call. split.
    + destruct (generateAssessment_quiz host o w moduleContent) as (quiz & _ & R & _).
      exists quiz. exact R.
    + apply generateAssessment_store.
  - intros w moduleContent userResponses history call. subst call.
    unfold returns, part_000_store_kept. run_call. by_cases; repeat split; eauto.
  - intros w message moduleContent call. subst call.
    unfold returns, part_000_store_kept. run_call. by_cases; repeat split; eauto.
  - intros w content call. subst call.
    unfold returns, part_000_store_kept. run_call. by_cases; repeat split; eauto.
  - intros w message moduleContent call. subst call.
    unfold returns, part_001_store_kept. run_call. by_cases; repeat split; eauto.
  - intros w content call. subst call.
    unfold returns, part_001_store_kept. run_call. by_cases; repeat split; eauto.
Qed.

Lemma generateAssessment_rendered o w moduleContent :
  rendered (part_000.generateAssessment host moduleContent) o w.
Proof.
  unfold rendered. run_call.
  destruct (network o (length (sent (io w)))) as [|text]; cbn; [reflexivity|].
  destruct (JSON_parse host text) as [data|]; cbn; [|reflexivity].
  destruct (truthy (parseLLMJson host data)?."assessment"?."questions"); cbn;
    [|reflexivity].
  destruct (part_000.array_items (parseLLMJson host data)?."assessment"?."questions")
    as [items|]; cbn; [|reflexivity].
  match goal with
  | |- context [mapM_index part_000.generated_question 0%nat items o ?w0] =>
      pose proof (generated_questions_frame items 0%nat o w0) as [F _];
      unfold exec in F;
      destruct (mapM_index part_000.generated_question 0%nat items o w0)
        as [[generated|] w1]
  end; cbn in *; destruct F as (_ & _ & _ & _ & Fr); rewrite Fr; reflexivity.
Qed.

(** Settles a case of a shorter agent call: the render went through exactly
    when the reply is a value, and then the flag is cleared. *)
Ltac flag_case :=
  split; [split|]; intros;
  first
    [ reflexivity
    | discriminate
    | exfalso; lia
    | match goal with
      | E : Some _ = Some _ |- _ => injection E as <-
      end;
      match goal with
      | H : get ?v ?k = Some _ |- nullish ?v = false =>
          destruct (nullish v) eqn:N; [|reflexivity];
          apply (get_None_nullish v k) in N; congruence
      end
    | exfalso;
      match goal with
      | H : get ?v ?k = None, R : forall parsed, _ -> nullish parsed = false |- _ =>
          apply get_None_nullish in H; specialize (R _ eq_refl); congruence
      end ].

End AgentCalls.


(** ** The generated quiz *)

Lemma generated_questions_result items : forall index o (w : World part_000.State),
  Forall (fun q => nullish q = false) items ->
  exists quiz w1,
    mapM_index part_000.generated_question index items o w = (Normal quiz, w1)
    /\ length quiz = length items
    /\ forall i q, items !! i = Some q ->
         exists g, quiz !! i = Some g /\ generated_from (index + i) q g.
Proof.
  induction items as [|q rest IH]; intros index o w Hok.
  - exists [], w. repeat split. intros i q H. destruct i; discriminate.
  - apply Forall_cons in Hok as [Hq Hrest].
    cbn [mapM_index]. unfold bind at 1.
    assert (E : exists w0,
               part_000.generated_question q index o w =
               (Normal {| QuizQuestion.id :=
                            "gen_" +:+ int_text (Z.of_nat index) +:+ "_"
                            +:+ int_text (clock o (ticks (io w)));
                          QuizQuestion.question :=
                            q?."question" ||j JStr "Generated question";
                          QuizQuestion.type := "true-false";
                          QuizQuestion.options := None;
                          QuizQuestion.correctAnswer :=
                            q?."expected_answer" ||j JStr "True";
                          QuizQuestion.explanation :=
                            Some "AI-generated question based on course content" |},
                w0)).
    { unfold part_000.generated_question. run_call.
      rewrite !(nullish_get _ _ Hq). cbn. eauto. }
    destruct E as [w0 ->]. unfold bind at 1.
    destruct (IH (S index) o w0 Hrest) as (quiz & w1 & -> & L & G).
    do 2 eexists. split; [reflexivity|]. split; [cbn; congruence|].
    intros [|i] q' H; cbn in H.
    + injection H as <-. eexists. split; [reflexivity|].
      rewrite Nat.add_0_r. repeat split. eexists. reflexivity.
    + destruct (G i q' H) as (g & Hg & Hfrom). exists g. split; [exact Hg|].
      replace (index + S i)%nat with (S index + i)%nat by lia. exact Hfrom.
Qed.

Lemma generated_questions_throw items : forall index o (w : World part_000.State),
  Exists (fun q => nullish q = true) items ->
  completion (mapM_index part_000.generated_question index items) o w = Throw.
Proof.
  induction items as [|q rest IH]; intros index o w Hbad.
  - inversion Hbad.
  - unfold completion. cbn [mapM_index]. unfold bind at 1.
    destruct (part_000.generated_question q index o w) as [[y|] w0] eqn:E; [|reflexivity].
    apply Exists_cons in Hbad as [Hq|Hrest].
    + exfalso. revert E. unfold part_000.generated_question. run_call.
      rewrite (proj2 (get_None_nullish q "question") Hq). cbn. discriminate.
    + unfold bind at 1. specialize (IH (S index) o w0 Hrest). unfold completion in IH.
      destruct (mapM_index part_000.generated_question (S index) rest o w0) as [[ys|] w1];
        [discriminate|reflexivity].
Qed.

(** X16.  A reply whose questions are all objects yields a quiz with one
    true-false question for each of them, in order, each taking its text
    and expected answer from its question (or the defaults), under
    pairwise distinct ids; the quiz is stored with index 0 and no grade,
    and returned. *)
Theorem generateAssessment_one_per_question (host : Host) (o : Oracle)
    (w : World part_000.State) (moduleContent : string) (parsed : JValue)
    (items : list JValue) :
  json_reply host o (length (sent (io w))) = Some parsed ->
  parsed?."assessment"?."questions" = JArr items ->
  Forall (fun q => nullish q = false) items ->
  let call := part_000.generateAssessment host moduleContent in
  exists quiz,
    completion call o w = Normal quiz
    /\ part_000.currentQuiz (ui (exec call o w)) = Some quiz
    /\ part_000.currentQuizIndex (ui (exec call o w)) = Fin 0
    /\ part_000.gradeResults (ui (exec call o w)) = None
    /\ length quiz = length items
    /\ (forall i q, items !! i = Some q ->
          exists g, quiz !! i = Some g /\ generated_from i q g)
    /\ NoDup (map QuizQuestion.id quiz).
Proof.
  intros R Q Hok call. subst call. unfold json_reply in R. run_call.
  destruct (network o (length (sent (io w)))) as [|text]; [discriminate|].
  destruct (JSON_parse host text) as [data|]; [|discriminate].
  cbn in R |- *. injection R as <-. rewrite Q. cbn.
  match goal with
  | |- context [mapM_index part_000.generated_question 0%nat items o ?w0] =>
      destruct (generated_questions_result items 0%nat o w0 Hok)
        as (quiz & w1 & -> & L & G)
  end.
  cbn. exists quiz. repeat split; try assumption.
  apply NoDup_alt. intros i j x Hi Hj.
  rewrite list_lookup_fmap in Hi, Hj.
  destruct (quiz !! i) as [gi|] eqn:Ei; [|discriminate].
  destruct (quiz !! j) as [gj|] eqn:Ej; [|discriminate].
  cbn in Hi, Hj. injection Hi as Hi. injection Hj as Hj.
  destruct (lookup_lt_is_Some_2 items i) as [qi Qi];
    [rewrite <- L; eapply lookup_lt_Some; eauto|].
  destruct (lookup_lt_is_Some_2 items j) as [qj Qj];
    [rewrite <- L; eapply lookup_lt_Some; eauto|].
  destruct (G i qi Qi) as (g & Hg & [[t1 E1] _]).
  destruct (G j qj Qj) as (g' & Hg' & [[t2 E2] _]).
  rewrite Ei in Hg. rewrite Ej in Hg'. injection Hg as <-. injection Hg' as <-.
  rewrite E1 in Hi. rewrite E2 in Hj. rewrite <- Hj in Hi.
  apply (inj (String.app "gen_")) in Hi.
  apply (timestamp_then_separator _ _ "_"%char) in Hi; [|reflexivity].
  lia.
Qed.

Lemma generateAssessment_one_per_question_witness :
  let call := part_000.generateAssessment
                (host_parsing (quiz_reply [wet_question; wet_question])) "Fire safety" in
  exists quiz,
    completion call (answering "{}") (part_000_world []) = Normal quiz
    /\ part_000.currentQuiz (ui (exec call (answering "{}") (part_000_world [])))
       = Some quiz
    /\ part_000.currentQuizIndex (ui (exec call (answering "{}") (part_000_world [])))
       = Fin 0
    /\ part_000.gradeResults (ui (exec call (answering "{}") (part_000_world []))) = None
    /\ length quiz = length [wet_question; wet_question]
    /\ (forall i q, [wet_question; wet_question] !! i = Some q ->
          exists g, quiz !! i = Some g /\ generated_from i q g)
    /\ NoDup (map QuizQuestion.id quiz).
Proof.
  apply (generateAssessment_one_per_question
           (host_parsing (quiz_reply [wet_question; wet_question]))
           (answering "{}") (part_000_world []) "Fire safety"
           (quiz_reply [wet_question; wet_question]) [wet_question; wet_question]
           eq_refl eq_refl).
  repeat constructor.
Defined.

(** X17.  One [null] among the questions of a reply spoils the whole quiz: the
    map throws on it, and the quiz stored and returned is the single error
    question, whatever the other questions were. *)
Theorem generateAssessment_null_question (host : Host) (o : Oracle)
    (w : World part_000.State) (moduleContent : string) (parsed : JValue)
    (items : list JValue) :
  json_reply host o (length (sent (io w))) = Some parsed ->
  parsed?."assessment"?."questions" = JArr items ->
  Exists (fun q => nullish q = true) items ->
  let call := part_000.generateAssessment host moduleContent in
  completion call o w = Normal part_000.errorQuestions
  /\ part_000.currentQuiz (ui (exec call o w)) = Some part_000.errorQuestions.
Proof.
  intros R Q Hbad call. subst call. unfold json_reply in R. run_call.
  destruct (network o (length (sent (io w)))) as [|text]; [discriminate|].
  destruct (JSON_parse host text) as [data|]; [|discriminate].
  cbn in R |- *. injection R as <-. rewrite Q. cbn.
  match goal with
  | |- context [mapM_index part_000.generated_question 0%nat items o ?w0] =>
      pose proof (generated_questions_throw items 0%nat o w0 Hbad) as T;
      unfold completion in T;
      destruct (mapM_index part_000.generated_question 0%nat items o w0) as [[ys|] w1]
  end; [discriminate|].
  cbn. split; reflexivity.
Qed.

Lemma generateAssessment_null_question_witness :
  completion (part_000.generateAssessment
                (host_parsing (quiz_reply [wet_question; JNull])) "Fire safety")
    (answering "{}") (part_000_world []) = Normal part_000.errorQuestions
  /\ part_000.currentQuiz
       (ui (exec (part_000.generateAssessment
                    (host_parsing (quiz_reply [wet_question; JNull])) "Fire safety")
              (answering "{}") (part_000_world [])))
     = Some part_000.errorQuestions.
Proof.
  apply (generateAssessment_null_question
           (host_parsing (quiz_reply [wet_question; JNull]))
           (answering "{}") (part_000_world []) "Fire safety"
           (quiz_reply [wet_question; JNull]) [wet_question; JNull]
           eq_refl eq_refl).
  right. left. reflexivity.
Defined.

(** ** [src/App.tsx]: the loading flag *)

Section Loading.
Variable host : Host.

#[local] Arguments App_tsx.find_by : simpl never.


Lemma handleLearningQuestion_returns o w question :
  completion (App_tsx.handleLearningQuestion host question) o w = Normal tt.
Proof.
  run_call. destruct (App_tsx.currentLesson (ui w)); cbn; [|reflexivity]. run_call.
  destruct (network o (length (sent (io w)))) as [|text]; cbn; [reflexivity|].
  destruct (truthy (parseLLMJson host (JStr text))) eqn:T; cbn; [|reflexivity].
  rewrite (nullish_get _ "result" (truthy_not_nullish _ T)). cbn.
  destruct (nullish (parseLLMJson host (JStr text))?."result") eqn:E; cbn.
  - apply get_None_nullish with (k := "response") in E. rewrite E. reflexivity.
  - rewrite !(nullish_get _ _ E). reflexivity.
Qed.

End Loading.



(** ** Bulk assignment: splitting and trimming *)

Lemma fold_left_join_shift (sep a : string) (rest : list string) : forall b,
  fold_left (fun acc x => acc +:+ sep +:+ x) rest (a +:+ b)
  = a +:+ fold_left (fun acc x => acc +:+ sep +:+ x) rest b.
Proof.
  induction rest as [|x rest IH]; intros b; cbn [fold_left]; [reflexivity|].
  rewrite str_app_assoc. apply IH.
Qed.

Lemma join_cons (sep p q : string) (rest : list string) :
  join sep (p :: q :: rest) = p +:+ sep +:+ join sep (q :: rest).
Proof.
  cbn [join fold_left]. rewrite fold_left_join_shift.
  f_equal.
  rewrite <- (fold_left_join_shift sep sep rest q). reflexivity.
Qed.

Lemma split_on_free (sep : ascii) (s : string) :
  free_of sep s = true -> split_on sep s = [s].
Proof.
  induction s as [|c s IH]; cbn [free_of split_on]; [reflexivity|].
  intros H. apply andb_true_iff in H as [Hc Hs]. apply negb_true_iff in Hc.
  rewrite Hc, (IH Hs). reflexivity.
Qed.

Lemma split_on_app (sep : ascii) (a b : string) :
  free_of sep a = true ->
  split_on sep (a +:+ String sep b) = a :: split_on sep b.
Proof.
  induction a as [|c a IH]; intros H.
  - rewrite str_app_nil_l. cbn [split_on]. rewrite Ascii.eqb_refl. reflexivity.
  - cbn [free_of] in H. apply andb_true_iff in H as [Hc Ha]. apply negb_true_iff in Hc.
    rewrite str_app_cons. cbn [split_on]. rewrite Hc, (IH Ha). reflexivity.
Qed.

(** Splitting what was joined gives the pieces back. *)
Lemma split_on_join (typed : list string) :
  typed <> [] -> Forall (fun t => free_of ","%char t = true) typed ->
  split_on ","%char (join "," typed) = typed.
Proof.
  induction typed as [|p rest IH]; intros Hne Hfree; [congruence|].
  apply Forall_cons in Hfree as [Hp Hrest].
  destruct rest as [|q rest].
  - cbn [join fold_left]. apply split_on_free, Hp.
  - rewrite join_cons. change ("," +:+ join "," (q :: rest))
      with (String ","%char (join "," (q :: rest))).
    rewrite (split_on_app _ _ _ Hp). f_equal. apply IH; [discriminate | exact Hrest].
Qed.

Lemma split_on_nonempty (sep : ascii) (s : string) : split_on sep s <> [].
Proof.
  destruct s as [|c s]; cbn [split_on]; [discriminate|].
  destruct (Ascii.eqb c sep); [discriminate|].
  destruct (split_on sep s); discriminate.
Qed.

Lemma split_on_pieces_free (sep : ascii) (s : string) :
  Forall (fun piece => free_of sep piece = true) (split_on sep s).
Proof.
  induction s as [|c s IH]; cbn [split_on].
  - repeat constructor.
  - destruct (Ascii.eqb c sep) eqn:Hc.
    + constructor; [reflexivity | exact IH].
    + destruct (split_on sep s) as [|piece pieces].
      * repeat constructor. cbn. rewrite Hc. reflexivity.
      * apply Forall_cons in IH as [Hp Hps]. constructor; [|exact Hps].
        cbn. rewrite Hc, Hp. reflexivity.
Qed.

Lemma trimStart_free (c : ascii) (s : string) :
  free_of c s = true -> free_of c (trimStart s) = true.
Proof.
  induction s as [|x s IH]; cbn [trimStart]; [auto|].
  intros H. destruct (is_space x); [|exact H].
  cbn [free_of] in H. apply andb_true_iff in H as [_ H]. auto.
Qed.

Lemma trimEnd_free (c : ascii) (s : string) :
  free_of c s = true -> free_of c (trimEnd s) = true.
Proof.
  induction s as [|x s IH]; cbn [trimEnd]; [auto|].
  intros H. cbn [free_of] in H. apply andb_true_iff in H as [Hx Hs].
  specialize (IH Hs). destruct (trimEnd s) as [|y kept].
  - destruct (is_space x); cbn; [reflexivity|]. rewrite Hx. reflexivity.
  - cbn [free_of]. cbn [free_of] in IH. rewrite Hx, IH. reflexivity.
Qed.

Lemma trimEnd_idem (s : string) : trimEnd (trimEnd s) = trimEnd s.
Proof.
  induction s as [|x s IH]; cbn [trimEnd]; [reflexivity|].
  destruct (trimEnd s) as [|y kept] eqn:E.
  - destruct (is_space x) eqn:Hx; cbn [trimEnd]; [reflexivity|]. rewrite Hx. reflexivity.
  - cbn [trimEnd]. cbn [trimEnd] in IH. rewrite IH. reflexivity.
Qed.

(** A string that does not begin with white space keeps its beginning
    when its end is trimmed. *)
Lemma trimStart_trimEnd (s : string) :
  trimStart s = s -> trimStart (trimEnd s) = trimEnd s.
Proof.
  destruct s as [|x s]; [reflexivity|]. cbn [trimStart trimEnd].
  destruct (is_space x) eqn:Hx.
  - intros H. exfalso. assert (L : String.length (trimStart s) = S (String.length s))
      by (rewrite H; reflexivity).
    assert (Le : forall t, (String.length (trimStart t) <= String.length t)%nat).
    { induction t as [|y t IHt]; cbn; [lia|]. destruct (is_space y); cbn; lia. }
    specialize (Le s). lia.
  - intros _. destruct (trimEnd s); cbn [trimStart]; rewrite Hx; reflexivity.
Qed.

Lemma trimStart_idem (s : string) : trimStart (trimStart s) = trimStart s.
Proof.
  induction s as [|x s IH]; [reflexivity|]. cbn [trimStart].
  destruct (is_space x) eqn:Hx; [exact IH|]. cbn [trimStart]. rewrite Hx. reflexivity.
Qed.

Lemma trim_idem (s : string) : trim (trim s) = trim s.
Proof.
  unfold trim. rewrite (trimStart_trimEnd (trimStart s) (trimStart_idem s)).
  apply trimEnd_idem.
Qed.

Lemma trim_free (c : ascii) (s : string) :
  free_of c s = true -> free_of c (trim s) = true.
Proof. intros H. unfold trim. apply trimEnd_free, trimStart_free, H. Qed.

Lemma bulk_entries_clean (typed : string) :
  Forall clean_entry (List.filter nonempty (map trim (split_on ","%char typed))).
Proof.
  apply List.Forall_forall. intros e He.
  apply filter_In in He as [He Hn]. apply in_map_iff in He as (piece & <- & Hp).
  pose proof (split_on_pieces_free ","%char typed) as F.
  rewrite List.Forall_forall in F.
  repeat split; [exact Hn | apply trim_idem | apply trim_free, F, Hp].
Qed.

Lemma assignByBulkEmail_state o (w : World part_000_rest.State) :
  part_000_rest.assignByBulkEmail o w =
  (Normal tt,
   {| io := io w;
      ui := part_000_rest.with_bulkEmail ""
              (part_000_rest.with_app
                 (part_000.with_assignedUsers
                    (part_000.assignedUsers (part_000_rest.app (ui w))
                     ++ List.filter nonempty
                          (map trim (split_on ","%char (part_000_rest.bulkEmail (ui w)))))
                    (part_000_rest.app (ui w)))
                 (ui w)) |}).
Proof. reflexivity. Qed.

(** X22.  [assignByBulkEmail] keeps the users already assigned, in order, and
    adds after them only clean entries: none empty, none with white space
    around it, none with a comma.  It empties the field, and touches neither
    the signed-in user, the modules, the enrollments nor the local
    storage. *)
Theorem assignByBulkEmail_adds_clean_entries (o : Oracle)
    (w : World part_000_rest.State) :
  let w' := exec part_000_rest.assignByBulkEmail o w in
  (exists added,
     part_000.assignedUsers (part_000_rest.app (ui w'))
     = part_000.assignedUsers (part_000_rest.app (ui w)) ++ added
     /\ Forall clean_entry added)
  /\ part_000_rest.bulkEmail (ui w') = ""
  /\ part_000.currentUser (part_000_rest.app (ui w'))
     = part_000.currentUser (part_000_rest.app (ui w))
  /\ part_000.modules (part_000_rest.app (ui w'))
     = part_000.modules (part_000_rest.app (ui w))
  /\ part_000.enrollments (part_000_rest.app (ui w'))
     = part_000.enrollments (part_000_rest.app (ui w))
  /\ io w' = io w.
Proof.
  intros w'. subst w'. unfold exec. rewrite assignByBulkEmail_state. cbn.
  split; [|repeat split].
  eexists. split; [reflexivity|]. apply bulk_entries_clean.
Qed.

(** X23.  Typing addresses separated by commas, with any white space around
    them, assigns exactly those addresses, in the order typed. *)
Theorem assignByBulkEmail_reads_the_list (o : Oracle) (w : World part_000_rest.State)
    (typed : list string) :
  Forall (fun t => free_of ","%char t = true /\ nonempty (trim t) = true) typed ->
  part_000_rest.bulkEmail (ui w) = join "," typed ->
  part_000.assignedUsers
    (part_000_rest.app (ui (exec part_000_rest.assignByBulkEmail o w)))
  = part_000.assignedUsers (part_000_rest.app (ui w)) ++ map trim typed.
Proof.
  intros Hf Hb. unfold exec. rewrite assignByBulkEmail_state. cbn. rewrite Hb. f_equal.
  destruct typed as [|p rest]; [reflexivity|].
  rewrite split_on_join.
  - apply filter_all. intros e He. apply in_map_iff in He as (t & <- & Ht).
    rewrite List.Forall_forall in Hf. apply (Hf t Ht).
  - discriminate.
  - eapply List.Forall_impl; [|exact Hf]. intros t [H _]. exact H.
Qed.

Lemma assignByBulkEmail_reads_the_list_witness :
  part_000.assignedUsers
    (part_000_rest.app
       (ui (exec part_000_rest.assignByBulkEmail offline
              (bulk_world ["zoe@example.org"] "ann@example.org, bob@example.org ,cy@example.org"))))
  = ["zoe@example.org"]
    ++ map trim ["ann@example.org"; " bob@example.org "; "cy@example.org"].
Proof.
  apply (assignByBulkEmail_reads_the_list offline
           (bulk_world ["zoe@example.org"]
              "ann@example.org, bob@example.org ,cy@example.org")
           ["ann@example.org"; " bob@example.org "; "cy@example.org"]).
  - repeat constructor.
  - reflexivity.
Defined.



(** ** Signing in *)

Lemma starts_with_spec (sub : string) : forall s,
  starts_with sub s = true <-> exists after, s = sub +:+ after.
Proof.
  induction sub as [|a sub IH]; intros s.
  - cbn. split; [intros _; exists s; reflexivity | reflexivity].
  - destruct s as [|b s]; cbn [starts_with].
    + split; [discriminate|]. intros [after E]. rewrite str_app_cons in E. discriminate.
    + rewrite andb_true_iff, IH. split.
      * intros [Hab [after ->]]. apply Ascii.eqb_eq in Hab as ->.
        exists after. rewrite str_app_cons. reflexivity.
      * intros [after E]. rewrite str_app_cons in E. injection E as -> ->.
        split; [apply Ascii.eqb_refl | eauto].
Qed.

(** [includes] finds exactly the substrings. *)
Lemma includes_spec (sub : string) : forall s,
  includes s sub = true <-> occurs_in sub s.
Proof.
  unfold occurs_in. induction s as [|c s IH].
  - cbn [includes]. rewrite orb_false_r, starts_with_spec. split.
    + intros [after E]. exists "", after. rewrite str_app_nil_l. exact E.
    + intros (before & after & E). destruct before as [|x before].
      * rewrite str_app_nil_l in E. eauto.
      * rewrite str_app_cons in E. discriminate.
  - cbn [includes]. rewrite orb_true_iff, starts_with_spec, IH. split.
    + intros [[after E]|(before & after & E)].
      * exists "", after. rewrite str_app_nil_l. exact E.
      * exists (String c before), after. rewrite str_app_cons, E. reflexivity.
    + intros (before & after & E). destruct before as [|x before].
      * left. rewrite str_app_nil_l in E. eauto.
      * right. rewrite str_app_cons in E. injection E as -> ->. eauto.
Qed.

Section SignIn.
Variable host : Host.

Lemma part_000_handleAuth_state o (w : World part_000_rest.State) :
  let form := part_000_rest.authForm (ui w) in
  let organization_email :=
    includes (AuthForm.email form) "company" || includes (AuthForm.email form) "org" in
  let u :=
    match part_000_rest.authMode (ui w) with
    | register =>
        {| User.id := random36 o (draws (io w)); User.email := AuthForm.email form;
           User.name := AuthForm.name form; User.role := AuthForm.role form;
           User.organization := Some (AuthForm.organization form) |}
    | _ =>
        {| User.id := random36 o (draws (io w)); User.email := AuthForm.email form;
           User.name := "Test User";
           User.role := if organization_email then hr else employee;
           User.organization :=
             Some (if organization_email then "Company Corporation"
                   else "Standard Employee") |}
    end in
  part_000_rest.handleAuth host o w =
  (Normal tt,
   {| io := {| ticks := ticks (io w); draws := S (draws (io w)); sent := sent (io w);
               localStorage :=
                 <["hr_users_v2" := JSON_stringify host (JArr [User_json u])]>
                   (localStorage (io w));
               render_errors := render_errors (io w) |};
      ui := part_000_rest.with_view (dashboard_of (User.role u))
              (part_000_rest.with_app
                 (part_000.with_currentUser (Some u) (part_000_rest.app (ui w)))
                 (ui w)) |}).
Proof.
  cbv zeta. unfold part_000_rest.handleAuth, part_000_rest.setCurrentUser,
    part_000_rest.setView. run_call.
  destruct (part_000_rest.authMode (ui w)); reflexivity.
Qed.

Lemma part_001_handleAuth_state o (w : World part_001_rest.State) :
  let form := part_001_rest.authForm (ui w) in
  let u :=
    match part_001_rest.authMode (ui w) with
    | register =>
        {| User.id := random36 o (draws (io w)); User.email := AuthForm.email form;
           User.name := AuthForm.name form; User.role := AuthForm.role form;
           User.organization := None |}
    | _ =>
        {| User.id := random36 o (draws (io w)); User.email := AuthForm.email form;
           User.name := "Test User";
           User.role := if includes (AuthForm.email form) "hr" then hr else employee;
           User.organization := None |}
    end in
  part_001_rest.handleAuth o w =
  (Normal tt,
   {| io := {| ticks := ticks (io w); draws := S (draws (io w)); sent := sent (io w);
               localStorage := localStorage (io w);
               render_errors := render_errors (io w) |};
      ui := part_001_rest.with_view (dashboard_of (User.role u))
              (part_001_rest.with_app
                 (part_001.with_currentUser (Some u) (part_001_rest.app (ui w)))
                 (ui w)) |}).
Proof.
  cbv zeta. unfold part_001_rest.handleAuth, part_001_rest.setCurrentUser,
    part_001_rest.setView. run_call.
  destruct (part_001_rest.authMode (ui w)); reflexivity.
Qed.

(** X25.  Sign-in never reads the password: with another password typed, both
    [handleAuth] do exactly the same, in every mode. *)
Theorem handleAuth_ignores_the_password (o : Oracle) (password : string) :
  (forall w, exec (part_000_rest.handleAuth host) o (part_000_retyped password w)
             = part_000_retyped password (exec (part_000_rest.handleAuth host) o w))
  /\ (forall w, exec part_001_rest.handleAuth o (part_001_retyped password w)
                = part_001_retyped password (exec part_001_rest.handleAuth o w)).
Proof.
  split; intros w; unfold exec.
  - rewrite !part_000_handleAuth_state. reflexivity.
  - rewrite !part_001_handleAuth_state. reflexivity.
Qed.

(** X26.  After [handleAuth] of [part_000] somebody is signed in under the
    address of the form, the view is the dashboard of that user's role, and
    the key [hr_users_v2] holds the list of that one user, whoever was
    stored there before.  Enrolling, which throws for a signed-out visitor,
    then returns. *)
Theorem part_000_handleAuth_signs_in (o : Oracle) (w : World part_000_rest.State)
    (moduleId : string) :
  let w' := exec (part_000_rest.handleAuth host) o w in
  (exists u,
     part_000.currentUser (part_000_rest.app (ui w')) = Some u
     /\ User.email u = AuthForm.email (part_000_rest.authForm (ui w))
     /\ part_000_rest.view (ui w') = dashboard_of (User.role u)
     /\ localStorage (io w') =
        <["hr_users_v2" := JSON_stringify host (JArr [User_json u])]> (localStorage (io w)))
  /\ part_000.modules (part_000_rest.app (ui w'))
     = part_000.modules (part_000_rest.app (ui w))
  /\ part_000.enrollments (part_000_rest.app (ui w'))
     = part_000.enrollments (part_000_rest.app (ui w))
  /\ completion (do! part_000_rest.handleAuth host in
                 part_000_rest.on_app (part_000.enrollInModule host moduleId)) o w
     = Normal tt.
Proof.
  intros w'. subst w'. unfold exec, completion.
  unfold bind at 1. rewrite part_000_handleAuth_state. cbn -[part_000.enrollInModule].
  split; [|split; [|split]]; try reflexivity.
  - eexists. repeat split. destruct (part_000_rest.authMode (ui w)); reflexivity.
  - unfold part_000_rest.on_app.
    match goal with
    | |- context [part_000.enrollInModule host moduleId o ?w1] =>
        pose proof (enrollInModule_cases host o w1 moduleId) as C;
        cbv zeta in C; unfold exec, completion in C;
        destruct (part_000.enrollInModule host moduleId o w1) as [c w2]
    end.
    cbn in C |- *. destruct (existsb _ _).
    + destruct C as [_ ->]. reflexivity.
    + destruct C as (_ & _ & _ & _ & ->). reflexivity.
Qed.

(** X27.  A sign-in that is not a registration takes the role from the address
    alone.  In [part_001] the user is signed in as HR, and sent to the HR
    dashboard, exactly when [hr] occurs somewhere in the address, and
    nothing is written to the local storage; in [part_000] exactly when
    [company] or [org] occurs in it. *)
Theorem login_role_from_address (o : Oracle) :
  (forall w : World part_001_rest.State,
     part_001_rest.authMode (ui w) <> register ->
     let w' := exec part_001_rest.handleAuth o w in
     exists u,
       part_001.currentUser (part_001_rest.app (ui w')) = Some u
       /\ (User.role u = hr
           <-> occurs_in "hr" (AuthForm.email (part_001_rest.authForm (ui w))))
       /\ part_001_rest.view (ui w') = dashboard_of (User.role u)
       /\ localStorage (io w') = localStorage (io w))
  /\ (forall w : World part_000_rest.State,
        part_000_rest.authMode (ui w) <> register ->
        let w' := exec (part_000_rest.handleAuth host) o w in
        exists u,
          part_000.currentUser (part_000_rest.app (ui w')) = Some u
          /\ (User.role u = hr
              <-> occurs_in "company" (AuthForm.email (part_000_rest.authForm (ui w)))
                  \/ occurs_in "org" (AuthForm.email (part_000_rest.authForm (ui w))))
          /\ part_000_rest.view (ui w') = dashboard_of (User.role u)).
Proof.
  split.
  - intros w Hmode w'. subst w'. unfold exec. rewrite part_001_handleAuth_state. cbn.
    eexists. split; [reflexivity|]. split; [|split; reflexivity].
    rewrite <- includes_spec.
    destruct (part_001_rest.authMode (ui w)); [|congruence|]; cbn;
      destruct (includes _ "hr"); split; congruence.
  - intros w Hmode w'. subst w'. unfold exec. rewrite part_000_handleAuth_state. cbn.
    eexists. split; [reflexivity|]. split; [|reflexivity].
    rewrite <- !includes_spec, <- orb_true_iff.
    destruct (part_000_rest.authMode (ui w)); [|congruence|]; cbn;
      destruct (includes _ "company" || includes _ "org"); split; congruence.
Qed.
End SignIn.

Lemma login_role_from_address_witness :
  exists u,
    part_001.currentUser
      (part_001_rest.app (ui (exec part_001_rest.handleAuth offline
                                (signing_in_001 login christine)))) = Some u
    /\ (User.role u = hr
        <-> occurs_in "hr"
              (AuthForm.email (part_001_rest.authForm (ui (signing_in_001 login christine)))))
    /\ part_001_rest.view (ui (exec part_001_rest.handleAuth offline
                                 (signing_in_001 login christine)))
       = dashboard_of (User.role u)
    /\ localStorage (io (exec part_001_rest.handleAuth offline
                           (signing_in_001 login christine)))
       = localStorage (io (signing_in_001 login christine)).
Proof.
  apply (proj1 (login_role_from_address host_rejecting offline)
           (signing_in_001 login christine)).
  discriminate.
Defined.

(** ** Completing an enrollment, seen from the analytics *)

(** X5.  Completing an enrollment changes neither the number of enrollments nor
    of modules the analytics report, and the completion rate they report
    does not go down. *)
Theorem completing_never_lowers_the_rate (host : Host) (o : Oracle)
    (w : World part_000.State) (target : string) (score : JSNum) (answers : list JValue) :
  let before := part_000.calculateAnalytics (ui w) in
  let after :=
    part_000.calculateAnalytics
      (ui (exec (part_000.completeEnrollment host target score answers) o w)) in
  part_000.totalEnrollments after = part_000.totalEnrollments before
  /\ part_000.totalModules after = part_000.totalModules before
  /\ exists a b : Z,
       part_000.completionRate before = Fin (inject_Z a)
       /\ part_000.completionRate after = Fin (inject_Z b)
       /\ a <= b.
Proof.
  intros before after. subst before after.
  destruct (completeEnrollment_enrollments host o w target score answers)
    as (updated & E & F).
  destruct (completeEnrollment_frame host o w target score answers) as [M _].
  assert (L : length updated = length (part_000.enrollments (ui w)))
    by (symmetry; eapply Forall2_length; exact F).
  assert (G : (length (List.filter Enrollment.completed (part_000.enrollments (ui w)))
               <= length (List.filter Enrollment.completed updated))%nat).
  { apply completed_count_grows.
    eapply Forall2_impl; [exact F|]. intros e e' H Hc. cbn beta in H.
    destruct (String.eqb (Enrollment.id e) target).
    - destruct H as (now & ->). reflexivity.
    - subst e'. exact Hc. }
  split; [|split].
  - cbn [part_000.calculateAnalytics part_000.totalEnrollments]. rewrite E. exact L.
  - cbn [part_000.calculateAnalytics part_000.totalModules]. rewrite M. reflexivity.
  - rewrite !completionRate_value, E, L.
    destruct (0 <? length (part_000.enrollments (ui w)))%nat eqn:Hlt.
    + apply Nat.ltb_lt in Hlt.
      pose proof (filter_length_le Enrollment.completed updated) as Hc. rewrite L in Hc.
      destruct (percentage_le _ _ _ Hlt G Hc) as (r & r' & -> & -> & _ & Hr & _).
      cbn [Math_round]. do 2 eexists. split; [reflexivity|]. split; [reflexivity|].
      apply Qfloor_resp_le. lra.
    + exists 0, 0. repeat split. lia.
Qed.

(** ** [src/App.tsx]: the chat input *)

Lemma trimStart_blank (s : string) : trimStart s = "" <-> blank s = true.
Proof.
  induction s as [|c s IH]; cbn [trimStart blank]; [tauto|].
  destruct (is_space c); cbn [andb]; [exact IH|]. split; discriminate.
Qed.

Lemma trimEnd_kept (s : string) : trimStart s = s -> trimEnd s = "" -> s = "".
Proof.
  destruct s as [|c s]; [reflexivity|]. cbn [trimStart trimEnd].
  destruct (is_space c) eqn:Hc.
  - intros H _. exfalso.
    assert (Le : forall t, (String.length (trimStart t) <= String.length t)%nat).
    { induction t as [|y t IHt]; cbn; [lia|]. destruct (is_space y); cbn; lia. }
    specialize (Le s). rewrite H in Le. cbn in Le. lia.
  - intros _. destruct (trimEnd s); discriminate.
Qed.

(** [trim] leaves nothing exactly of the blank strings. *)
Lemma trim_blank (s : string) : trim s = "" <-> blank s = true.
Proof.
  rewrite <- trimStart_blank. unfold trim. split.
  - apply trimEnd_kept, trimStart_idem.
  - intros ->. reflexivity.
Qed.

Section ChatInput.
Variable host : Host.

Lemma on_app_handleLearningQuestion o (w : World App_rest.State) question :
  let inner := exec (App_tsx.handleLearningQuestion host question) o
                 {| io := io w; ui := App_rest.app (ui w) |} in
  exec (App_rest.on_app (App_tsx.handleLearningQuestion host question)) o w
  = {| io := io inner; ui := App_rest.with_app (ui inner) (ui w) |}.
Proof.
  cbv zeta. unfold exec, App_rest.on_app.
  destruct (App_tsx.handleLearningQuestion host question o
              {| io := io w; ui := App_rest.app (ui w) |}) as [c w1].
  reflexivity.
Qed.

(** X20.  With only white space in the chat input, the Send button does nothing
    at all.  The Enter key does not look at the input: with a lesson open it
    sends a request and pushes the blank text as a user entry, and it leaves
    the input as it is. *)
Theorem blank_question_button_and_key (o : Oracle) (w : World App_rest.State)
    (lesson : App_tsx.Lesson.t) :
  blank (App_rest.chatInput (ui w)) = true ->
  App_tsx.currentLesson (App_rest.app (ui w)) = Some lesson ->
  exec (App_rest.onClick_Send host) o w = w
  /\ let w' := exec (App_rest.onKeyPress host "Enter") o w in
     length (sent (io w')) = S (length (sent (io w)))
     /\ nth_error (App_tsx.chatMessages (App_rest.app (ui w')))
          (length (App_tsx.chatMessages (App_rest.app (ui w))))
        = Some {| role := user; content := JStr (App_rest.chatInput (ui w)); extra := [] |}
     /\ App_rest.chatInput (ui w') = App_rest.chatInput (ui w).
Proof.
  intros Hb Hl. split.
  - unfold exec, App_rest.onClick_Send, bind, get_state. cbn.
    apply trim_blank in Hb. rewrite Hb. cbn. reflexivity.
  - cbv zeta.
    assert (E : exec (App_rest.onKeyPress host "Enter") o w =
                exec (App_rest.on_app
                        (App_tsx.handleLearningQuestion host (App_rest.chatInput (ui w))))
                  o w) by reflexivity.
    rewrite E, on_app_handleLearningQuestion. cbn [io ui App_rest.with_app
      App_rest.app App_rest.chatInput].
    split; [|split; [|reflexivity]].
    + rewrite (handleLearningQuestion_request host o
               {| io := io w; ui := App_rest.app (ui w) |} _ lesson Hl).
      rewrite length_app. cbn. lia.
    + rewrite (handleLearningQuestion_chat host o
               {| io := io w; ui := App_rest.app (ui w) |} _ lesson Hl). cbn [ui].
      rewrite nth_error_app2 by lia. rewrite Nat.sub_diag. reflexivity.
Qed.
End ChatInput.

Lemma blank_question_button_and_key_witness :
  exec (App_rest.onClick_Send host_rejecting) offline (typing_world "   ")
  = typing_world "   ".
Proof.
  apply (proj1 (blank_question_button_and_key host_rejecting offline (typing_world "   ")
                  fire_safety eq_refl eq_refl)).
Defined.

(** X21.  With anything but white space in the input, the Send button asks the
    question as typed, white space around it included, and empties the
    input. *)
Theorem typed_question_is_sent_untrimmed (host : Host) (o : Oracle)
    (w : World App_rest.State) (lesson : App_tsx.Lesson.t) :
  blank (App_rest.chatInput (ui w)) = false ->
  App_tsx.currentLesson (App_rest.app (ui w)) = Some lesson ->
  let w' := exec (App_rest.onClick_Send host) o w in
  App_rest.chatInput (ui w') = ""
  /\ nth_error (App_tsx.chatMessages (App_rest.app (ui w')))
       (length (App_tsx.chatMessages (App_rest.app (ui w))))
     = Some {| role := user; content := JStr (App_rest.chatInput (ui w)); extra := [] |}
  /\ exists userId,
       sent (io w') = sent (io w) ++
         [post host (four_fields userId App_tsx.LEARN_AGENT
                       (App_tsx.sessionId (App_rest.app (ui w)))
                       (App_tsx.learning_prompt lesson (App_rest.chatInput (ui w))))].
Proof.
  intros Hb Hl. cbv zeta.
  assert (Hn : nonempty (trim (App_rest.chatInput (ui w))) = true).
  { unfold nonempty. apply negb_true_iff. apply String.eqb_neq. intros E.
    apply trim_blank in E. congruence. }
  assert (E : exec (App_rest.onClick_Send host) o w =
              exec (App_rest.setChatInput "") o
                (exec (App_rest.on_app
                         (App_tsx.handleLearningQuestion host (App_rest.chatInput (ui w))))
                   o w)).
  { unfold exec, App_rest.onClick_Send, bind, get_state. cbn. rewrite Hn.
    destruct (App_rest.on_app _ o w) as [[[]|] w1] eqn:R; cbn; [reflexivity|].
    exfalso. revert R. unfold App_rest.on_app.
    pose proof (handleLearningQuestion_returns host o
                  {| io := io w; ui := App_rest.app (ui w) |}
                  (App_rest.chatInput (ui w))) as C.
    unfold completion in C.
    destruct (App_tsx.handleLearningQuestion host (App_rest.chatInput (ui w)) o
                {| io := io w; ui := App_rest.app (ui w) |}) as [c w2].
    cbn in C. subst c. discriminate. }
  rewrite E, on_app_handleLearningQuestion. cbn.
  split; [reflexivity|]. split.
  - rewrite (handleLearningQuestion_chat host o
               {| io := io w; ui := App_rest.app (ui w) |} _ lesson Hl). cbn [ui].
    rewrite nth_error_app2 by lia. rewrite Nat.sub_diag. reflexivity.
  - eexists. apply (handleLearningQuestion_request host o
                      {| io := io w; ui := App_rest.app (ui w) |} _ lesson Hl).
Qed.

Lemma typed_question_is_sent_untrimmed_witness :
  App_rest.chatInput
    (ui (exec (App_rest.onClick_Send host_rejecting) offline
           (typing_world " Where is the exit? "))) = "".
Proof.
  apply (proj1 (typed_question_is_sent_untrimmed host_rejecting offline
                  (typing_world " Where is the exit? ") fire_safety eq_refl eq_refl)).
Defined.
